(** * NewNa Segmentation: the box-geometry and interaction engine

    A shallow embedding of [SegmentationViewer.js] (coordinate mapping, the
    draw / resize handlers, category filtering, two-phase deletion) and of the
    prediction post-processing of [App.js], followed by the properties of the
    specification that concern them.

    JavaScript numbers are IEEE-754 binary64 values.  The handlers only use
    [+ - * /], [<], [Math.abs], [Math.max] and [||]; they are embedded once,
    over an interface [Number] of these operations, and the interface is
    instantiated twice:
    - [binary64] : Rocq's primitive floats, the arithmetic the program
      really runs on (every concrete run below is evaluated there);
    - [exactQ]   : the rationals, the arithmetic "without rounding" in which
      the algebraic laws of the specification are meant.

    A component is its props and [useState] cells in one record [Viewer];
    an event handler is a function from the record the last render left to
    the record its state updates produce (React renders between two events,
    and the functional updates [setX(prev => ...)] read the latest state).
    [Date.now()] is an input of the handler that reads it. *)

From Stdlib Require Import ZArith NArith QArith Qabs Qminmax.
From Stdlib Require Import List String Ascii Bool Lia Lqa.
From Stdlib Require Import Floats Uint63.
From Stdlib Require Import Decimal DecimalString DecimalPos DecimalZ.
Import ListNotations.

Set Implicit Arguments.
Local Open Scope string_scope.
Local Open Scope list_scope.

(* ================================================================== *)
(** ** JavaScript values used by the viewer *)

(** [ToBoolean] of a string-or-null state variable ([selectedBoxId],
    [editingBoxId], [metadata.fileName]): [null] and the empty string are
    falsy. *)
Definition truthy_string (o : option string) : bool :=
  match o with
  | Some (String _ _) => true
  | _ => false
  end.

(** The result of [parseInt]: an integer or [NaN]. *)
Inductive JsInt : Type :=
  | JNaN : JsInt
  | JInt : Z -> JsInt.

(** [WhiteSpace] and [LineTerminator] characters of the ASCII range, which
    [parseInt] strips from the front of its argument. *)
Definition is_js_space (c : ascii) : bool :=
  match nat_of_ascii c with
  | 9%nat | 10%nat | 11%nat | 12%nat | 13%nat | 32%nat => true
  | _ => false
  end.

Fixpoint skip_js_space (s : string) : string :=
  match s with
  | String c r => if is_js_space c then skip_js_space r else s
  | EmptyString => s
  end.

Definition decimal_digit (c : ascii) : option (uint -> uint) :=
  match c with
  | "0"%char => Some D0 | "1"%char => Some D1 | "2"%char => Some D2
  | "3"%char => Some D3 | "4"%char => Some D4 | "5"%char => Some D5
  | "6"%char => Some D6 | "7"%char => Some D7 | "8"%char => Some D8
  | "9"%char => Some D9
  | _ => None
  end.

(** The longest prefix of [s] made of decimal digits. *)
Fixpoint digit_prefix (s : string) : uint :=
  match s with
  | String c r =>
      match decimal_digit c with
      | Some d => d (digit_prefix r)
      | None => Nil
      end
  | EmptyString => Nil
  end.

(** [parseInt(s, 10)]: leading white space is skipped, one sign is read, the
    longest run of decimal digits is the value; no digit at all is [NaN]. *)
Definition parseInt (s : string) : JsInt :=
  let s1 := skip_js_space s in
  let '(negative, s2) :=
    match s1 with
    | String "-"%char r => (true, r)
    | String "+"%char r => (false, r)
    | _ => (false, s1)
    end in
  match digit_prefix s2 with
  | Nil => JNaN
  | d => JInt (if negative then - Z.of_uint d else Z.of_uint d)
  end.

(** [n.toString()] and [`${n}`] of an integer-valued number. *)
Definition toString (n : Z) : string :=
  NilZero.string_of_int (Z.to_int n).

(** [box.category_id === catId], the left side a number or [null], the right
    side the result of [parseInt]: [NaN] equals nothing, [null] no number. *)
Definition category_eq (c : option JsInt) (k : JsInt) : bool :=
  match c, k with
  | Some (JInt a), JInt b => Z.eqb a b
  | _, _ => false
  end.

(* ================================================================== *)
(** ** The arithmetic of JavaScript numbers *)

Class Number (num : Type) : Type := {
  num_of_N : N -> num;             (* an integer-valued DOM attribute *)
  num_sub : num -> num -> num;     (* a - b *)
  num_add : num -> num -> num;     (* a + b *)
  num_mul : num -> num -> num;     (* a * b *)
  num_div : num -> num -> num;     (* a / b *)
  num_ltb : num -> num -> bool;    (* a < b *)
  num_abs : num -> num;            (* Math.abs(a) *)
  num_max : num -> num -> num;     (* Math.max(a, b) *)
  num_truthy : num -> bool         (* ToBoolean(a) *)
}.

Declare Scope num_scope.
Delimit Scope num_scope with num.
Infix "-" := num_sub : num_scope.
Infix "+" := num_add : num_scope.
Infix "*" := num_mul : num_scope.
Infix "/" := num_div : num_scope.
Infix "<?" := num_ltb : num_scope.

(** [a || b] on numbers. *)
Definition num_or {num : Type} `{Number num} (a b : num) : num :=
  if num_truthy a then a else b.

(** *** binary64 *)

(** [Math.max] of ECMAScript: [NaN] if either argument is, and [+0] is
    larger than [-0]. *)
Definition float_max (a b : float) : float :=
  if (PrimFloat.is_nan a || PrimFloat.is_nan b)%bool then PrimFloat.nan
  else if PrimFloat.ltb a b then b
  else if PrimFloat.ltb b a then a
  else if PrimFloat.get_sign a then b else a.

(** The conversion is exact below [2^53], which covers the 32-bit image and
    layout dimensions of the DOM. *)
Definition float_of_N (n : N) : float :=
  PrimFloat.of_uint63 (Uint63.of_Z (Z.of_N n)).

Definition float_truthy (a : float) : bool :=
  negb (PrimFloat.is_zero a || PrimFloat.is_nan a).

#[export] Instance binary64 : Number float := {
  num_of_N := float_of_N;
  num_sub := PrimFloat.sub;
  num_add := PrimFloat.add;
  num_mul := PrimFloat.mul;
  num_div := PrimFloat.div;
  num_ltb := PrimFloat.ltb;
  num_abs := PrimFloat.abs;
  num_max := float_max;
  num_truthy := float_truthy
}.

(** *** Exact arithmetic *)

Definition Q_ltb (a b : Q) : bool := negb (Qle_bool b a).

(** Division by zero, which binary64 answers with an infinity or [NaN], has
    no exact counterpart; [Qdiv] returns 0 there and nothing below relies on
    it. *)
#[export] Instance exactQ : Number Q := {
  num_of_N := fun n => inject_Z (Z.of_N n);
  num_sub := Qminus;
  num_add := Qplus;
  num_mul := Qmult;
  num_div := Qdiv;
  num_ltb := Q_ltb;
  num_abs := Qabs;
  num_max := Qmax;
  num_truthy := fun a => negb (Qeq_bool a 0)
}.

(* ================================================================== *)
(** ** Data model *)

(** An entry of the Box Store ([allBoxes]); geometry is in natural image
    coordinates.  [category_id] is a number or [null]; [fadeOut] is absent
    (falsy) until the box is marked for removal. *)
Record Box (num : Type) : Type := mkBox {
  id : string;
  x : num;
  y : num;
  width : num;
  height : num;
  category_id : option JsInt;
  isBackend : bool;
  file_name : string;
  fadeOut : bool
}.

(** [currentBox]: the box being drawn, which has no [id] yet. *)
Record Draft (num : Type) : Type := mkDraft {
  draft_x : num;
  draft_y : num;
  draft_width : num;
  draft_height : num;
  draft_category_id : option JsInt;
  draft_isBackend : bool;
  draft_file_name : string
}.

(** What the viewer reads of the image element behind [imgRef.current]. *)
Record Image (num : Type) : Type := mkImage {
  naturalWidth : N;
  naturalHeight : N;
  clientWidth : N;
  clientHeight : N;
  complete : bool;
  bounds_left : num;      (* getBoundingClientRect().left *)
  bounds_top : num        (* getBoundingClientRect().top *)
}.

Record MouseEvent (num : Type) : Type := mkMouseEvent {
  clientX : num;
  clientY : num
}.

(** Of the page metadata the viewer reads [fileName] only. *)
Record Metadata : Type := mkMetadata {
  fileName : string
}.

(** Props and state of one mounted [SegmentationViewer]. *)
Record Viewer (num : Type) : Type := mkViewer {
  (* props *)
  imgRef : option (Image num);
  filterCategory : string;
  allBoxes : list (Box num);
  metadata : option Metadata;
  (* useState *)
  isDrawing : bool;
  currentBox : option (Draft num);
  activeBoxId : option string;
  isResizing : bool;
  resizingCorner : option string;
  selectedBoxId : option string;
  editingBoxId : option string;
  isCategoryMenuOpen : bool;
  imageLoaded : bool;
  filteredBoxes : list (Box num);
  scaleX : num;
  scaleY : num
}.

(** A box of [scaledBoxes]: the stored box and its displayed geometry. *)
Record ScaledBox (num : Type) : Type := mkScaledBox {
  box : Box num;
  scaledX : num;
  scaledY : num;
  scaledW : num;
  scaledH : num
}.

(** An entry of [response.data.predictions]; [bbox] is [x1, y1, x2, y2]. *)
Record Prediction (num : Type) : Type := mkPrediction {
  image_id : option Z;
  pred_category_id : option JsInt;
  bbox0 : num;
  bbox1 : num;
  bbox2 : num;
  bbox3 : num;
  pred_file_name : string
}.

(* ================================================================== *)
(** ** State updates *)

Section Setters.
Context {num : Type}.

Definition setAllBoxes (f : list (Box num) -> list (Box num))
    (s : Viewer num) : Viewer num :=
  mkViewer s.(imgRef) s.(filterCategory) (f s.(allBoxes)) s.(metadata)
    s.(isDrawing) s.(currentBox) s.(activeBoxId) s.(isResizing)
    s.(resizingCorner) s.(selectedBoxId) s.(editingBoxId)
    s.(isCategoryMenuOpen) s.(imageLoaded) s.(filteredBoxes)
    s.(scaleX) s.(scaleY).

(** [setIsDrawing(d); setCurrentBox(c)] *)
Definition setDrawing (d : bool) (c : option (Draft num))
    (s : Viewer num) : Viewer num :=
  mkViewer s.(imgRef) s.(filterCategory) s.(allBoxes) s.(metadata)
    d c s.(activeBoxId) s.(isResizing)
    s.(resizingCorner) s.(selectedBoxId) s.(editingBoxId)
    s.(isCategoryMenuOpen) s.(imageLoaded) s.(filteredBoxes)
    s.(scaleX) s.(scaleY).

(** [setIsResizing(r); setActiveBoxId(a); setResizingCorner(c)] *)
Definition setResizing (r : bool) (a c : option string)
    (s : Viewer num) : Viewer num :=
  mkViewer s.(imgRef) s.(filterCategory) s.(allBoxes) s.(metadata)
    s.(isDrawing) s.(currentBox) a r
    c s.(selectedBoxId) s.(editingBoxId)
    s.(isCategoryMenuOpen) s.(imageLoaded) s.(filteredBoxes)
    s.(scaleX) s.(scaleY).

Definition setSelectedBoxId (sel : option string)
    (s : Viewer num) : Viewer num :=
  mkViewer s.(imgRef) s.(filterCategory) s.(allBoxes) s.(metadata)
    s.(isDrawing) s.(currentBox) s.(activeBoxId) s.(isResizing)
    s.(resizingCorner) sel s.(editingBoxId)
    s.(isCategoryMenuOpen) s.(imageLoaded) s.(filteredBoxes)
    s.(scaleX) s.(scaleY).

Definition setEditingBoxId (e : option string)
    (s : Viewer num) : Viewer num :=
  mkViewer s.(imgRef) s.(filterCategory) s.(allBoxes) s.(metadata)
    s.(isDrawing) s.(currentBox) s.(activeBoxId) s.(isResizing)
    s.(resizingCorner) s.(selectedBoxId) e
    s.(isCategoryMenuOpen) s.(imageLoaded) s.(filteredBoxes)
    s.(scaleX) s.(scaleY).

Definition setIsCategoryMenuOpen (m : bool)
    (s : Viewer num) : Viewer num :=
  mkViewer s.(imgRef) s.(filterCategory) s.(allBoxes) s.(metadata)
    s.(isDrawing) s.(currentBox) s.(activeBoxId) s.(isResizing)
    s.(resizingCorner) s.(selectedBoxId) s.(editingBoxId)
    m s.(imageLoaded) s.(filteredBoxes)
    s.(scaleX) s.(scaleY).

Definition setImageLoaded (l : bool) (s : Viewer num) : Viewer num :=
  mkViewer s.(imgRef) s.(filterCategory) s.(allBoxes) s.(metadata)
    s.(isDrawing) s.(currentBox) s.(activeBoxId) s.(isResizing)
    s.(resizingCorner) s.(selectedBoxId) s.(editingBoxId)
    s.(isCategoryMenuOpen) l s.(filteredBoxes)
    s.(scaleX) s.(scaleY).

Definition setFilteredBoxes (l : list (Box num))
    (s : Viewer num) : Viewer num :=
  mkViewer s.(imgRef) s.(filterCategory) s.(allBoxes) s.(metadata)
    s.(isDrawing) s.(currentBox) s.(activeBoxId) s.(isResizing)
    s.(resizingCorner) s.(selectedBoxId) s.(editingBoxId)
    s.(isCategoryMenuOpen) s.(imageLoaded) l
    s.(scaleX) s.(scaleY).

(** [setScaleX(sx); setScaleY(sy)] *)
Definition setScale (sx sy : num) (s : Viewer num) : Viewer num :=
  mkViewer s.(imgRef) s.(filterCategory) s.(allBoxes) s.(metadata)
    s.(isDrawing) s.(currentBox) s.(activeBoxId) s.(isResizing)
    s.(resizingCorner) s.(selectedBoxId) s.(editingBoxId)
    s.(isCategoryMenuOpen) s.(imageLoaded) s.(filteredBoxes)
    sx sy.

(** [{ ...b, fadeOut: true }] *)
Definition markFadeOut (b : Box num) : Box num :=
  mkBox b.(id) b.(x) b.(y) b.(width) b.(height) b.(category_id)
    b.(isBackend) b.(file_name) true.

(** [{ ...b, category_id: c }] *)
Definition withCategory (c : option JsInt) (b : Box num) : Box num :=
  mkBox b.(id) b.(x) b.(y) b.(width) b.(height) c
    b.(isBackend) b.(file_name) b.(fadeOut).

(** [{ ...b, x: x', y: y', width: w', height: h' }] *)
Definition withGeometry (x' y' w' h' : num) (b : Box num) : Box num :=
  mkBox b.(id) x' y' w' h' b.(category_id)
    b.(isBackend) b.(file_name) b.(fadeOut).

(** [{ ...currentBox, id: i }] *)
Definition withId (i : string) (d : Draft num) : Box num :=
  mkBox i d.(draft_x) d.(draft_y) d.(draft_width) d.(draft_height)
    d.(draft_category_id) d.(draft_isBackend) d.(draft_file_name) false.

End Setters.

(* ================================================================== *)
(** ** SegmentationViewer *)

Section SegmentationViewer.
Context {num : Type} `{NumOps : Number num}.
Local Open Scope num_scope.

Definition zero : num := num_of_N 0.
Definition one : num := num_of_N 1.

(** The viewer as first rendered: the [useState] defaults. *)
Definition mount (img : option (Image num)) (filterValue : string)
    (boxes : list (Box num)) (meta : option Metadata) : Viewer num :=
  mkViewer img filterValue boxes meta
    false None None false None None None false false [] one one.

(** [const scaledBoxes = allBoxes.map(...)] *)
Definition toDisplayed (sx sy : num) (b : Box num) : ScaledBox num :=
  mkScaledBox b (b.(x) * sx) (b.(y) * sy) (b.(width) * sx) (b.(height) * sy).

Definition scaledBoxes (s : Viewer num) : list (ScaledBox num) :=
  map (toDisplayed s.(scaleX) s.(scaleY)) s.(allBoxes).

(** [useEffect(..., [imageId])] *)
Definition effect_imageId (s : Viewer num) : Viewer num :=
  setImageLoaded false s.

(** [useEffect(..., [imgRef])] *)
Definition effect_imgRef (s : Viewer num) : Viewer num :=
  match s.(imgRef) with
  | Some img => if img.(complete) then setImageLoaded true s else s
  | None => s
  end.

(** [useEffect(..., [imageLoaded, imgRef])]: the scale factors. *)
Definition effect_scale (s : Viewer num) : Viewer num :=
  match s.(imgRef) with
  | None => s
  | Some img =>
      if negb s.(imageLoaded) then s
      else
        let naturalW := num_or (num_of_N img.(naturalWidth)) one in
        let naturalH := num_or (num_of_N img.(naturalHeight)) one in
        let displayW := num_or (num_of_N img.(clientWidth)) naturalW in
        let displayH := num_or (num_of_N img.(clientHeight)) naturalH in
        setScale (displayW / naturalW) (displayH / naturalH) s
  end.

(** The list the filter effect stores: its [if (filterCategory === 'all')]
    with both branches. *)
Definition deriveVisible (filterValue : string)
    (boxes : list (Box num)) : list (Box num) :=
  if String.eqb filterValue "all" then boxes
  else
    let catId := parseInt filterValue in
    List.filter (fun b => category_eq b.(category_id) catId) boxes.

(** [useEffect(..., [filterCategory, allBoxes])] *)
Definition effect_filteredBoxes (s : Viewer num) : Viewer num :=
  setFilteredBoxes (deriveVisible s.(filterCategory) s.(allBoxes)) s.

(** The boxes of the SVG overlay: [scaledBoxes.filter(...)]. *)
Definition renderedBoxes (s : Viewer num) : list (ScaledBox num) :=
  List.filter
    (fun sb =>
       if String.eqb s.(filterCategory) "all" then true
       else category_eq sb.(box).(category_id)
              (parseInt s.(filterCategory)))
    (scaledBoxes s).

Definition getEventCoordinates (s : Viewer num)
    (e : MouseEvent num) : num * num :=
  match s.(imgRef) with
  | None => (zero, zero)
  | Some img =>
      let displayX := e.(clientX) - img.(bounds_left) in
      let displayY := e.(clientY) - img.(bounds_top) in
      let realX := displayX / s.(scaleX) in
      let realY := displayY / s.(scaleY) in
      (realX, realY)
  end.

Definition handleMouseDown (s : Viewer num)
    (e : MouseEvent num) : Viewer num :=
  if (truthy_string s.(selectedBoxId)
      || truthy_string s.(editingBoxId))%bool
  then
    setIsCategoryMenuOpen false
      (setEditingBoxId None (setSelectedBoxId None s))
  else
    let '(realX, realY) := getEventCoordinates s e in
    setDrawing true
      (Some
         (mkDraft realX realY zero zero
            (if String.eqb s.(filterCategory) "all" then None
             else Some (parseInt s.(filterCategory)))
            false
            (match s.(metadata) with
             | Some m =>
                 if truthy_string (Some m.(fileName)) then m.(fileName)
                 else "default_filename"
             | None => "default_filename"
             end)))
      s.

(** The update of [currentBox] on a move while drawing. *)
Definition dragDraft (realX realY : num) (prev : Draft num) : Draft num :=
  mkDraft
    (if realX <? prev.(draft_x) then realX else prev.(draft_x))
    (if realY <? prev.(draft_y) then realY else prev.(draft_y))
    (num_abs (realX - prev.(draft_x)))
    (num_abs (realY - prev.(draft_y)))
    prev.(draft_category_id) prev.(draft_isBackend)
    prev.(draft_file_name).

(** The update of one box of the store on a move while resizing. *)
Definition resizeBox (activeBoxId : string) (resizingCorner : option string)
    (realX realY : num) (b : Box num) : Box num :=
  if String.eqb b.(id) activeBoxId then
    let isTopLeft :=
      match resizingCorner with
      | Some c => String.eqb c "top-left"
      | None => false
      end in
    let newWidth :=
      if isTopLeft then b.(width) + (b.(x) - realX)
      else num_abs (realX - b.(x)) in
    let newHeight :=
      if isTopLeft then b.(height) + (b.(y) - realY)
      else num_abs (realY - b.(y)) in
    withGeometry
      (if isTopLeft then realX else b.(x))
      (if isTopLeft then realY else b.(y))
      (num_max one newWidth)
      (num_max one newHeight)
      b
  else b.

Definition handleMouseMove (s : Viewer num)
    (e : MouseEvent num) : Viewer num :=
  if (negb s.(isDrawing) && negb s.(isResizing))%bool then s
  else
    let '(realX, realY) := getEventCoordinates s e in
    match s.(isDrawing), s.(currentBox) with
    | true, Some prev =>
        setDrawing s.(isDrawing) (Some (dragDraft realX realY prev)) s
    | _, _ =>
        match s.(isResizing), s.(activeBoxId) with
        | true, Some a =>
            setAllBoxes
              (map (resizeBox a s.(resizingCorner) realX realY)) s
        | _, _ => s
        end
    end.

(** [now] is the reading of [Date.now()] taken by the handler. *)
Definition handleMouseUp (now : Z) (s : Viewer num) : Viewer num :=
  let s1 :=
    match s.(isDrawing), s.(currentBox) with
    | true, Some cur =>
        let newBox := withId (toString now) cur in
        setDrawing false None
          (setAllBoxes (fun prev => prev ++ [newBox]) s)
    | _, _ => s
    end in
  setResizing false None None s1.

Definition handleResizeMouseDown (boxId corner : string)
    (s : Viewer num) : Viewer num :=
  setResizing true (Some boxId) (Some corner) s.

Definition handleChangeCategory (boxId : string) (newCategoryId : Z)
    (s : Viewer num) : Viewer num :=
  setSelectedBoxId None
    (setIsCategoryMenuOpen false
       (setAllBoxes
          (map (fun b =>
                  if String.eqb b.(id) boxId
                  then withCategory (Some (JInt newCategoryId)) b
                  else b))
          s)).

(** [b.id === selectedBoxId] *)
Definition id_is (sel : option string) (b : Box num) : bool :=
  match sel with
  | Some i => String.eqb b.(id) i
  | None => false
  end.

(** The "Delete" button: the synchronous part of its [onClick]. *)
Definition deleteOnClick (s : Viewer num) : Viewer num :=
  setSelectedBoxId None
    (setAllBoxes
       (map (fun b => if id_is s.(selectedBoxId) b then markFadeOut b
                      else b))
       s).

(** The callback its [setTimeout] runs one second later. *)
Definition deleteTimeout (s : Viewer num) : Viewer num :=
  setAllBoxes (List.filter (fun b => negb b.(fadeOut))) s.

(** The "Edit" button. *)
Definition editOnClick (s : Viewer num) : Viewer num :=
  setSelectedBoxId None (setEditingBoxId s.(selectedBoxId) s).

End SegmentationViewer.

(* ================================================================== *)
(** ** App: boxes from backend predictions *)

Section App.
Context {num : Type} `{NumOps : Number num}.
Local Open Scope num_scope.

(** [ToBoolean] of [pred.image_id], an integer or absent. *)
Definition truthy_Z (o : option Z) : bool :=
  match o with
  | Some z => negb (Z.eqb z 0)
  | None => false
  end.

(** The callback of [response.data.predictions.map]; [now] is the reading
    of [Date.now()] it takes when [image_id] is falsy. *)
Definition processPrediction (now : Z) (idx : nat)
    (pred : Prediction num) : Box num :=
  mkBox
    (if truthy_Z pred.(image_id)
     then "pred-" ++ toString (match pred.(image_id) with
                               | Some z => z
                               | None => 0
                               end)
     else toString now ++ "-" ++ toString (Z.of_nat idx))
    pred.(bbox0)
    pred.(bbox1)
    (pred.(bbox2) - pred.(bbox0))
    (pred.(bbox3) - pred.(bbox1))
    pred.(pred_category_id)
    true
    pred.(pred_file_name)
    false.

Fixpoint mapWithIndex (clock : nat -> Z) (idx : nat)
    (preds : list (Prediction num)) : list (Box num) :=
  match preds with
  | [] => []
  | pred :: rest =>
      processPrediction (clock idx) idx pred
        :: mapWithIndex clock (S idx) rest
  end.

(** [processedPredictions], what [handleImageUpload] passes to
    [setAllBoxes]; [clock idx] is the time at the [idx]-th callback. *)
Definition processedPredictions (clock : nat -> Z)
    (preds : list (Prediction num)) : list (Box num) :=
  mapWithIndex clock 0 preds.

End App.

(* ================================================================== *)
(** ** Gestures *)

Section Gestures.
Context {num : Type} `{NumOps : Number num}.

(** The provisional box a pointer-down at [e] starts. *)
Definition startDraft (s : Viewer num) (e : MouseEvent num) : Draft num :=
  mkDraft (fst (getEventCoordinates s e)) (snd (getEventCoordinates s e))
    zero zero
    (if String.eqb s.(filterCategory) "all" then None
     else Some (parseInt s.(filterCategory)))
    false
    (match s.(metadata) with
     | Some m =>
         if truthy_string (Some m.(fileName)) then m.(fileName)
         else "default_filename"
     | None => "default_filename"
     end).

(** Pointer-down, the pointer-moves of the drag in order, pointer-up, each
    handled by the handler of a render that shows the state the event
    before it left. *)
Definition gesture (now : Z) (down : MouseEvent num)
    (moves : list (MouseEvent num)) (s : Viewer num) : Viewer num :=
  handleMouseUp now (fold_left handleMouseMove moves (handleMouseDown s down)).

(** The user-visible deletion of the selected box: the click, then the
    timer, nothing in between. *)
Definition deleteSelected (s : Viewer num) : Viewer num :=
  deleteTimeout (deleteOnClick s).

Definition boxIds (boxes : list (Box num)) : list string :=
  map (@id num) boxes.

End Gestures.

(** The specification's reading of a filtered list: [l'] holds exactly the
    elements of [l] that satisfy [P], in the order of [l], each as often as
    in [l]. *)
Inductive Selects {A : Type} (P : A -> Prop) : list A -> list A -> Prop :=
  | Selects_nil : Selects P [] []
  | Selects_keep : forall a l l',
      P a -> Selects P l l' -> Selects P (a :: l) (a :: l')
  | Selects_drop : forall a l l',
      ~ P a -> Selects P l l' -> Selects P (a :: l) l'.

(* ================================================================== *)
(** ** Concrete pages, in binary64 *)

Module Run.

Definition f (n : N) : float := float_of_N n.

Definition event (cx cy : N) : MouseEvent float :=
  mkMouseEvent (f cx) (f cy).

(** A 2000x3000 page displayed at 500x750, its top-left corner at
    (40, 20) of the viewport; no box yet. *)
Definition page : Image float :=
  mkImage 2000 3000 500 750 true (f 40) (f 20).

Definition viewer : Viewer float :=
  effect_scale
    (effect_imgRef
       (mount (Some page) "all" [] (Some (mkMetadata "page.png")))).

(** A 2000x2000 page displayed at 600x600 (scale 0.3) with one box. *)
Definition square : Image float :=
  mkImage 2000 2000 600 600 true (f 0) (f 0).

Definition box1 : Box float :=
  mkBox "b1" (f 100) (f 100) (f 200) (f 200) (Some (JInt 0)) true
    "page.png" false.

Definition viewer1 : Viewer float :=
  effect_scale
    (effect_imgRef
       (mount (Some square) "all" [box1] (Some (mkMetadata "page.png")))).

(** A box whose coordinates do not survive scaling by 0.3 and back. *)
Definition box7 : Box float :=
  mkBox "b7" (f 7) (f 14) (f 28) (f 31) (Some (JInt 0)) true
    "page.png" false.

(** An image that reports no natural size but is laid out at 500x750. *)
Definition unsized : Image float :=
  mkImage 0 0 500 750 true (f 0) (f 0).

Definition viewer_unsized : Viewer float :=
  effect_scale
    (effect_imgRef
       (mount (Some unsized) "all" [] (Some (mkMetadata "page.png")))).

(** A store of two boxes, the first already marked for removal, and the
    second selected. *)
Definition box2 : Box float :=
  mkBox "b2" (f 10) (f 10) (f 20) (f 20) (Some (JInt 3)) true
    "page.png" false.

Definition viewer_fading : Viewer float :=
  setSelectedBoxId (Some "b2")
    (mount (Some square) "all" [markFadeOut box1; box2]
       (Some (mkMetadata "page.png"))).

(** Two predictions of one page, both carrying the page's [image_id]. *)
Definition prediction (x1 y1 x2 y2 : N) : Prediction float :=
  mkPrediction (Some 7%Z) (Some (JInt 6)) (f x1) (f y1) (f x2) (f y2)
    "page.png".

Definition predictions : list (Prediction float) :=
  [prediction 10 10 110 60; prediction 200 300 400 500].

(** The store [handleImageUpload] builds from them, with one of its boxes
    selected. *)
Definition viewer_predicted (clock : nat -> Z) : Viewer float :=
  setSelectedBoxId (Some "pred-7")
    (mount (Some square) "all" (processedPredictions clock predictions)
       (Some (mkMetadata "page.png"))).

End Run.

(* ================================================================== *)
(** ** The same pages, in exact arithmetic *)

Module Ideal.

Definition q (n : N) : Q := inject_Z (Z.of_N n).

Definition event (cx cy : N) : MouseEvent Q :=
  mkMouseEvent (q cx) (q cy).

Definition square : Image Q :=
  mkImage 2000 2000 600 600 true (q 0) (q 0).

Definition box1 : Box Q :=
  mkBox "b1" (q 100) (q 100) (q 200) (q 200) (Some (JInt 0)) true
    "page.png" false.

Definition box7 : Box Q :=
  mkBox "b7" (q 7) (q 14) (q 28) (q 31) (Some (JInt 0)) true
    "page.png" false.

Definition mounted : Viewer Q :=
  effect_imgRef
    (mount (Some square) "all" [box1] (Some (mkMetadata "page.png"))).

Definition viewer1 : Viewer Q := effect_scale mounted.

Definition unsized : Image Q :=
  mkImage 0 0 500 750 true (q 0) (q 0).

Definition mounted_unsized : Viewer Q :=
  effect_imgRef
    (mount (Some unsized) "all" [] (Some (mkMetadata "page.png"))).

End Ideal.

(* ================================================================== *)
(** ** SegmentationViewer: selection, menu and colours *)

(** [getColorForCategory]: the [switch] compares with [===], so [null],
    [NaN] and every number but 0..6 take the default. *)
Definition getColorForCategory (catId : option JsInt) : string :=
  match catId with
  | Some (JInt 0) => "rgba(58,68,102,0.4)"
  | Some (JInt 1) => "rgba(178,57,48,0.4)"
  | Some (JInt 2) => "rgba(47,115,84,0.4)"
  | Some (JInt 3) => "rgba(216,172,82,0.4)"
  | Some (JInt 4) => "rgba(112,72,145,0.4)"
  | Some (JInt 5) => "rgba(66,113,161,0.4)"
  | Some (JInt 6) => "rgba(189,87,38,0.4)"
  | _ => "rgba(89,96,108,0.4)"
  end.

(** [categories] of the viewer: id and name. *)
Definition categories : list (Z * string) :=
  [(0, "Photograph"); (1, "Illustration"); (2, "Map");
   (3, "Comic/Cartoon"); (4, "Editorial Cartoon"); (5, "Headline");
   (6, "Advertisement")]%Z.

(** The fill of the box being drawn (the [rect] under
    [isDrawing && currentBox]). *)
Definition drawingFill : string := "rgba(89,96,108,0.4)".

(** The viewer together with the two cells its drawing and resizing
    handlers do not read: [menuPosition], and the origin of the bounding
    rectangle of [containerRef.current] when the container is mounted. *)
Record ViewerUI (num : Type) : Type := mkViewerUI {
  core : Viewer num;
  menuPosition : num * num;
  containerRef : option (num * num)
}.

Section Selection.
Context {num : Type} `{NumOps : Number num}.
Local Open Scope num_scope.

Definition mountUI (img : option (Image num)) (filterValue : string)
    (boxes : list (Box num)) (meta : option Metadata)
    (container : option (num * num)) : ViewerUI num :=
  mkViewerUI (mount img filterValue boxes meta) (zero, zero) container.

(** A handler that only touches the cells of [Viewer]. *)
Definition onCore (h : Viewer num -> Viewer num)
    (u : ViewerUI num) : ViewerUI num :=
  mkViewerUI (h u.(core)) u.(menuPosition) u.(containerRef).

(** [selectedBoxId === boxId] *)
Definition isSelected (s : Viewer num) (boxId : string) : bool :=
  match s.(selectedBoxId) with
  | Some i => String.eqb i boxId
  | None => false
  end.

Definition handleBoxClick (e : MouseEvent num) (boxId : string)
    (u : ViewerUI num) : ViewerUI num :=
  if isSelected u.(core) boxId then
    onCore (fun s => setIsCategoryMenuOpen false
                       (setEditingBoxId None (setSelectedBoxId None s))) u
  else
    let s' := setEditingBoxId None (setSelectedBoxId (Some boxId) u.(core)) in
    match u.(containerRef) with
    | Some (boundsLeft, boundsTop) =>
        mkViewerUI s' (e.(clientX) - boundsLeft, e.(clientY) - boundsTop)
          u.(containerRef)
    | None => mkViewerUI s' u.(menuPosition) u.(containerRef)
    end.

(** The "Change Category" button: [setIsCategoryMenuOpen(prev => !prev)]. *)
Definition toggleCategoryMenu (s : Viewer num) : Viewer num :=
  setIsCategoryMenuOpen (negb s.(isCategoryMenuOpen)) s.

(** [onLoad] of the image element. *)
Definition onLoad (s : Viewer num) : Viewer num :=
  setImageLoaded true s.

(** What can happen to a mounted viewer: the DOM events its elements
    listen to, the timer of a delete, its effects, and new props from the
    application. *)
Inductive Event : Type :=
  | MouseDown (e : MouseEvent num)          (* on the container *)
  | MouseMove (e : MouseEvent num)
  | MouseUp (now : Z)
  | BoxClick (e : MouseEvent num) (boxId : string)
  | ResizeMouseDown (boxId corner : string)
  | ClickDelete
  | DeleteTimer
  | ClickEdit
  | ClickChangeCategory
  | ClickCategory (newCategoryId : Z)
  | ImageLoad
  | EffectImageId
  | EffectImgRef
  | EffectScale
  | EffectFilteredBoxes
  | NewProps (img : option (Image num)) (filterValue : string)
      (boxes : list (Box num)) (meta : option Metadata).

(** [NewProps]: the application re-renders the viewer with other props. *)
Definition setProps (img : option (Image num)) (filterValue : string)
    (boxes : list (Box num)) (meta : option Metadata)
    (s : Viewer num) : Viewer num :=
  mkViewer img filterValue boxes meta
    s.(isDrawing) s.(currentBox) s.(activeBoxId) s.(isResizing)
    s.(resizingCorner) s.(selectedBoxId) s.(editingBoxId)
    s.(isCategoryMenuOpen) s.(imageLoaded) s.(filteredBoxes)
    s.(scaleX) s.(scaleY).

(** The click menu and its buttons are rendered while [selectedBoxId] is
    truthy, the category buttons while the category menu is open too. *)
Definition dispatch (u : ViewerUI num) (ev : Event) : ViewerUI num :=
  let menu := truthy_string u.(core).(selectedBoxId) in
  match ev with
  | MouseDown e => onCore (fun s => handleMouseDown s e) u
  | MouseMove e => onCore (fun s => handleMouseMove s e) u
  | MouseUp now => onCore (handleMouseUp now) u
  | BoxClick e boxId => handleBoxClick e boxId u
  | ResizeMouseDown boxId corner =>
      onCore (handleResizeMouseDown boxId corner) u
  | ClickDelete => if menu then onCore deleteOnClick u else u
  | DeleteTimer => onCore deleteTimeout u
  | ClickEdit => if menu then onCore editOnClick u else u
  | ClickChangeCategory => if menu then onCore toggleCategoryMenu u else u
  | ClickCategory c =>
      match u.(core).(selectedBoxId) with
      | Some i =>
          if (menu && u.(core).(isCategoryMenuOpen))%bool
          then onCore (handleChangeCategory i c) u else u
      | None => u
      end
  | ImageLoad => onCore onLoad u
  | EffectImageId => onCore effect_imageId u
  | EffectImgRef => onCore effect_imgRef u
  | EffectScale => onCore effect_scale u
  | EffectFilteredBoxes => onCore effect_filteredBoxes u
  | NewProps img flt boxes meta => onCore (setProps img flt boxes meta) u
  end.

Definition run (events : list Event) (u : ViewerUI num) : ViewerUI num :=
  fold_left dispatch events u.

(** The mode flags agree with the cells that carry the mode's data, and a
    box is not both selected and edited. *)
Definition consistent (s : Viewer num) : Prop :=
  (s.(isDrawing) = true <-> s.(currentBox) <> None)
  /\ (s.(isResizing) = true <-> s.(activeBoxId) <> None)
  /\ (s.(isResizing) = true <-> s.(resizingCorner) <> None)
  /\ (truthy_string s.(selectedBoxId) && truthy_string s.(editingBoxId))%bool
     = false.

(** The coordinates of the pointer-moves of a drag. *)
Definition pointsOf (s : Viewer num) (moves : list (MouseEvent num))
    : list (num * num) :=
  map (getEventCoordinates s) moves.

(** [currentBox] after the pointer-moves at the natural points [pts]. *)
Definition dragThrough (pts : list (num * num)) (d : Draft num) : Draft num :=
  fold_left (fun d p => dragDraft (fst p) (snd p) d) pts d.

End Selection.

(* ================================================================== *)
(** ** Ids *)

(** Whether the character [c] occurs in [s]. *)
Fixpoint occurs (c : ascii) (s : string) : bool :=
  match s with
  | EmptyString => false
  | String c' r => (Ascii.eqb c c' || occurs c r)%bool
  end.

(** The [image_id]s of a response that are truthy, in order. *)
Definition truthyImageIds {num : Type} (preds : list (Prediction num))
    : list Z :=
  flat_map
    (fun pred => match pred.(image_id) with
                 | Some z => if Z.eqb z 0 then [] else [z]
                 | None => []
                 end)
    preds.

(** One drawing gesture: the clock reading at its pointer-up, its
    pointer-down and its pointer-moves. *)
Record Drag (num : Type) : Type := mkDrag {
  drag_now : Z;
  drag_down : MouseEvent num;
  drag_moves : list (MouseEvent num)
}.

(** Drawing gestures one after the other. *)
Definition drawAll {num : Type} `{NumOps : Number num}
    (drags : list (Drag num)) (s : Viewer num) : Viewer num :=
  fold_left
    (fun s g => gesture g.(drag_now) g.(drag_down) g.(drag_moves) s)
    drags s.

(* ================================================================== *)
(** ** App: pages, metadata and export *)

(** [metadata] of a page as the application keeps it; [annotator] is the
    key the metadata form adds. *)
Record PageMetadata : Type := mkPageMetadata {
  page_fileName : string;
  annotator : option string;
  uploadDate : string;
  page_width : N;
  page_height : N
}.

(** What the viewer receives as its [metadata] prop. *)
Definition viewerMetadata (m : PageMetadata) : Metadata :=
  mkMetadata m.(page_fileName).

(** An entry of [imageHistory]. *)
Record Page (num : Type) : Type := mkPage {
  page_id : string;
  imageUrl : string;
  predictions : list (Box num);
  unsaved : bool;
  img_width : N;
  img_height : N;
  page_metadata : PageMetadata
}.

Inductive FeedbackType : Type := FeedbackError | FeedbackSuccess.

Record Feedback : Type := mkFeedback {
  feedback_type : FeedbackType;
  feedback_message : string
}.

(** The [useState] cells of [App] that its page, metadata, clear and
    export handlers use.  The ground-truth boxes also carry
    [isGroundTruth: true], which nothing reads. *)
Record App (num : Type) : Type := mkApp {
  isDatabaseMode : bool;
  uploadedImage : option string;
  app_predictions : list (Box num);
  groundTruthAnnotations : list (Box num);
  showGroundTruth : bool;
  feedbackMessage : option Feedback;
  currentImageId : option string;
  app_allBoxes : list (Box num);
  imageHistory : list (Page num);
  app_metadata : option PageMetadata;
  app_filterCategory : string;
  transitioning : bool;
  showClearConfirmation : bool
}.

(** An element of [annotations] in the JSON download and in the
    [/save_all] payload, and of [annData] in the [/save] payload. *)
Inductive ImageIdField : Type :=
  | ImageIdAbsent : ImageIdField             (* [annData] has no [image_id] *)
  | ImageIdOfBox : string -> ImageIdField    (* [image_id: box.id] *)
  | ImageIdZero : ImageIdField.              (* [image_id: 0] *)

Record Annotation (num : Type) : Type := mkAnnotation {
  ann_image_id : ImageIdField;
  ann_category_id : option JsInt;
  ann_bbox : num * num * num * num;
  ann_file_name : string;
  ann_size : num * num;             (* [size], or [width] and [height] *)
  ann_percent_page : num
}.

Section AppHandlers.
Context {num : Type} `{NumOps : Number num}.
Local Open Scope num_scope.

Definition setImageHistory (f : list (Page num) -> list (Page num))
    (a : App num) : App num :=
  mkApp a.(isDatabaseMode) a.(uploadedImage) a.(app_predictions)
    a.(groundTruthAnnotations) a.(showGroundTruth) a.(feedbackMessage)
    a.(currentImageId) a.(app_allBoxes) (f a.(imageHistory))
    a.(app_metadata) a.(app_filterCategory) a.(transitioning)
    a.(showClearConfirmation).

Definition setAppBoxes (f : list (Box num) -> list (Box num))
    (a : App num) : App num :=
  mkApp a.(isDatabaseMode) a.(uploadedImage) a.(app_predictions)
    a.(groundTruthAnnotations) a.(showGroundTruth) a.(feedbackMessage)
    a.(currentImageId) (f a.(app_allBoxes)) a.(imageHistory)
    a.(app_metadata) a.(app_filterCategory) a.(transitioning)
    a.(showClearConfirmation).

Definition setFeedbackMessage (m : option Feedback) (a : App num)
    : App num :=
  mkApp a.(isDatabaseMode) a.(uploadedImage) a.(app_predictions)
    a.(groundTruthAnnotations) a.(showGroundTruth) m
    a.(currentImageId) a.(app_allBoxes) a.(imageHistory)
    a.(app_metadata) a.(app_filterCategory) a.(transitioning)
    a.(showClearConfirmation).

Definition setMetadata (m : option PageMetadata) (a : App num) : App num :=
  mkApp a.(isDatabaseMode) a.(uploadedImage) a.(app_predictions)
    a.(groundTruthAnnotations) a.(showGroundTruth) a.(feedbackMessage)
    a.(currentImageId) a.(app_allBoxes) a.(imageHistory)
    m a.(app_filterCategory) a.(transitioning)
    a.(showClearConfirmation).

Definition setTransitioning (t : bool) (a : App num) : App num :=
  mkApp a.(isDatabaseMode) a.(uploadedImage) a.(app_predictions)
    a.(groundTruthAnnotations) a.(showGroundTruth) a.(feedbackMessage)
    a.(currentImageId) a.(app_allBoxes) a.(imageHistory)
    a.(app_metadata) a.(app_filterCategory) t
    a.(showClearConfirmation).

Definition setShowClearConfirmation (c : bool) (a : App num) : App num :=
  mkApp a.(isDatabaseMode) a.(uploadedImage) a.(app_predictions)
    a.(groundTruthAnnotations) a.(showGroundTruth) a.(feedbackMessage)
    a.(currentImageId) a.(app_allBoxes) a.(imageHistory)
    a.(app_metadata) a.(app_filterCategory) a.(transitioning) c.

(** [{ ...img, predictions: boxes }] *)
Definition withPredictions (boxes : list (Box num)) (p : Page num)
    : Page num :=
  mkPage p.(page_id) p.(imageUrl) boxes p.(unsaved) p.(img_width)
    p.(img_height) p.(page_metadata).

(** [{ ...img, unsaved: false }] *)
Definition markSaved (p : Page num) : Page num :=
  mkPage p.(page_id) p.(imageUrl) p.(predictions) false p.(img_width)
    p.(img_height) p.(page_metadata).

(** [{ ...img, metadata: updated }] *)
Definition withMetadata (m : PageMetadata) (p : Page num) : Page num :=
  mkPage p.(page_id) p.(imageUrl) p.(predictions) p.(unsaved)
    p.(img_width) p.(img_height) m.

(** [img.id === currentImageId] *)
Definition isCurrent (cur : option string) (p : Page num) : bool :=
  match cur with
  | Some i => String.eqb p.(page_id) i
  | None => false
  end.

(** [useEffect(..., [allBoxes, currentImageId])]: the store is copied into
    the history entry of the current page. *)
Definition effect_history (a : App num) : App num :=
  if truthy_string a.(currentImageId) then
    setImageHistory
      (map (fun img => if isCurrent a.(currentImageId) img
                       then withPredictions a.(app_allBoxes) img
                       else img))
      a
  else a.

(** [handleThumbnailClick], the part that runs at the click. *)
Definition handleThumbnailClick (imageData : Page num) (a : App num)
    : App num :=
  if isCurrent a.(currentImageId) imageData then a
  else setTransitioning true a.

(** The callback its [setTimeout] runs 300 ms later; [history] is the
    [imageHistory] the click saw. *)
Definition thumbnailTimeout (imageData : Page num)
    (history : list (Page num)) (a : App num) : App num :=
  let targetImage :=
    find (fun img => String.eqb img.(page_id) imageData.(page_id)) history in
  mkApp a.(isDatabaseMode) (Some imageData.(imageUrl)) a.(app_predictions)
    [] false a.(feedbackMessage)
    (Some imageData.(page_id))
    (match targetImage with
     | Some t => t.(predictions)
     | None => imageData.(predictions)
     end)
    a.(imageHistory)
    (Some imageData.(page_metadata)) a.(app_filterCategory) false
    a.(showClearConfirmation).

(** A click on a thumbnail and its timer, nothing in between. *)
Definition switchPage (imageData : Page num) (a : App num) : App num :=
  if isCurrent a.(currentImageId) imageData then a
  else thumbnailTimeout imageData a.(imageHistory)
         (handleThumbnailClick imageData a).

Definition updateMetadata (updated : PageMetadata) (a : App num)
    : App num :=
  setImageHistory
    (map (fun img => if isCurrent a.(currentImageId) img
                     then withMetadata updated img else img))
    (setMetadata (Some updated) a).

Definition handleClearAllBoxes (a : App num) : App num :=
  setShowClearConfirmation true a.

(** [confirmClearAllBoxes], the part that runs at the click. *)
Definition confirmClearAllBoxes (a : App num) : App num :=
  setShowClearConfirmation false (setAppBoxes (map markFadeOut) a).

(** The callback its [setTimeout] runs one second later. *)
Definition clearAllTimeout (a : App num) : App num :=
  setAppBoxes (fun _ => []) a.

Definition cancelClearAllBoxes (a : App num) : App num :=
  setShowClearConfirmation false a.

(** The "Overview" button. *)
Definition backToOverview (a : App num) : App num :=
  mkApp a.(isDatabaseMode) None a.(app_predictions) [] false
    a.(feedbackMessage) None [] a.(imageHistory) None
    a.(app_filterCategory) a.(transitioning) a.(showClearConfirmation).

(** What the application passes to the viewer. *)
Definition viewerProps (img : option (Image num)) (a : App num)
    (s : Viewer num) : Viewer num :=
  setProps img a.(app_filterCategory) a.(app_allBoxes)
    (option_map viewerMetadata a.(app_metadata)) s.

(** [(metadata.width || 1) * (metadata.height || 1)] *)
Definition pageArea (m : PageMetadata) : num :=
  num_or (num_of_N m.(page_width)) one
  * num_or (num_of_N m.(page_height)) one.

(** [[box.x, box.y, box.x + box.width, box.y + box.height]] *)
Definition bboxOf (b : Box num) : num * num * num * num :=
  (b.(x), b.(y), b.(x) + b.(width), b.(y) + b.(height)).

Definition percentPage (area : num) (b : Box num) : num :=
  (b.(width) * b.(height)) / area.

(** The annotation [saveAnnotations] pushes for a box. *)
Definition jsonAnnotation (area : num) (b : Box num) : Annotation num :=
  mkAnnotation (ImageIdOfBox b.(id)) b.(category_id) (bboxOf b)
    b.(file_name)
    (b.(width), b.(height)) (percentPage area b).

(** The element of [annData] in [handleSaveToDB]. *)
Definition dbAnnotation (area : num) (b : Box num) : Annotation num :=
  mkAnnotation ImageIdAbsent b.(category_id) (bboxOf b) b.(file_name)
    (b.(width), b.(height)) (percentPage area b).

(** The element of [annotations] in [handleSaveAllPages] ([image_id: 0]). *)
Definition allPagesAnnotation (area : num) (b : Box num) : Annotation num :=
  mkAnnotation ImageIdZero b.(category_id) (bboxOf b) b.(file_name)
    (b.(width), b.(height)) (percentPage area b).

(** [saveAnnotations]: the state it leaves and the annotations of the JSON
    file it downloads, if it downloads one. *)
Definition saveAnnotations (a : App num)
    : App num * option (list (Annotation num)) :=
  match a.(app_allBoxes) with
  | [] =>
      (setFeedbackMessage
         (Some (mkFeedback FeedbackError "No bounding boxes to save.")) a,
       None)
  | _ :: _ =>
      match a.(app_metadata) with
      | None =>
          (setFeedbackMessage
             (Some (mkFeedback FeedbackError "No metadata for page.")) a,
           None)
      | Some m =>
          (setImageHistory
             (map (fun img => if isCurrent a.(currentImageId) img
                              then markSaved img else img))
             (setFeedbackMessage
                (Some (mkFeedback FeedbackSuccess
                         "Annotations saved as JSON")) a),
           Some (map (jsonAnnotation (pageArea m)) a.(app_allBoxes)))
      end
  end.

(** The body of the request [handleSaveToDB] posts to [/save]:
    [file_name] is [annData[0].file_name], absent when [annData] has no
    first element. *)
Record SaveRequest (num : Type) : Type := mkSaveRequest {
  req_file_name : option string;
  req_annotations : list (Annotation num)
}.

(** [handleSaveToDB] up to its request: the error it reports instead, or
    the request. *)
Definition handleSaveToDB (a : App num) : Feedback + SaveRequest num :=
  if negb a.(isDatabaseMode) then
    inl (mkFeedback FeedbackError "Not in Database Mode!")
  else
    match a.(app_allBoxes) with
    | [] => inl (mkFeedback FeedbackError "No boxes to save.")
    | _ :: _ =>
        match a.(app_metadata) with
        | None => inl (mkFeedback FeedbackError "No metadata for page.")
        | Some m =>
            let annData := map (dbAnnotation (pageArea m)) a.(app_allBoxes) in
            inr (mkSaveRequest
                   (option_map (@ann_file_name num) (hd_error annData))
                   annData)
        end
    end.

(** The [images] entry and the [annotations] of the request
    [handleSaveAllPages] posts to [/save_all]; the width and height of the
    page fall back to 0 there. *)
Definition handleSaveAllPages (a : App num)
    : Feedback + (string * num * num) * list (Annotation num) :=
  if negb a.(isDatabaseMode) then
    inl (mkFeedback FeedbackError "Not in Database Mode!")
  else
    match a.(app_allBoxes) with
    | [] => inl (mkFeedback FeedbackError "No boxes to save.")
    | _ :: _ =>
        match a.(app_metadata) with
        | None => inl (mkFeedback FeedbackError "No metadata for page.")
        | Some m =>
            inr ((m.(page_fileName),
                  num_or (num_of_N m.(page_width)) zero,
                  num_or (num_of_N m.(page_height)) zero),
                 map (allPagesAnnotation (pageArea m)) a.(app_allBoxes))
        end
    end.

(** The prediction a box is exported as, when the export is read back as a
    prediction: its [bbox] is the exported [bbox]. *)
Definition reimport (b : Box num) : Prediction num :=
  let '(x1, y1, x2, y2) := bboxOf b in
  mkPrediction None b.(category_id) x1 y1 x2 y2 b.(file_name).

End AppHandlers.

(** ** App: the category legend *)

(** The legend of [App]: id, name and colour of each category. *)
Definition legend : list (Z * string * string) :=
  [(0, "Photograph", "rgba(58,68,102,0.4)");
   (1, "Illustration", "rgba(178,57,48,0.4)");
   (2, "Map", "rgba(47,115,84,0.4)");
   (3, "Comic/Cartoon", "rgba(216,172,82,0.4)");
   (4, "Editorial Cartoon", "rgba(112,72,145,0.4)");
   (5, "Headline", "rgba(66,113,161,0.4)");
   (6, "Advertisement", "rgba(189,87,38,0.4)")]%Z.

(** [parseInt(filterCategory, 10) === cat.id]: whether the legend item of
    [catId] is drawn active. *)
Definition legendItemActive (filterValue : string) (catId : Z) : bool :=
  match parseInt filterValue with
  | JInt k => Z.eqb k catId
  | JNaN => false
  end.

(** [filterCategory === 'all']: whether the item "All" is drawn active. *)
Definition legendAllActive (filterValue : string) : bool :=
  String.eqb filterValue "all".

(** [onClick] of the legend item of [catId]: the new [filterCategory]. *)
Definition legendClick (catId : Z) : string := toString catId.

(* ================================================================== *)
(** ** App: a finished upload *)

(** A row of [response.data.predictions]: the fields of a prediction and
    the row's own [id], which the ground-truth boxes use. *)
Record Row (num : Type) : Type := mkRow {
  row_prediction : Prediction num;
  row_id : option Z
}.

(** [response.data] of [/segment] when it carries predictions. *)
Record Response (num : Type) : Type := mkResponse {
  res_predictions : list (Row num);
  res_message : option string
}.

Section Upload.
Context {num : Type} `{NumOps : Number num}.
Local Open Scope num_scope.

(** The callback of [rawRows.map] for ground truth; [bbox] is an array, as
    [processedPredictions] reads it too. *)
Definition groundTruthOf (i : nat) (ann : Row num) : Box num :=
  let pred := ann.(row_prediction) in
  mkBox
    ("gt-" ++ toString (if truthy_Z ann.(row_id)
                        then match ann.(row_id) with
                             | Some z => z
                             | None => 0
                             end
                        else Z.of_nat i))
    pred.(bbox0) pred.(bbox1)
    (pred.(bbox2) - pred.(bbox0)) (pred.(bbox3) - pred.(bbox1))
    pred.(pred_category_id) false pred.(pred_file_name) false.

Fixpoint groundTruthFrom (i : nat) (rows : list (Row num))
    : list (Box num) :=
  match rows with
  | [] => []
  | ann :: rest => groundTruthOf i ann :: groundTruthFrom (S i) rest
  end.

(** [img.onload] of [handleImageUpload].  [clock] gives the readings of
    [Date.now()] inside [processedPredictions], [now] the later reading
    that becomes the page id, [date] is [new Date().toLocaleString()],
    [width] and [height] the size of the loaded image.  The result is
    [None] when the handler throws: [predictions[0]] of an empty array is
    [undefined], and reading its [file_name] is a [TypeError] before any
    state is set. *)
Definition onloadUpload (clock : nat -> Z) (now : Z) (date url : string)
    (width height : N) (res : Response num) (a : App num)
    : option (App num) :=
  match res.(res_predictions) with
  | [] => None
  | first :: _ =>
      let finalFileName := first.(row_prediction).(pred_file_name) in
      let processed :=
        processedPredictions clock
          (map (@row_prediction num) res.(res_predictions)) in
      let newImageId := toString now in
      let meta := mkPageMetadata finalFileName None date width height in
      let newImageData :=
        mkPage newImageId url processed true width height meta in
      let exists_in_database :=
        (a.(isDatabaseMode)
         && match res.(res_message) with
            | Some m => String.eqb m "Image exists. Retrieved annotations."
            | None => false
            end)%bool in
      Some
        (mkApp a.(isDatabaseMode) (Some url) processed
           (if exists_in_database
            then groundTruthFrom 0 res.(res_predictions)
            else a.(groundTruthAnnotations))
           a.(showGroundTruth)
           (Some
              (if exists_in_database
               then mkFeedback FeedbackSuccess
                      "Ground truth annotations loaded from Database"
               else mkFeedback FeedbackSuccess
                      (if truthy_string res.(res_message)
                       then match res.(res_message) with
                            | Some m => m
                            | None => ""
                            end
                       else "Image uploaded successfully")))
           (Some newImageId) processed
           (a.(imageHistory) ++ [newImageData])
           (Some meta) a.(app_filterCategory) a.(transitioning)
           a.(showClearConfirmation))
  end.

End Upload.

(* ================================================================== *)
(** ** MetadataSection *)

(** The two [useState] cells of the metadata form. *)
Record MetadataForm : Type := mkMetadataForm {
  editable : bool;
  editedMetadata : option PageMetadata
}.

(** The form as first rendered with the prop [metadata]. *)
Definition mountForm (metadata : option PageMetadata) : MetadataForm :=
  mkMetadataForm false metadata.

(** [handleEditToggle]; [metadata] is the prop at the time of the click. *)
Definition handleEditToggle (metadata : option PageMetadata)
    (f : MetadataForm) : MetadataForm :=
  mkMetadataForm (negb f.(editable)) metadata.

(** [{ ...prev, [name]: value }] for the names of the two inputs of the
    form; any other key is one that nothing reads. *)
Definition withField (name value : string) (m : PageMetadata)
    : PageMetadata :=
  if String.eqb name "fileName" then
    mkPageMetadata value m.(annotator) m.(uploadDate) m.(page_width)
      m.(page_height)
  else if String.eqb name "annotator" then
    mkPageMetadata m.(page_fileName) (Some value) m.(uploadDate)
      m.(page_width) m.(page_height)
  else m.

(** [handleChange]: the inputs exist while the form is editable, that is
    after [handleEditToggle] has copied a metadata object. *)
Definition handleChange (name value : string) (f : MetadataForm)
    : MetadataForm :=
  mkMetadataForm f.(editable) (option_map (withField name value)
                                 f.(editedMetadata)).

(** [handleSave]: the argument it passes to [onUpdateMetadata], and the
    form it leaves. *)
Definition handleSave (f : MetadataForm)
    : option PageMetadata * MetadataForm :=
  (f.(editedMetadata), mkMetadataForm false f.(editedMetadata)).

(** Typing into the inputs: the [onChange] events in order. *)
Definition typeAll (edits : list (string * string)) (f : MetadataForm)
    : MetadataForm :=
  fold_left (fun f e => handleChange (fst e) (snd e) f) edits f.

(** "Save" in the form of an application: [onUpdateMetadata] is
    [updateMetadata].  The button is rendered in an editable form only,
    whose [editedMetadata] is the object "Edit" copied; a form without one
    has no button and is left as it is. *)
Definition saveForm {num : Type} (f : MetadataForm) (a : App num)
    : MetadataForm * App num :=
  match fst (handleSave f) with
  | Some m => (snd (handleSave f), updateMetadata m a)
  | None => (f, a)
  end.

(* ================================================================== *)
(** ** App: the names of the exported segment files *)

(** [String.prototype.toLowerCase], which on the letters A..Z adds 32 to
    the character code; the test below only looks at the last four
    characters, which no other character can turn into ".png". *)
Definition lowerChar (c : ascii) : ascii :=
  let n := nat_of_ascii c in
  if ((65 <=? n) && (n <=? 90))%nat then ascii_of_nat (n + 32) else c.

Fixpoint toLowerCase (s : string) : string :=
  match s with
  | EmptyString => EmptyString
  | String c r => String (lowerChar c) (toLowerCase r)
  end.

(** [s.endsWith(suffix)]: a tail of [s] is [suffix]. *)
Fixpoint endsWith (s suffix : string) : bool :=
  if String.eqb s suffix then true
  else match s with
       | EmptyString => false
       | String _ r => endsWith r suffix
       end.

(** [s.split('/')]: the pieces between the slashes, at least one. *)
Fixpoint splitSlash (s : string) : list string :=
  match s with
  | EmptyString => [EmptyString]
  | String c r =>
      if Ascii.eqb c "/"%char then EmptyString :: splitSlash r
      else match splitSlash r with
           | piece :: pieces => String c piece :: pieces
           | [] => [String c EmptyString]
           end
  end.

(** The folder and the file name under which the [toBlob] callback of
    [saveSegmentations] stores the segment of the box at index [idx] of
    the store, whose [file_name] is the second argument. *)
Definition segmentEntry (idx : nat) (file_name : string) : string * string :=
  let pathParts := splitSlash file_name in
  let popped := List.last pathParts EmptyString in
  let pathParts := List.removelast pathParts in
  let originalFile :=
    if truthy_string (Some popped) then popped else "box.png" in
  let uniqueFileName :=
    (toString (Z.of_nat idx) ++ "_" ++ originalFile)%string in
  let uniqueFileName :=
    if negb (endsWith (toLowerCase uniqueFileName) ".png")
    then (uniqueFileName ++ ".png")%string else uniqueFileName in
  (String.concat "/" pathParts, uniqueFileName).

(* ================================================================== *)
(** ** An application with two pages, in binary64 *)

Module RunApp.

Definition meta1 : PageMetadata :=
  mkPageMetadata "jugend_1899_32_001.png" None "1/2/2025, 10:00:00" 2000 3000.

Definition meta2 : PageMetadata :=
  mkPageMetadata "jugend_1899_32_002.png" None "1/2/2025, 10:05:00" 2000 2000.

Definition page1 : Page float :=
  mkPage "1735812000000" "blob:1" [Run.box1] true 2000 3000 meta1.

Definition page2 : Page float :=
  mkPage "1735812300000" "blob:2" [Run.box2] true 2000 2000 meta2.

(** The application shows page 1, on which a second box has been drawn
    since the page was stored in the history. *)
Definition app : App float :=
  mkApp true (Some "blob:1") [Run.box1] [] false None
    (Some "1735812000000") [Run.box1; Run.box7] [page1; page2]
    (Some meta1) "all" false false.

(** The same application with an empty store, and with no metadata. *)
Definition app_empty : App float :=
  setAppBoxes (fun _ => []) app.

Definition app_no_metadata : App float :=
  setMetadata None app.

Definition response : Response float :=
  mkResponse
    [mkRow (Run.prediction 10 10 110 60) (Some 41%Z);
     mkRow (Run.prediction 200 300 400 500) None]
    (Some "Segmentation complete").

End RunApp.

(* ================================================================== *)
(** ** SegmentationViewer: the pointer handlers as closures of a render *)

Section Closures.
Context {num : Type} `{NumOps : Number num}.
Local Open Scope num_scope.

(** A handler is created by a render and reads the state cells and props
    of that render, [c].  The updates it queues are applied to the latest
    state, [s], which is ahead of [c] while updates of earlier handlers
    wait for their render: a value passed to a setter replaces the cell,
    an updater function is applied to the cell of [s].  The ref [imgRef]
    is the same object in every render. *)

Definition handleMouseDownIn (c : Viewer num) (e : MouseEvent num)
    (s : Viewer num) : Viewer num :=
  if (truthy_string c.(selectedBoxId)
      || truthy_string c.(editingBoxId))%bool
  then
    setIsCategoryMenuOpen false
      (setEditingBoxId None (setSelectedBoxId None s))
  else
    let '(realX, realY) := getEventCoordinates c e in
    setDrawing true
      (Some
         (mkDraft realX realY zero zero
            (if String.eqb c.(filterCategory) "all" then None
             else Some (parseInt c.(filterCategory)))
            false
            (match c.(metadata) with
             | Some m =>
                 if truthy_string (Some m.(fileName)) then m.(fileName)
                 else "default_filename"
             | None => "default_filename"
             end)))
      s.

(** [None]: the updater of [setCurrentBox] reads [prev.x] of [null] and
    throws. *)
Definition handleMouseMoveIn (c : Viewer num) (e : MouseEvent num)
    (s : Viewer num) : option (Viewer num) :=
  if (negb c.(isDrawing) && negb c.(isResizing))%bool then Some s
  else
    let '(realX, realY) := getEventCoordinates c e in
    match c.(isDrawing), c.(currentBox) with
    | true, Some _ =>
        match s.(currentBox) with
        | Some prev =>
            Some (setDrawing s.(isDrawing)
                    (Some (dragDraft realX realY prev)) s)
        | None => None
        end
    | _, _ =>
        match c.(isResizing), c.(activeBoxId) with
        | true, Some a =>
            Some (setAllBoxes
                    (map (resizeBox a c.(resizingCorner) realX realY)) s)
        | _, _ => Some s
        end
    end.

(** The box appended is the [currentBox] of the render, not of [s]. *)
Definition handleMouseUpIn (c : Viewer num) (now : Z) (s : Viewer num)
    : Viewer num :=
  let s1 :=
    match c.(isDrawing), c.(currentBox) with
    | true, Some cur =>
        let newBox := withId (toString now) cur in
        setDrawing false None
          (setAllBoxes (fun prev => prev ++ [newBox]) s)
    | _, _ => s
    end in
  setResizing false None None s1.

(** The state of the last render, whose handlers are the ones attached,
    and the latest state. *)
Record Live : Type := mkLive {
  shown : Viewer num;
  queued : Viewer num
}.

(** Between pointer-down and pointer-up: a pointer-move is handled, or
    React renders the latest state. *)
Inductive Step : Type :=
  | Moved (e : MouseEvent num)
  | Rendered.

Fixpoint runSteps (steps : list Step) (l : Live) : option Live :=
  match steps with
  | [] => Some l
  | Moved e :: rest =>
      match handleMouseMoveIn l.(shown) e l.(queued) with
      | Some s => runSteps rest (mkLive l.(shown) s)
      | None => None
      end
  | Rendered :: rest => runSteps rest (mkLive l.(queued) l.(queued))
  end.

(** A drag on the viewer rendered in state [s]: pointer-down, the steps,
    pointer-up. *)
Definition drag (now : Z) (down : MouseEvent num) (steps : list Step)
    (s : Viewer num) : option (Viewer num) :=
  match runSteps steps (mkLive s (handleMouseDownIn s down s)) with
  | Some l => Some (handleMouseUpIn l.(shown) now l.(queued))
  | None => None
  end.

(** The pointer-moves among the steps. *)
Fixpoint movesOf (steps : list Step) : list (MouseEvent num) :=
  match steps with
  | [] => []
  | Moved e :: rest => e :: movesOf rest
  | Rendered :: rest => movesOf rest
  end.

(** The schedule in which every event is rendered before the next. *)
Definition eachRendered (moves : list (MouseEvent num)) : list Step :=
  Rendered :: flat_map (fun e => [Moved e; Rendered]) moves.

End Closures.

(* ================================================================== *)
(** * Properties *)

(** ** Strings of integers *)

Lemma digit_prefix_string_of_uint (d : uint) :
  digit_prefix (NilEmpty.string_of_uint d) = d.
Proof.
  induction d; simpl; try rewrite IHd; reflexivity.
Qed.

(** A printed numeral starts with a digit: not with white space, not with a
    sign, and it is not the word "all". *)
Lemma string_of_uint_head (d : uint) :
  d <> Nil ->
  exists c r, NilEmpty.string_of_uint d = String c r
              /\ is_js_space c = false
              /\ c <> "-"%char /\ c <> "+"%char /\ c <> "a"%char.
Proof.
  intros Hd. destruct d; try contradiction; simpl;
    eexists; eexists; (split; [reflexivity|]);
    repeat split; try reflexivity; discriminate.
Qed.

Lemma parseInt_digits (d : uint) :
  d <> Nil -> parseInt (NilEmpty.string_of_uint d) = JInt (Z.of_uint d).
Proof.
  intros Hd. destruct (string_of_uint_head Hd) as (c & r & E & Hs & Hm & Hp & _).
  unfold parseInt. rewrite E. cbn [skip_js_space]. rewrite Hs.
  assert (Hsplit :
    (match String c r with
     | String "-"%char r0 => (true, r0)
     | String "+"%char r0 => (false, r0)
     | _ => (false, String c r)
     end) = (false, String c r)).
  { destruct c as [[] [] [] [] [] [] [] []]; try reflexivity;
      exfalso; (apply Hm; reflexivity) || (apply Hp; reflexivity). }
  rewrite Hsplit, <- E, digit_prefix_string_of_uint.
  destruct d; try contradiction; reflexivity.
Qed.

Lemma parseInt_minus_digits (d : uint) :
  d <> Nil ->
  parseInt (String "-"%char (NilEmpty.string_of_uint d)) = JInt (- Z.of_uint d).
Proof.
  intros Hd. unfold parseInt. cbn [skip_js_space].
  change (is_js_space "-"%char) with false. cbv iota.
  rewrite digit_prefix_string_of_uint.
  destruct d; try contradiction; reflexivity.
Qed.

Lemma NilZero_string_of_uint_nonnil (d : uint) :
  d <> Nil -> NilZero.string_of_uint d = NilEmpty.string_of_uint d.
Proof.
  destruct d; try contradiction; reflexivity.
Qed.

(** [parseInt(k.toString(), 10) === k] for every integer [k]. *)
Lemma parseInt_toString (k : Z) : parseInt (toString k) = JInt k.
Proof.
  unfold toString. destruct k as [|p|p]; simpl Z.to_int.
  - reflexivity.
  - cbn [NilZero.string_of_int].
    rewrite NilZero_string_of_uint_nonnil by apply Unsigned.to_uint_nonnil.
    rewrite parseInt_digits by apply Unsigned.to_uint_nonnil.
    unfold Z.of_uint. rewrite Unsigned.of_to. reflexivity.
  - cbn [NilZero.string_of_int].
    rewrite NilZero_string_of_uint_nonnil by apply Unsigned.to_uint_nonnil.
    rewrite parseInt_minus_digits by apply Unsigned.to_uint_nonnil.
    unfold Z.of_uint. rewrite Unsigned.of_to. reflexivity.
Qed.

Lemma toString_not_all (k : Z) : String.eqb (toString k) "all" = false.
Proof.
  unfold toString. destruct k as [|p|p]; simpl Z.to_int.
  - reflexivity.
  - cbn [NilZero.string_of_int].
    rewrite NilZero_string_of_uint_nonnil by apply Unsigned.to_uint_nonnil.
    destruct (string_of_uint_head (Unsigned.to_uint_nonnil p))
      as (c & r & E & _ & _ & _ & Ha).
    rewrite E. apply String.eqb_neq. intros H. inversion H. contradiction.
  - reflexivity.
Qed.

(* ================================================================== *)
(** ** The category filter *)

Section Filter.
Context {num : Type} `{NumOps : Number num}.

Lemma category_eq_spec (c : option JsInt) (k : Z) :
  category_eq c (JInt k) = true <-> c = Some (JInt k).
Proof.
  destruct c as [[|a]|]; simpl; split; intros H; try discriminate.
  - apply Z.eqb_eq in H. now subst.
  - injection H as ->. apply Z.eqb_refl.
Qed.

Lemma Selects_filter {A : Type} (P : A -> Prop) (p : A -> bool)
    (l : list A) :
  (forall a, p a = true <-> P a) -> Selects P l (List.filter p l).
Proof.
  intros Hp. induction l as [|a l IH]; simpl.
  - constructor.
  - destruct (p a) eqn:E.
    + apply Selects_keep; [now apply Hp | exact IH].
    + apply Selects_drop; [| exact IH].
      intros HP. apply Hp in HP. congruence.
Qed.

(** A selection is determined by the list and the predicate. *)
Lemma Selects_functional {A : Type} (P : A -> Prop) (l l1 l2 : list A) :
  Selects P l l1 -> Selects P l l2 -> l1 = l2.
Proof.
  intros H1. revert l2.
  induction H1; intros l2 H2; inversion H2; subst;
    try reflexivity; try contradiction.
  - f_equal. now apply IHSelects.
  - now apply IHSelects.
Qed.

Lemma Selects_In {A : Type} (P : A -> Prop) (l l' : list A) :
  Selects P l l' -> forall a, In a l' <-> In a l /\ P a.
Proof.
  induction 1; intros b; simpl.
  - tauto.
  - rewrite IHSelects. split.
    + intros [->|[? ?]]; tauto.
    + intros [[->|?] ?]; tauto.
  - rewrite IHSelects. split.
    + tauto.
    + intros [[->|?] ?]; [contradiction | tauto].
Qed.

Lemma boxes_of_scaledBoxes (s : Viewer num) :
  map (@box num) (scaledBoxes s) = s.(allBoxes).
Proof.
  unfold scaledBoxes. rewrite map_map. simpl. apply map_id.
Qed.

Lemma map_filter_comm {A B : Type} (g : A -> B) (p : B -> bool)
    (l : list A) :
  map g (List.filter (fun a => p (g a)) l) = List.filter p (map g l).
Proof.
  induction l as [|a l IH]; simpl; [reflexivity|].
  destruct (p (g a)); simpl; now rewrite IH.
Qed.

(** The render pass shows the boxes the filter effect stores. *)
Lemma renderedBoxes_deriveVisible (s : Viewer num) :
  map (@box num) (renderedBoxes s)
  = deriveVisible s.(filterCategory) s.(allBoxes).
Proof.
  unfold renderedBoxes, deriveVisible.
  destruct (String.eqb s.(filterCategory) "all").
  - rewrite <- (boxes_of_scaledBoxes s). f_equal.
    induction (scaledBoxes s) as [|a l IH]; simpl; congruence.
  - rewrite (map_filter_comm (@box num)
               (fun b => category_eq b.(category_id)
                           (parseInt s.(filterCategory)))).
    now rewrite boxes_of_scaledBoxes.
Qed.

(** A filter value that is not a number shows nothing. *)
Lemma deriveVisible_NaN (flt : string) (boxes : list (Box num)) :
  String.eqb flt "all" = false -> parseInt flt = JNaN ->
  deriveVisible flt boxes = [].
Proof.
  intros Hall Hnan. unfold deriveVisible. rewrite Hall, Hnan.
  induction boxes as [|b l IH]; simpl; [reflexivity|].
  destruct (category_id b) as [[|?]|]; exact IH.
Qed.

(** C5. Filtering with the sentinel "all" returns every box, unchanged and
    in the original order; filtering with a category id [k] (the legend
    passes it as the string [k.toString()]) returns exactly the boxes
    whose [category_id] is [k], in the original order, and no other; the
    boxes drawn by the render pass of a viewer whose store is [boxes] are
    those the filter effect stores. *)
Theorem deriveVisible_correct (boxes : list (Box num)) :
  deriveVisible "all" boxes = boxes
  /\ (forall k : Z,
        Selects (fun b => b.(category_id) = Some (JInt k)) boxes
          (deriveVisible (toString k) boxes))
  /\ (forall s : Viewer num,
        map (@box num) (renderedBoxes (setAllBoxes (fun _ => boxes) s))
        = deriveVisible s.(filterCategory) boxes).
Proof.
  split; [reflexivity|]. split.
  - intros k. unfold deriveVisible.
    rewrite toString_not_all, parseInt_toString.
    apply Selects_filter. intros b. apply category_eq_spec.
  - intros s. apply renderedBoxes_deriveVisible.
Qed.

End Filter.

(* ================================================================== *)
(** ** Drawing *)

Section Drawing.
Context {num : Type} `{NumOps : Number num}.
Local Open Scope num_scope.

Lemma handleMouseDown_starts (s : Viewer num) (e : MouseEvent num) :
  truthy_string s.(selectedBoxId) = false ->
  truthy_string s.(editingBoxId) = false ->
  handleMouseDown s e = setDrawing true (Some (startDraft s e)) s.
Proof.
  intros Hsel Hed. unfold handleMouseDown, startDraft.
  rewrite Hsel, Hed. simpl.
  destruct (getEventCoordinates s e) as [rx ry]. reflexivity.
Qed.

(** Pointer-up while drawing appends the provisional box, whatever its
    size. *)
Lemma handleMouseUp_commits (now : Z) (s : Viewer num) (cur : Draft num) :
  s.(isDrawing) = true -> s.(currentBox) = Some cur ->
  allBoxes (handleMouseUp now s) = s.(allBoxes) ++ [withId (toString now) cur]
  /\ isDrawing (handleMouseUp now s) = false
  /\ currentBox (handleMouseUp now s) = None.
Proof.
  intros Hd Hc. unfold handleMouseUp. rewrite Hd, Hc. simpl. auto.
Qed.

(** What a click commits, in every state with no box selected or edited:
    a drawing gesture whose start and end points coincide (pointer-down,
    no move, pointer-up) appends one box after the boxes the store held
    before, the provisional box of zero width and height at the start
    point, with the reading of the clock as its id. *)
Theorem click_commits_zero_size_box (now : Z) (s : Viewer num)
    (e : MouseEvent num) :
  truthy_string s.(selectedBoxId) = false ->
  truthy_string s.(editingBoxId) = false ->
  exists b : Box num,
    allBoxes (gesture now e [] s) = s.(allBoxes) ++ [b]
    /\ b.(id) = toString now
    /\ (b.(x), b.(y)) = getEventCoordinates s e
    /\ b.(width) = zero /\ b.(height) = zero
    /\ isDrawing (gesture now e [] s) = false
    /\ currentBox (gesture now e [] s) = None.
Proof.
  intros Hsel Hed. unfold gesture. simpl fold_left.
  rewrite (handleMouseDown_starts s e Hsel Hed).
  exists (withId (toString now) (startDraft s e)).
  unfold handleMouseUp. simpl.
  repeat split. now destruct (getEventCoordinates s e).
Qed.

End Drawing.

Section DrawingMoves.
Context {num : Type} `{NumOps : Number num}.
Local Open Scope num_scope.

(** With a single pointer-move between pointer-down at [e0] and pointer-up
    the committed box is the normalised rectangle spanned by the two
    points. *)
Lemma gesture_one_move (now : Z) (s : Viewer num)
    (e0 e1 : MouseEvent num) :
  truthy_string s.(selectedBoxId) = false ->
  truthy_string s.(editingBoxId) = false ->
  let p0 := getEventCoordinates s e0 in
  let p1 := getEventCoordinates s e1 in
  exists b : Box num,
    allBoxes (gesture now e0 [e1] s) = s.(allBoxes) ++ [b]
    /\ b.(x) = (if fst p1 <? fst p0 then fst p1 else fst p0)
    /\ b.(y) = (if snd p1 <? snd p0 then snd p1 else snd p0)
    /\ b.(width) = num_abs (fst p1 - fst p0)
    /\ b.(height) = num_abs (snd p1 - snd p0).
Proof.
  intros Hsel Hed p0 p1. unfold gesture. simpl fold_left.
  rewrite (handleMouseDown_starts s e0 Hsel Hed).
  unfold handleMouseMove. simpl.
  change (getEventCoordinates (setDrawing true (Some (startDraft s e0)) s) e1)
    with p1.
  destruct p1 as [rx ry] eqn:E1.
  eexists. unfold handleMouseUp. simpl. split; [reflexivity|].
  simpl. repeat split.
Qed.

(** Each further pointer-move measures from the provisional box's current
    corner, not from the point where the gesture started. *)
Lemma dragDraft_uses_current_corner (rx ry : num) (prev : Draft num) :
  (dragDraft rx ry prev).(draft_width) = num_abs (rx - prev.(draft_x))
  /\ (dragDraft rx ry prev).(draft_height) = num_abs (ry - prev.(draft_y)).
Proof. split; reflexivity. Qed.

End DrawingMoves.

(** C1, at the failing input. The claim is that a drawing gesture whose
    start and end points coincide commits no box, the store after it being
    the store before it.  A click at (140, 170) on the empty page, with no
    pointer movement, leaves a store of one box of zero width and height
    at natural (400, 600): the store after the gesture is not the store
    before it. *)
Lemma click_without_drag_grows_store :
  allBoxes (gesture 1700000000000 (Run.event 140 170) [] Run.viewer)
  = [mkBox "1700000000000" (Run.f 400) (Run.f 600) (Run.f 0) (Run.f 0)
       None false "page.png" false]
  /\ allBoxes (gesture 1700000000000 (Run.event 140 170) [] Run.viewer)
     <> allBoxes Run.viewer.
Proof.
  split.
  - vm_compute. reflexivity.
  - intros H. vm_compute in H. discriminate H.
Qed.

Lemma click_commits_zero_size_box_witness :
  truthy_string (selectedBoxId Run.viewer) = false
  /\ truthy_string (editingBoxId Run.viewer) = false
  /\ exists b : Box float,
       allBoxes (gesture 1700000000000 (Run.event 140 170) [] Run.viewer)
       = allBoxes Run.viewer ++ [b]
       /\ b.(id) = toString 1700000000000
       /\ (b.(x), b.(y))
          = getEventCoordinates Run.viewer (Run.event 140 170)
       /\ b.(width) = zero /\ b.(height) = zero
       /\ isDrawing (gesture 1700000000000 (Run.event 140 170) []
                       Run.viewer) = false
       /\ currentBox (gesture 1700000000000 (Run.event 140 170) []
                        Run.viewer) = None.
Proof.
  split; [reflexivity|]. split; [reflexivity|].
  apply (click_commits_zero_size_box 1700000000000 Run.viewer
           (Run.event 140 170)); reflexivity.
Defined.

(** C2, at the failing input. On the page displayed at a quarter of its
    size, a drag from natural (400, 600) up and left to natural (200, 300)
    that passes through natural (300, 440) commits a box of width 100 and
    height 140: the distances from the last intermediate position, where
    the distances from the start point are 200 and 300.  The same drag
    reported by a single pointer-move commits width 200 and height 300. *)
Theorem drag_up_left_two_moves :
  getEventCoordinates Run.viewer (Run.event 140 170)
  = (Run.f 400, Run.f 600)
  /\ getEventCoordinates Run.viewer (Run.event 115 130)
     = (Run.f 300, Run.f 440)
  /\ getEventCoordinates Run.viewer (Run.event 90 95)
     = (Run.f 200, Run.f 300)
  /\ allBoxes
       (gesture 1700000000000 (Run.event 140 170)
          [Run.event 115 130; Run.event 90 95] Run.viewer)
     = [mkBox "1700000000000" (Run.f 200) (Run.f 300) (Run.f 100)
          (Run.f 140) None false "page.png" false]
  /\ num_abs (num_sub (Run.f 200) (Run.f 400)) = Run.f 200
  /\ num_abs (num_sub (Run.f 300) (Run.f 600)) = Run.f 300
  /\ allBoxes
       (gesture 1700000000000 (Run.event 140 170)
          [Run.event 90 95] Run.viewer)
     = [mkBox "1700000000000" (Run.f 200) (Run.f 300) (Run.f 200)
          (Run.f 300) None false "page.png" false].
Proof.
  repeat split; vm_compute; reflexivity.
Qed.

(* ================================================================== *)
(** ** Coordinate mapping *)

Section CoordinateMapper.
Context {num : Type} `{NumOps : Number num}.
Local Open Scope num_scope.

Lemma getEventCoordinates_mounted (s : Viewer num) (img : Image num)
    (e : MouseEvent num) :
  s.(imgRef) = Some img ->
  getEventCoordinates s e
  = ((e.(clientX) - img.(bounds_left)) / s.(scaleX),
     (e.(clientY) - img.(bounds_top)) / s.(scaleY)).
Proof.
  intros Himg. unfold getEventCoordinates. now rewrite Himg.
Qed.

(** C10. Without a mounted image element ([imgRef.current] is [null]) the
    pointer-to-natural conversion returns the coordinates (0, 0), for
    every pointer event. *)
Theorem getEventCoordinates_unmounted (s : Viewer num)
    (e : MouseEvent num) :
  s.(imgRef) = None -> getEventCoordinates s e = (zero, zero).
Proof.
  intros Himg. unfold getEventCoordinates. now rewrite Himg.
Qed.

Lemma effect_scale_idle (s : Viewer num) :
  s.(imgRef) = None \/ s.(imageLoaded) = false -> effect_scale s = s.
Proof.
  unfold effect_scale. intros [Himg | Hload].
  - now rewrite Himg.
  - rewrite Hload. now destruct s.(imgRef).
Qed.

End CoordinateMapper.

Lemma getEventCoordinates_unmounted_witness :
  imgRef (mount None "all" [Run.box1] None) = None
  /\ getEventCoordinates (mount None "all" [Run.box1] None)
       (Run.event 140 170)
     = (zero, zero).
Proof.
  split; [reflexivity|].
  apply (getEventCoordinates_unmounted (mount None "all" [Run.box1] None)
           (Run.event 140 170)).
  reflexivity.
Defined.

(** C6. The pointer-to-natural conversion subtracts the on-screen origin of
    the image element from the pointer position and divides each axis by its
    scale factor.  In binary64, for a loaded image of natural size 2000x3000
    displayed at 500x750, the scale effect sets both factors to 0.25, and a
    pointer at (100, 150) from the image origin maps to natural
    (400, 600). *)
Theorem getEventCoordinates_toNatural :
  (forall (num : Type) (NumOps : Number num) (s : Viewer num)
          (img : Image num) (e : MouseEvent num),
      s.(imgRef) = Some img ->
      getEventCoordinates s e
      = (num_div (num_sub e.(clientX) img.(bounds_left)) s.(scaleX),
         num_div (num_sub e.(clientY) img.(bounds_top)) s.(scaleY)))
  /\ (forall (s : Viewer float) (img : Image float) (e : MouseEvent float),
        s.(imgRef) = Some img -> s.(imageLoaded) = true ->
        img.(naturalWidth) = 2000%N -> img.(naturalHeight) = 3000%N ->
        img.(clientWidth) = 500%N -> img.(clientHeight) = 750%N ->
        PrimFloat.sub e.(clientX) img.(bounds_left) = 100%float ->
        PrimFloat.sub e.(clientY) img.(bounds_top) = 150%float ->
        scaleX (effect_scale s) = 0.25%float
        /\ scaleY (effect_scale s) = 0.25%float
        /\ getEventCoordinates (effect_scale s) e
           = (400%float, 600%float)).
Proof.
  split.
  - intros. now apply getEventCoordinates_mounted.
  - intros s img e Himg Hload Hnw Hnh Hcw Hch Hx Hy.
    assert (Hs : scaleX (effect_scale s) = 0.25%float
                 /\ scaleY (effect_scale s) = 0.25%float).
    { unfold effect_scale. rewrite Himg, Hload. simpl.
      rewrite Hnw, Hnh, Hcw, Hch. split; vm_compute; reflexivity. }
    destruct Hs as [Hsx Hsy]. split; [exact Hsx|]. split; [exact Hsy|].
    rewrite (getEventCoordinates_mounted (effect_scale s) (img := img) e).
    + rewrite Hsx, Hsy. simpl. rewrite Hx, Hy. vm_compute. reflexivity.
    + unfold effect_scale. rewrite Himg, Hload. simpl. exact Himg.
Qed.

Lemma getEventCoordinates_toNatural_witness :
  let s := effect_imgRef
             (mount (Some Run.page) "all" [] (Some (mkMetadata "page.png"))) in
  let e := Run.event 140 170 in
  getEventCoordinates s e
  = (num_div (num_sub e.(clientX) Run.page.(bounds_left)) s.(scaleX),
     num_div (num_sub e.(clientY) Run.page.(bounds_top)) s.(scaleY))
  /\ scaleX (effect_scale s) = 0.25%float
  /\ scaleY (effect_scale s) = 0.25%float
  /\ getEventCoordinates (effect_scale s) e = (400%float, 600%float).
Proof.
  intros s e. split.
  - apply (proj1 getEventCoordinates_toNatural float binary64 s Run.page e).
    reflexivity.
  - apply (proj2 getEventCoordinates_toNatural s Run.page e); reflexivity.
Defined.

(* ================================================================== *)
(** ** Displayed geometry *)

(** In every arithmetic the displayed geometry is the stored geometry
    multiplied by the scale factor of its axis, and the stored box is kept. *)
Lemma toDisplayed_fields {num : Type} `{NumOps : Number num}
    (sx sy : num) (b : Box num) :
  (toDisplayed sx sy b).(box) = b
  /\ (toDisplayed sx sy b).(scaledX) = num_mul b.(x) sx
  /\ (toDisplayed sx sy b).(scaledY) = num_mul b.(y) sy
  /\ (toDisplayed sx sy b).(scaledW) = num_mul b.(width) sx
  /\ (toDisplayed sx sy b).(scaledH) = num_mul b.(height) sy.
Proof. repeat split. Qed.

(** C3, in exact arithmetic. For every box and all scale factors
    [sx, sy > 0], dividing each field of the displayed box by the scale
    factor of its axis gives back the field of the stored box. *)
Theorem toDisplayed_round_trip (b : Box Q) (sx sy : Q) :
  0 < sx -> 0 < sy ->
  let d := toDisplayed sx sy b in
  d.(scaledX) / sx == b.(x)
  /\ d.(scaledY) / sy == b.(y)
  /\ d.(scaledW) / sx == b.(width)
  /\ d.(scaledH) / sy == b.(height).
Proof.
  intros Hx Hy d.
  assert (Hsx : ~ sx == 0) by (intros E; rewrite E in Hx; discriminate Hx).
  assert (Hsy : ~ sy == 0) by (intros E; rewrite E in Hy; discriminate Hy).
  subst d. simpl. repeat split; now apply Qdiv_mult_l.
Qed.

Lemma toDisplayed_round_trip_witness :
  0 < 3 # 10
  /\ (let d := toDisplayed (3 # 10) (3 # 10) Ideal.box7 in
      d.(scaledX) / (3 # 10) == Ideal.box7.(x)
      /\ d.(scaledY) / (3 # 10) == Ideal.box7.(y)
      /\ d.(scaledW) / (3 # 10) == Ideal.box7.(width)
      /\ d.(scaledH) / (3 # 10) == Ideal.box7.(height)).
Proof.
  split; [reflexivity|].
  apply (toDisplayed_round_trip Ideal.box7 (sx := 3 # 10) (sy := 3 # 10));
    reflexivity.
Defined.

(** C3, a run in binary64. On the 2000x2000 page displayed at 600x600 both
    scale factors are positive, and the box (7, 14, 28, 31) scaled for
    display and divided by the scale factor again is another box: no field
    comes back. *)
Lemma toDisplayed_round_trip_binary64 :
  let sx := scaleX Run.viewer1 in
  let sy := scaleY Run.viewer1 in
  let d := toDisplayed sx sy Run.box7 in
  PrimFloat.ltb 0 sx = true
  /\ PrimFloat.ltb 0 sy = true
  /\ PrimFloat.div d.(scaledX) sx <> Run.box7.(x)
  /\ PrimFloat.div d.(scaledY) sy <> Run.box7.(y)
  /\ PrimFloat.div d.(scaledW) sx <> Run.box7.(width)
  /\ PrimFloat.div d.(scaledH) sy <> Run.box7.(height).
Proof.
  intros sx sy d.
  split; [vm_compute; reflexivity|].
  split; [vm_compute; reflexivity|].
  repeat split; intros H.
  - apply (f_equal (fun v => PrimFloat.eqb v Run.box7.(x))) in H.
    vm_compute in H. discriminate H.
  - apply (f_equal (fun v => PrimFloat.eqb v Run.box7.(y))) in H.
    vm_compute in H. discriminate H.
  - apply (f_equal (fun v => PrimFloat.eqb v Run.box7.(width))) in H.
    vm_compute in H. discriminate H.
  - apply (f_equal (fun v => PrimFloat.eqb v Run.box7.(height))) in H.
    vm_compute in H. discriminate H.
Qed.

(* ================================================================== *)
(** ** Scale factors *)

Lemma inject_N_nonneg (n : N) : 0 <= inject_Z (Z.of_N n).
Proof.
  change 0 with (inject_Z 0). rewrite <- Zle_Qle. apply N2Z.is_nonneg.
Qed.

Lemma inject_N_zero (n : N) :
  Qeq_bool (inject_Z (Z.of_N n)) 0 = N.eqb n 0.
Proof.
  destruct n; reflexivity.
Qed.

(** [n || b] on an attribute [n] of the image element. *)
Lemma num_or_attribute (n : N) (b : Q) :
  num_or (num_of_N n) b = if N.eqb n 0 then b else inject_Z (Z.of_N n).
Proof.
  unfold num_or. simpl. rewrite inject_N_zero. now destruct (N.eqb n 0).
Qed.

Lemma num_or_attribute_pos (n : N) (b : Q) :
  0 < b -> 0 < num_or (num_of_N n) b.
Proof.
  intros Hb. rewrite num_or_attribute. destruct n as [|p]; simpl.
  - exact Hb.
  - reflexivity.
Qed.

Lemma Qdiv_pos (a b : Q) : 0 < a -> 0 < b -> 0 < a / b.
Proof.
  intros Ha Hb. apply Qlt_shift_div_l; [exact Hb|]. now rewrite Qmult_0_l.
Qed.

Lemma effect_scale_loaded (s : Viewer Q) (img : Image Q) :
  s.(imgRef) = Some img -> s.(imageLoaded) = true ->
  scaleX (effect_scale s)
  = num_or (num_of_N img.(clientWidth))
      (num_or (num_of_N img.(naturalWidth)) one)
    / num_or (num_of_N img.(naturalWidth)) one
  /\ scaleY (effect_scale s)
     = num_or (num_of_N img.(clientHeight))
         (num_or (num_of_N img.(naturalHeight)) one)
       / num_or (num_of_N img.(naturalHeight)) one.
Proof.
  intros Himg Hload. unfold effect_scale. rewrite Himg, Hload.
  split; reflexivity.
Qed.

(** C7, as the code has it, in exact arithmetic. Without an image element,
    or before it has loaded, the scale effect leaves both factors as they
    are (1 when the viewer is mounted).  For a loaded image a natural
    dimension of zero is replaced by the divisor 1, so nothing is divided by
    zero, and the factor of that axis is the displayed dimension - or 1 when
    that is zero too.  Both factors of a loaded image are strictly positive,
    positive factors stay positive in every case, and a viewer is mounted
    with both factors 1. *)
Theorem effect_scale_fallback (s : Viewer Q) :
  (s.(imgRef) = None \/ s.(imageLoaded) = false -> effect_scale s = s)
  /\ (forall img : Image Q,
        s.(imgRef) = Some img -> s.(imageLoaded) = true ->
        0 < scaleX (effect_scale s)
        /\ 0 < scaleY (effect_scale s)
        /\ (img.(naturalWidth) = 0%N ->
            scaleX (effect_scale s)
            == if N.eqb img.(clientWidth) 0 then 1
               else inject_Z (Z.of_N img.(clientWidth)))
        /\ (img.(naturalHeight) = 0%N ->
            scaleY (effect_scale s)
            == if N.eqb img.(clientHeight) 0 then 1
               else inject_Z (Z.of_N img.(clientHeight))))
  /\ (0 < s.(scaleX) -> 0 < s.(scaleY) ->
      0 < scaleX (effect_scale s) /\ 0 < scaleY (effect_scale s))
  /\ (scaleX (mount s.(imgRef) s.(filterCategory) s.(allBoxes) s.(metadata))
      = 1
      /\ scaleY (mount s.(imgRef) s.(filterCategory) s.(allBoxes)
                  s.(metadata))
         = 1).
Proof.
  assert (Hloaded : forall img : Image Q,
            s.(imgRef) = Some img -> s.(imageLoaded) = true ->
            0 < scaleX (effect_scale s) /\ 0 < scaleY (effect_scale s)).
  { intros img Himg Hload.
    destruct (effect_scale_loaded s Himg Hload) as [-> ->].
    split; apply Qdiv_pos; repeat apply num_or_attribute_pos; reflexivity. }
  split; [apply effect_scale_idle|]. split.
  - intros img Himg Hload.
    destruct (Hloaded img Himg Hload) as [Hx Hy].
    split; [exact Hx|]. split; [exact Hy|].
    destruct (effect_scale_loaded s Himg Hload) as [-> ->].
    split; intros ->; rewrite !num_or_attribute; simpl N.eqb; cbv iota;
      unfold one; simpl; unfold Qdiv; apply Qmult_1_r.
  - split; [|split; reflexivity].
    intros Hx Hy.
    destruct s.(imgRef) as [img|] eqn:Himg;
      [destruct s.(imageLoaded) eqn:Hload|].
    + exact (Hloaded img eq_refl eq_refl).
    + rewrite effect_scale_idle by (right; exact Hload). now split.
    + rewrite effect_scale_idle by (left; exact Himg). now split.
Qed.

Lemma effect_scale_fallback_witness :
  (imgRef (mount None "all" [Ideal.box1] None) = None
   /\ effect_scale (mount None "all" [Ideal.box1] None)
      = mount None "all" [Ideal.box1] None)
  /\ (imgRef Ideal.mounted_unsized = Some Ideal.unsized
      /\ imageLoaded Ideal.mounted_unsized = true
      /\ naturalWidth Ideal.unsized = 0%N
      /\ naturalHeight Ideal.unsized = 0%N
      /\ 0 < scaleX (effect_scale Ideal.mounted_unsized)
      /\ 0 < scaleY (effect_scale Ideal.mounted_unsized)
      /\ scaleX (effect_scale Ideal.mounted_unsized) == 500 # 1
      /\ scaleY (effect_scale Ideal.mounted_unsized) == 750 # 1)
  /\ (0 < scaleX Ideal.mounted /\ 0 < scaleY Ideal.mounted
      /\ 0 < scaleX (effect_scale Ideal.mounted)
      /\ 0 < scaleY (effect_scale Ideal.mounted)).
Proof.
  split; [|split].
  - split; [reflexivity|].
    apply (proj1 (effect_scale_fallback (mount None "all" [Ideal.box1] None))).
    left. reflexivity.
  - destruct (proj1 (proj2 (effect_scale_fallback Ideal.mounted_unsized))
                Ideal.unsized eq_refl eq_refl) as (Hx & Hy & Hw & Hh).
    do 4 (split; [reflexivity|]).
    split; [exact Hx|]. split; [exact Hy|].
    split; [exact (Hw eq_refl) | exact (Hh eq_refl)].
  - destruct (proj1 (proj2 (proj2 (effect_scale_fallback Ideal.mounted)))
                eq_refl eq_refl) as [Hx Hy].
    do 2 (split; [reflexivity|]).
    split; [exact Hx | exact Hy].
Defined.

(** C7, a run in binary64. An image element that has loaded with natural
    size 0x0 and is laid out at 500x750 gets the scale factors 500 and 750,
    not 1. *)
Lemma effect_scale_unsized_binary64 :
  imgRef Run.viewer_unsized = Some Run.unsized
  /\ imageLoaded Run.viewer_unsized = true
  /\ naturalWidth Run.unsized = 0%N
  /\ naturalHeight Run.unsized = 0%N
  /\ scaleX Run.viewer_unsized = Run.f 500
  /\ scaleY Run.viewer_unsized = Run.f 750
  /\ scaleX Run.viewer_unsized <> one
  /\ scaleY Run.viewer_unsized <> one.
Proof.
  repeat split; try (vm_compute; reflexivity); intros H.
  - apply (f_equal (fun v => PrimFloat.eqb v one)) in H.
    vm_compute in H. discriminate H.
  - apply (f_equal (fun v => PrimFloat.eqb v one)) in H.
    vm_compute in H. discriminate H.
Qed.

(* ================================================================== *)
(** ** Resizing *)

Section Resizing.
Context {num : Type} `{NumOps : Number num}.

Lemma handleMouseMove_resizing (s : Viewer num) (e : MouseEvent num)
    (a : string) :
  s.(isDrawing) = false -> s.(isResizing) = true ->
  s.(activeBoxId) = Some a ->
  allBoxes (handleMouseMove s e)
  = map (resizeBox a s.(resizingCorner)
           (fst (getEventCoordinates s e))
           (snd (getEventCoordinates s e)))
      s.(allBoxes).
Proof.
  intros Hd Hr Ha. unfold handleMouseMove. rewrite Hd, Hr, Ha. simpl.
  now destruct (getEventCoordinates s e).
Qed.

Lemma resizeBox_other (a : string) (corner : option string)
    (px py : num) (b : Box num) :
  b.(id) <> a -> resizeBox a corner px py b = b.
Proof.
  intros Hid. unfold resizeBox.
  now apply String.eqb_neq in Hid as ->.
Qed.

(** Whatever the arithmetic, a resize that is not anchored at the top-left
    handle writes to [width] and [height] only. *)
Lemma resizeBox_bottom_right_origin (a : string) (corner : option string)
    (px py : num) (b : Box num) :
  corner <> Some "top-left" ->
  (resizeBox a corner px py b).(x) = b.(x)
  /\ (resizeBox a corner px py b).(y) = b.(y).
Proof.
  intros Hc. unfold resizeBox.
  destruct (String.eqb b.(id) a); [|now split].
  destruct corner as [c|]; [|now split].
  destruct (String.eqb c "top-left") eqn:E; [|now split].
  apply String.eqb_eq in E. now subst c.
Qed.

Lemma Forall2_map_r {A : Type} (R : A -> A -> Prop) (g : A -> A)
    (l : list A) :
  (forall a, R a (g a)) -> Forall2 R l (map g l).
Proof.
  intros HR. induction l; simpl; constructor; auto.
Qed.

End Resizing.

Lemma resizeBox_top_left_exact (a : string) (px py : Q) (b : Box Q) :
  b.(id) = a ->
  let b' := resizeBox a (Some "top-left") px py b in
  (1 <= b.(width) + (b.(x) - px) ->
   b'.(x) + b'.(width) == b.(x) + b.(width))
  /\ (1 <= b.(height) + (b.(y) - py) ->
      b'.(y) + b'.(height) == b.(y) + b.(height)).
Proof.
  intros Hid b'. subst b'. unfold resizeBox.
  apply String.eqb_eq in Hid. rewrite Hid. simpl.
  split; intros Hfloor; rewrite (Q.max_r _ _ Hfloor); ring.
Qed.

Lemma resizeBox_floor_exact (a : string) (corner : option string)
    (px py : Q) (b : Box Q) :
  b.(id) = a ->
  1 <= (resizeBox a corner px py b).(width)
  /\ 1 <= (resizeBox a corner px py b).(height).
Proof.
  intros Hid. unfold resizeBox. apply String.eqb_eq in Hid. rewrite Hid.
  simpl. split; apply Q.le_max_l.
Qed.

(** C4, in exact arithmetic. A pointer-move while resizing changes only the
    boxes whose id is the active id, and for each of them: with the
    bottom-right anchor [x] and [y] are unchanged; with the top-left anchor
    the bottom-right corner is unchanged on every axis on which the
    minimum size does not apply, that is [x + width] when
    [width + (x - pointerX) >= 1] and [y + height] when
    [height + (y - pointerY) >= 1]; with either anchor the new width and
    height are at least 1. *)
Theorem resize_keeps_anchor (s : Viewer Q) (e : MouseEvent Q) (a : string) :
  s.(isDrawing) = false -> s.(isResizing) = true ->
  s.(activeBoxId) = Some a ->
  let px := fst (getEventCoordinates s e) in
  let py := snd (getEventCoordinates s e) in
  Forall2
    (fun b b' : Box Q =>
       (b.(id) <> a -> b' = b)
       /\ (b.(id) = a ->
           (s.(resizingCorner) = Some "bottom-right" ->
            b'.(x) = b.(x) /\ b'.(y) = b.(y))
           /\ (s.(resizingCorner) = Some "top-left" ->
               (1 <= b.(width) + (b.(x) - px) ->
                b'.(x) + b'.(width) == b.(x) + b.(width))
               /\ (1 <= b.(height) + (b.(y) - py) ->
                   b'.(y) + b'.(height) == b.(y) + b.(height)))
           /\ 1 <= b'.(width) /\ 1 <= b'.(height)))
    s.(allBoxes) (allBoxes (handleMouseMove s e)).
Proof.
  intros Hd Hr Ha px py.
  rewrite (handleMouseMove_resizing s e Hd Hr Ha). fold px py.
  apply Forall2_map_r. intros b. split.
  - apply resizeBox_other.
  - intros Hid. split; [|split].
    + intros ->. now apply resizeBox_bottom_right_origin.
    + intros ->. now apply resizeBox_top_left_exact.
    + now apply resizeBox_floor_exact.
Qed.

Lemma resize_keeps_anchor_witness :
  let s := handleResizeMouseDown "b1" "top-left" Ideal.viewer1 in
  let e := Ideal.event 10 10 in
  let px := fst (getEventCoordinates s e) in
  let py := snd (getEventCoordinates s e) in
  s.(isDrawing) = false /\ s.(isResizing) = true
  /\ s.(activeBoxId) = Some "b1"
  /\ Forall2
       (fun b b' : Box Q =>
          (b.(id) <> "b1" -> b' = b)
          /\ (b.(id) = "b1" ->
              (s.(resizingCorner) = Some "bottom-right" ->
               b'.(x) = b.(x) /\ b'.(y) = b.(y))
              /\ (s.(resizingCorner) = Some "top-left" ->
                  (1 <= b.(width) + (b.(x) - px) ->
                   b'.(x) + b'.(width) == b.(x) + b.(width))
                  /\ (1 <= b.(height) + (b.(y) - py) ->
                      b'.(y) + b'.(height) == b.(y) + b.(height)))
              /\ 1 <= b'.(width) /\ 1 <= b'.(height)))
       s.(allBoxes) (allBoxes (handleMouseMove s e)).
Proof.
  intros s e px py.
  split; [reflexivity|]. split; [reflexivity|]. split; [reflexivity|].
  apply (resize_keeps_anchor s e (a := "b1")); reflexivity.
Defined.

(** C4, a run in binary64. On the 2000x2000 page displayed at 600x600 the
    box (100, 100, 200, 200) is resized from its top-left handle with the
    pointer at (10, 10).  The new width and height are above the minimum
    size, so the floor does not apply, and the bottom-right corner, which
    was (300, 300), is another point afterwards. *)
Lemma resize_top_left_binary64 :
  let s := handleResizeMouseDown "b1" "top-left" Run.viewer1 in
  let e := Run.event 10 10 in
  let px := fst (getEventCoordinates s e) in
  let py := snd (getEventCoordinates s e) in
  let b' := hd Run.box1 (allBoxes (handleMouseMove s e)) in
  s.(allBoxes) = [Run.box1]
  /\ allBoxes (handleMouseMove s e) = [b']
  /\ PrimFloat.leb 1 (Run.box1.(width) + (Run.box1.(x) - px)) = true
  /\ PrimFloat.leb 1 (Run.box1.(height) + (Run.box1.(y) - py)) = true
  /\ (Run.box1.(x) + Run.box1.(width) = 300
      /\ Run.box1.(y) + Run.box1.(height) = 300)%float
  /\ (b'.(x) + b'.(width) <> Run.box1.(x) + Run.box1.(width))%float
  /\ (b'.(y) + b'.(height) <> Run.box1.(y) + Run.box1.(height))%float.
Proof.
  intros s e px py b'.
  split; [reflexivity|].
  split; [vm_compute; reflexivity|].
  split; [vm_compute; reflexivity|].
  split; [vm_compute; reflexivity|].
  split; [split; vm_compute; reflexivity|].
  split; intros H.
  - apply (f_equal (fun v => PrimFloat.eqb v 300)) in H.
    vm_compute in H. discriminate H.
  - apply (f_equal (fun v => PrimFloat.eqb v 300)) in H.
    vm_compute in H. discriminate H.
Qed.

(* ================================================================== *)
(** ** Two-phase deletion *)

Section Deletion.
Context {num : Type} `{NumOps : Number num}.

Lemma allBoxes_deleteSelected (s : Viewer num) :
  allBoxes (deleteSelected s)
  = List.filter (fun b => negb b.(fadeOut))
      (map (fun b => if id_is s.(selectedBoxId) b then markFadeOut b else b)
         s.(allBoxes)).
Proof. reflexivity. Qed.

(** Boxes with another id that are not marked survive both phases. *)
Lemma delete_keeps_others (sel : string) (l : list (Box num)) :
  (forall c, In c l -> c.(id) <> sel /\ c.(fadeOut) = false) ->
  List.filter (fun b => negb b.(fadeOut))
    (map (fun b => if id_is (Some sel) b then markFadeOut b else b) l)
  = l.
Proof.
  induction l as [|c l IH]; intros Hl; simpl; [reflexivity|].
  destruct (Hl c (or_introl eq_refl)) as [Hid Hfade].
  apply String.eqb_neq in Hid. rewrite Hid, Hfade. simpl.
  f_equal. apply IH. intros c' Hc'. apply Hl. now right.
Qed.

Lemma deleteSelected_split (s : Viewer num) (sel : string)
    (l1 l2 : list (Box num)) (b : Box num) :
  s.(selectedBoxId) = Some sel ->
  s.(allBoxes) = l1 ++ b :: l2 ->
  b.(id) = sel ->
  (forall c, In c (l1 ++ l2) -> c.(id) <> sel /\ c.(fadeOut) = false) ->
  allBoxes (deleteSelected s) = l1 ++ l2.
Proof.
  intros Hsel Hboxes Hb Hothers.
  assert (Hmark : id_is (Some sel) b = true)
    by (simpl; now apply String.eqb_eq).
  rewrite allBoxes_deleteSelected, Hsel, Hboxes.
  rewrite map_app, filter_app.
  rewrite (delete_keeps_others (sel := sel) l1)
    by (intros c Hc; apply Hothers, in_or_app; auto).
  cbn [map List.filter]. rewrite Hmark. cbn [markFadeOut fadeOut negb].
  rewrite (delete_keeps_others (sel := sel) l2)
    by (intros c Hc; apply Hothers, in_or_app; auto).
  reflexivity.
Qed.

(** C8, as the code has it. When exactly one box of the store has the
    selected id and no other box is already marked for removal, the delete
    action followed by its timer removes that box and leaves every other
    box, and their order, unchanged. *)
Theorem delete_removes_selected (s : Viewer num) (sel : string)
    (l1 l2 : list (Box num)) (b : Box num) :
  s.(selectedBoxId) = Some sel ->
  s.(allBoxes) = l1 ++ b :: l2 ->
  b.(id) = sel ->
  (forall c, In c (l1 ++ l2) -> c.(id) <> sel /\ c.(fadeOut) = false) ->
  allBoxes (deleteSelected s) = l1 ++ l2.
Proof.
  intros Hsel Hboxes Hb Hothers.
  exact (deleteSelected_split s l1 l2 b Hsel Hboxes Hb Hothers).
Qed.

(** The same for a store with pairwise distinct ids and no marked box. *)
Lemma delete_in_unique_store (s : Viewer num) (b : Box num) :
  s.(selectedBoxId) = Some b.(id) ->
  In b s.(allBoxes) ->
  NoDup (boxIds s.(allBoxes)) ->
  (forall c, In c s.(allBoxes) -> c.(fadeOut) = false) ->
  exists l1 l2,
    s.(allBoxes) = l1 ++ b :: l2
    /\ allBoxes (deleteSelected s) = l1 ++ l2.
Proof.
  intros Hsel Hin Hnodup Hfade.
  destruct (in_split _ _ Hin) as (l1 & l2 & E).
  exists l1, l2. split; [exact E|].
  apply (deleteSelected_split s (sel := b.(id)) l1 l2 b); auto.
  intros c Hc. split.
  - intros Hid. rewrite E in Hnodup. unfold boxIds in Hnodup.
    rewrite map_app in Hnodup. simpl in Hnodup.
    apply NoDup_remove_2 in Hnodup. apply Hnodup.
    rewrite <- Hid, <- map_app. now apply in_map.
  - apply Hfade. rewrite E. apply in_app_or in Hc.
    apply in_or_app. simpl. tauto.
Qed.

End Deletion.

Lemma delete_removes_selected_witness :
  let s := setSelectedBoxId (Some "b2")
             (mount (Some Run.square) "all" [Run.box1; Run.box2] None) in
  s.(selectedBoxId) = Some "b2"
  /\ s.(allBoxes) = [Run.box1] ++ Run.box2 :: []
  /\ Run.box2.(id) = "b2"
  /\ (forall c, In c ([Run.box1] ++ []) ->
        c.(id) <> "b2" /\ c.(fadeOut) = false)
  /\ allBoxes (deleteSelected s) = [Run.box1] ++ [].
Proof.
  intros s.
  assert (Hothers : forall c, In c ([Run.box1] ++ []) ->
                      c.(id) <> "b2" /\ c.(fadeOut) = false).
  { intros c [<-|[]]. split; [discriminate | reflexivity]. }
  split; [reflexivity|]. split; [reflexivity|]. split; [reflexivity|].
  split; [exact Hothers|].
  exact (delete_removes_selected s [Run.box1] [] Run.box2
           eq_refl eq_refl eq_refl Hothers).
Defined.

(** C8, two runs. Deleting box "b2" while box "b1" is still fading out
    removes both entries of the store; deleting one of two boxes that share
    the id "pred-7" removes both as well. *)
Lemma delete_removes_more_than_one :
  (allBoxes Run.viewer_fading = [markFadeOut Run.box1; Run.box2]
   /\ selectedBoxId Run.viewer_fading = Some Run.box2.(id)
   /\ allBoxes (deleteSelected Run.viewer_fading) = []
   /\ allBoxes (deleteSelected Run.viewer_fading)
      <> [markFadeOut Run.box1])
  /\ (boxIds (allBoxes (Run.viewer_predicted (fun _ => 1700000000000%Z)))
      = ["pred-7"; "pred-7"]
      /\ selectedBoxId (Run.viewer_predicted (fun _ => 1700000000000%Z))
         = Some "pred-7"
      /\ allBoxes
           (deleteSelected (Run.viewer_predicted (fun _ => 1700000000000%Z)))
         = []).
Proof.
  split.
  - repeat split; try (vm_compute; reflexivity).
    intros H. vm_compute in H. discriminate H.
  - repeat split; vm_compute; reflexivity.
Qed.

(* ================================================================== *)
(** ** Box ids *)

(** C9, at the failing input. Two predictions of one response that carry
    the same [image_id] (here 7) become two boxes with the same id
    "pred-7", whatever the clock: the store [handleImageUpload] installs has
    two boxes that share an id. *)
Theorem processedPredictions_shared_id (clock : nat -> Z) :
  boxIds (processedPredictions clock Run.predictions) = ["pred-7"; "pred-7"]
  /\ ~ NoDup (boxIds (processedPredictions clock Run.predictions)).
Proof.
  assert (E : boxIds (processedPredictions clock Run.predictions)
              = ["pred-7"; "pred-7"]) by (vm_compute; reflexivity).
  split; [exact E|]. rewrite E. intros H.
  inversion H as [|? ? Hnotin _]. apply Hnotin. now left.
Qed.

(** Two drawing gestures that end at the same reading of the clock commit
    two boxes with the same id. *)
Lemma same_clock_same_id {num : Type} `{NumOps : Number num}
    (now : Z) (s : Viewer num) (e1 e2 : MouseEvent num) :
  truthy_string s.(selectedBoxId) = false ->
  truthy_string s.(editingBoxId) = false ->
  exists b1 b2 : Box num,
    allBoxes (gesture now e2 [] (gesture now e1 [] s))
    = s.(allBoxes) ++ [b1; b2]
    /\ b1.(id) = b2.(id).
Proof.
  intros Hsel Hed. unfold gesture. simpl fold_left.
  rewrite (handleMouseDown_starts s e1 Hsel Hed).
  unfold handleMouseUp at 2. simpl.
  rewrite handleMouseDown_starts by exact Hsel || exact Hed.
  unfold handleMouseUp. simpl. rewrite <- app_assoc. simpl.
  eexists. eexists. split; reflexivity.
Qed.

(* ================================================================== *)
(** ** The minimum size in binary64 *)

Lemma float_ltb_leb (a b : float) :
  PrimFloat.ltb a b = true -> PrimFloat.leb a b = true.
Proof.
  rewrite FloatAxioms.ltb_spec, FloatAxioms.leb_spec.
  unfold SFltb, SFleb.
  destruct (SFcompare (Prim2SF a) (Prim2SF b)) as [[| |]|];
    intros H; try discriminate H; reflexivity.
Qed.

(** [Math.max(1, w)] is at least 1 unless [w] is [NaN], in which case it is
    [NaN]. *)
Lemma float_max_floor (w : float) :
  PrimFloat.is_nan w = false -> PrimFloat.leb 1 (float_max 1 w) = true.
Proof.
  intros Hnan. unfold float_max.
  change (PrimFloat.is_nan 1) with false. rewrite Hnan. simpl orb. cbv iota.
  destruct (PrimFloat.ltb 1 w) eqn:E.
  - now apply float_ltb_leb.
  - change (PrimFloat.get_sign 1) with false.
    destruct (PrimFloat.ltb w 1); reflexivity.
Qed.

Lemma float_max_floor_result (w : float) :
  PrimFloat.is_nan (float_max 1 w) = false ->
  PrimFloat.leb 1 (float_max 1 w) = true.
Proof.
  intros Hres. apply float_max_floor.
  destruct (PrimFloat.is_nan w) eqn:Hnan; [|reflexivity].
  unfold float_max in Hres. rewrite Hnan, orb_true_r in Hres.
  exact Hres.
Qed.

(** In binary64 too the width and the height of a resized box are at least
    1, unless they are [NaN]. *)
Lemma resizeBox_floor_binary64 (a : string) (corner : option string)
    (px py : float) (b : Box float) :
  b.(id) = a ->
  (PrimFloat.is_nan (resizeBox a corner px py b).(width) = false ->
   PrimFloat.leb 1 (resizeBox a corner px py b).(width) = true)
  /\ (PrimFloat.is_nan (resizeBox a corner px py b).(height) = false ->
      PrimFloat.leb 1 (resizeBox a corner px py b).(height) = true).
Proof.
  intros Hid. unfold resizeBox. apply String.eqb_eq in Hid.
  rewrite Hid. simpl. split; apply float_max_floor_result.
Qed.

(* ================================================================== *)
(** ** The scenarios of the specification, in binary64 *)

(** A store with categories 0, 3, 0: the filter "0" shows the first and the
    third box in that order, the filter "all" shows the three. *)
Example filter_scenario :
  let b (i : string) (c : Z) : Box float :=
    mkBox i (Run.f 0) (Run.f 0) (Run.f 10) (Run.f 10) (Some (JInt c)) true
      "page.png" false in
  let boxes := [b "1" 0%Z; b "2" 3%Z; b "3" 0%Z] in
  boxIds (deriveVisible "0" boxes) = ["1"; "3"]
  /\ boxIds (deriveVisible "all" boxes) = ["1"; "2"; "3"].
Proof. split; reflexivity. Qed.

(** An upward-left drag from natural (400, 600) to natural (200, 300) with a
    single pointer-move commits the box (200, 300, 200, 300). *)
Example draw_scenario :
  allBoxes
    (gesture 1700000000000 (Run.event 140 170) [Run.event 90 95] Run.viewer)
  = [mkBox "1700000000000" (Run.f 200) (Run.f 300) (Run.f 200) (Run.f 300)
       None false "page.png" false].
Proof. vm_compute. reflexivity. Qed.

(* ================================================================== *)
(** * Further properties of the viewer *)

(** ** Drawing gestures of any length *)

Section Gestures_any_length.
Context {num : Type} `{NumOps : Number num}.
Local Open Scope num_scope.

Lemma handleMouseMove_drawing (s : Viewer num) (d : Draft num)
    (e : MouseEvent num) :
  handleMouseMove (setDrawing true (Some d) s) e
  = setDrawing true
      (Some (dragDraft (fst (getEventCoordinates s e))
               (snd (getEventCoordinates s e)) d)) s.
Proof.
  unfold handleMouseMove. simpl.
  change (getEventCoordinates (setDrawing true (Some d) s) e)
    with (getEventCoordinates s e).
  now destruct (getEventCoordinates s e).
Qed.

Lemma drawing_moves (s : Viewer num) (moves : list (MouseEvent num)) :
  forall d : Draft num,
    fold_left handleMouseMove moves (setDrawing true (Some d) s)
    = setDrawing true (Some (dragThrough (pointsOf s moves) d)) s.
Proof.
  induction moves as [|e moves IH]; intros d; simpl; [reflexivity|].
  rewrite handleMouseMove_drawing. apply IH.
Qed.

Lemma dragThrough_snoc (pts : list (num * num)) (p : num * num)
    (d : Draft num) :
  dragThrough (pts ++ [p]) d = dragDraft (fst p) (snd p) (dragThrough pts d).
Proof.
  unfold dragThrough. now rewrite fold_left_app.
Qed.

(** A drag changes the geometry of the provisional box only. *)
Lemma dragThrough_tags (pts : list (num * num)) :
  forall d : Draft num,
    (dragThrough pts d).(draft_category_id) = d.(draft_category_id)
    /\ (dragThrough pts d).(draft_isBackend) = d.(draft_isBackend)
    /\ (dragThrough pts d).(draft_file_name) = d.(draft_file_name).
Proof.
  induction pts as [|p pts IH]; intros d; simpl; [now repeat split|].
  destruct (IH (dragDraft (fst p) (snd p) d)) as (Hc & Hb & Hf).
  now rewrite Hc, Hb, Hf.
Qed.

Lemma gesture_commits (now : Z) (s : Viewer num) (e : MouseEvent num)
    (moves : list (MouseEvent num)) :
  truthy_string s.(selectedBoxId) = false ->
  truthy_string s.(editingBoxId) = false ->
  gesture now e moves s
  = setResizing false None None
      (setDrawing false None
         (setAllBoxes
            (fun prev =>
               prev ++ [withId (toString now)
                          (dragThrough (pointsOf s moves) (startDraft s e))])
            s)).
Proof.
  intros Hsel Hed. unfold gesture.
  rewrite (handleMouseDown_starts s e Hsel Hed), drawing_moves.
  reflexivity.
Qed.

(** X1. Every drawing gesture - pointer-down with no box selected or
    edited, any number of pointer-moves, pointer-up - appends exactly one
    box to the store and changes no box already there.  The new box has
    the id read from the clock, the category of the active filter ([null]
    under "all"), the file name of the page metadata (or
    "default_filename"), and is neither a backend box nor marked for
    removal; afterwards the viewer is neither drawing nor resizing. *)
Theorem gesture_appends_one_box (now : Z) (s : Viewer num)
    (e : MouseEvent num) (moves : list (MouseEvent num)) :
  truthy_string s.(selectedBoxId) = false ->
  truthy_string s.(editingBoxId) = false ->
  exists b : Box num,
    allBoxes (gesture now e moves s) = s.(allBoxes) ++ [b]
    /\ b.(id) = toString now
    /\ b.(category_id)
       = (if String.eqb s.(filterCategory) "all" then None
          else Some (parseInt s.(filterCategory)))
    /\ b.(file_name)
       = (match s.(metadata) with
          | Some m => if truthy_string (Some m.(fileName)) then m.(fileName)
                      else "default_filename"
          | None => "default_filename"
          end)
    /\ b.(isBackend) = false /\ b.(fadeOut) = false
    /\ isDrawing (gesture now e moves s) = false
    /\ currentBox (gesture now e moves s) = None
    /\ isResizing (gesture now e moves s) = false
    /\ activeBoxId (gesture now e moves s) = None.
Proof.
  intros Hsel Hed. rewrite (gesture_commits now s e moves Hsel Hed).
  destruct (dragThrough_tags (pointsOf s moves) (startDraft s e))
    as (Hc & Hb & Hf).
  eexists. split; [reflexivity|]. simpl.
  rewrite Hc, Hb, Hf. repeat split.
Qed.

(** While no pointer-move goes left of or above the provisional box's
    corner, the corner stays where it is. *)
Lemma dragThrough_anchor (pts : list (num * num)) :
  forall d : Draft num,
    (forall p, In p pts ->
       (fst p <? d.(draft_x)) = false /\ (snd p <? d.(draft_y)) = false) ->
    (dragThrough pts d).(draft_x) = d.(draft_x)
    /\ (dragThrough pts d).(draft_y) = d.(draft_y).
Proof.
  induction pts as [|p pts IH]; intros d Hpts; simpl; [now split|].
  destruct (Hpts p (or_introl eq_refl)) as [Hx Hy].
  assert (Hd : (dragDraft (fst p) (snd p) d).(draft_x) = d.(draft_x)
               /\ (dragDraft (fst p) (snd p) d).(draft_y) = d.(draft_y)).
  { simpl. now rewrite Hx, Hy. }
  destruct Hd as [Hdx Hdy].
  destruct (IH (dragDraft (fst p) (snd p) d)) as [Hx' Hy'].
  - intros q Hq. rewrite Hdx, Hdy. apply Hpts. now right.
  - now rewrite Hx', Hy'.
Qed.

(** *** The drag with its renders *)

(** A handler of the render that shows the latest state is the handler of
    the sections above. *)
Lemma handleMouseDownIn_latest (s : Viewer num) (e : MouseEvent num) :
  handleMouseDownIn s e s = handleMouseDown s e.
Proof. reflexivity. Qed.

Lemma handleMouseMoveIn_latest (s : Viewer num) (e : MouseEvent num) :
  handleMouseMoveIn s e s = Some (handleMouseMove s e).
Proof.
  unfold handleMouseMoveIn, handleMouseMove.
  destruct (negb (isDrawing s) && negb (isResizing s))%bool; [reflexivity|].
  destruct (getEventCoordinates s e) as [rx ry].
  destruct (isDrawing s), (currentBox s), (isResizing s), (activeBoxId s);
    reflexivity.
Qed.

Lemma handleMouseUpIn_latest (now : Z) (s : Viewer num) :
  handleMouseUpIn s now s = handleMouseUp now s.
Proof. reflexivity. Qed.

Lemma runSteps_app (a b : list (Step (num := num))) :
  forall l : Live,
    runSteps (a ++ b) l
    = match runSteps a l with
      | Some l' => runSteps b l'
      | None => None
      end.
Proof.
  induction a as [|[e|] a IH]; intros l; simpl; [reflexivity| |apply IH].
  destruct (handleMouseMoveIn (shown l) e (queued l)); [apply IH|reflexivity].
Qed.

Lemma movesOf_app (a b : list (Step (num := num))) :
  movesOf (a ++ b) = movesOf a ++ movesOf b.
Proof.
  induction a as [|[e|] a IH]; simpl; [reflexivity| |exact IH].
  now rewrite IH.
Qed.

(** With every event rendered before the next, the drag is [gesture]. *)
Lemma runSteps_eachRendered (moves : list (MouseEvent num)) :
  forall q : Viewer num,
    runSteps (flat_map (fun e => [Moved e; Rendered]) moves) (mkLive q q)
    = Some (mkLive (fold_left handleMouseMove moves q)
              (fold_left handleMouseMove moves q)).
Proof.
  induction moves as [|e moves IH]; intros q; [reflexivity|].
  change (flat_map (fun e0 => [Moved e0; Rendered]) (e :: moves))
    with (Moved e :: Rendered
          :: flat_map (fun e0 => [Moved e0; Rendered]) moves).
  cbn [runSteps shown queued fold_left].
  rewrite handleMouseMoveIn_latest. cbn [runSteps shown queued]. apply IH.
Qed.

Lemma drag_eachRendered (now : Z) (down : MouseEvent num)
    (moves : list (MouseEvent num)) (s : Viewer num) :
  drag now down (eachRendered moves) s = Some (gesture now down moves s).
Proof.
  unfold drag, eachRendered. cbn [runSteps queued].
  rewrite handleMouseDownIn_latest, runSteps_eachRendered. reflexivity.
Qed.

(** Pointer-moves handled by a render that is neither drawing nor
    resizing queue nothing. *)
Lemma runSteps_ignored (early : list (MouseEvent num)) (c q : Viewer num) :
  c.(isDrawing) = false -> c.(isResizing) = false ->
  runSteps (map Moved early) (mkLive c q) = Some (mkLive c q).
Proof.
  intros Hd Hr. induction early as [|e early IH]; [reflexivity|].
  cbn [map runSteps shown queued]. unfold handleMouseMoveIn.
  rewrite Hd, Hr. exact IH.
Qed.

Lemma handleMouseMoveIn_drawing (s : Viewer num) (dr dq : Draft num)
    (e : MouseEvent num) :
  handleMouseMoveIn (setDrawing true (Some dr) s) e
    (setDrawing true (Some dq) s)
  = Some (setDrawing true
            (Some (dragDraft (fst (getEventCoordinates s e))
                     (snd (getEventCoordinates s e)) dq)) s).
Proof.
  unfold handleMouseMoveIn. simpl.
  change (getEventCoordinates (setDrawing true (Some dr) s) e)
    with (getEventCoordinates s e).
  now destruct (getEventCoordinates s e).
Qed.

(** Pointer-moves that no render follows change the latest draft only. *)
Lemma runSteps_unseen (s : Viewer num) (dr : Draft num)
    (unseen : list (MouseEvent num)) :
  forall dq : Draft num,
    runSteps (map Moved unseen)
      (mkLive (setDrawing true (Some dr) s) (setDrawing true (Some dq) s))
    = Some (mkLive (setDrawing true (Some dr) s)
              (setDrawing true
                 (Some (dragThrough (pointsOf s unseen) dq)) s)).
Proof.
  induction unseen as [|e unseen IH]; intros dq; [reflexivity|].
  cbn [map runSteps shown queued].
  rewrite handleMouseMoveIn_drawing. apply IH.
Qed.

(** Steps that end with a render show the draft after all their moves. *)
Lemma runSteps_seen (s : Viewer num) (mid : list (Step (num := num))) :
  forall dr dq : Draft num,
    runSteps (mid ++ [Rendered])
      (mkLive (setDrawing true (Some dr) s) (setDrawing true (Some dq) s))
    = Some (mkLive
              (setDrawing true
                 (Some (dragThrough (pointsOf s (movesOf mid)) dq)) s)
              (setDrawing true
                 (Some (dragThrough (pointsOf s (movesOf mid)) dq)) s)).
Proof.
  induction mid as [|[e|] mid IH]; intros dr dq.
  - reflexivity.
  - rewrite <- app_comm_cons. cbn [runSteps shown queued].
    rewrite handleMouseMoveIn_drawing. apply IH.
  - rewrite <- app_comm_cons. cbn [runSteps shown queued]. apply IH.
Qed.

(** The release commits the draft of the last render: the drag ends as
    the gesture of the rendered moves does. *)
Lemma drag_commits_rendered (now : Z) (s : Viewer num) (e0 : MouseEvent num)
    (early : list (MouseEvent num)) (mid : list (Step (num := num)))
    (unseen : list (MouseEvent num)) :
  truthy_string s.(selectedBoxId) = false ->
  truthy_string s.(editingBoxId) = false ->
  s.(isDrawing) = false -> s.(isResizing) = false ->
  (mid = [] \/ exists mid', mid = mid' ++ [Rendered]) ->
  drag now e0 (map Moved early ++ Rendered :: mid ++ map Moved unseen) s
  = Some (gesture now e0 (movesOf mid) s).
Proof.
  intros Hsel Hed Hd Hr Hmid. unfold drag.
  rewrite handleMouseDownIn_latest, (handleMouseDown_starts s e0 Hsel Hed).
  rewrite runSteps_app, (runSteps_ignored early s _ Hd Hr).
  cbn [runSteps queued]. rewrite runSteps_app.
  rewrite (gesture_commits now s e0 (movesOf mid) Hsel Hed).
  destruct Hmid as [-> | [mid' ->]].
  - cbn [runSteps movesOf]. rewrite runSteps_unseen. reflexivity.
  - rewrite runSteps_seen, runSteps_unseen, movesOf_app.
    cbn [movesOf]. rewrite app_nil_r. reflexivity.
Qed.

(** X2. A drag on a viewer that is neither drawing nor resizing and has
    no box selected or edited, with its renders: pointer-moves handled
    before the pointer-down is rendered are ignored, pointer-moves that
    no render follows before the release are lost, and the release
    appends the provisional box of the last render.  When the rendered
    moves never go left of or above the start point [P0], that box has
    [x, y] at [P0], width [|P1.x - P0.x|] and height [|P1.y - P0.y|], [P1]
    being the position of the last rendered pointer-move; it has width and
    height 0 when no pointer-move was rendered. *)
Theorem drag_right_down (now : Z) (s : Viewer num) (e0 : MouseEvent num)
    (early : list (MouseEvent num)) (mid : list (Step (num := num)))
    (unseen : list (MouseEvent num)) :
  truthy_string s.(selectedBoxId) = false ->
  truthy_string s.(editingBoxId) = false ->
  s.(isDrawing) = false -> s.(isResizing) = false ->
  (mid = [] \/ exists mid', mid = mid' ++ [Rendered]) ->
  (forall m, In m (movesOf mid) ->
     (fst (getEventCoordinates s m) <? fst (getEventCoordinates s e0))
     = false
     /\ (snd (getEventCoordinates s m) <? snd (getEventCoordinates s e0))
        = false) ->
  exists (s' : Viewer num) (b : Box num),
    drag now e0 (map Moved early ++ Rendered :: mid ++ map Moved unseen) s
    = Some s'
    /\ s'.(allBoxes) = s.(allBoxes) ++ [b]
    /\ s'.(isDrawing) = false /\ s'.(currentBox) = None
    /\ b.(x) = fst (getEventCoordinates s e0)
    /\ b.(y) = snd (getEventCoordinates s e0)
    /\ (movesOf mid = [] -> b.(width) = zero /\ b.(height) = zero)
    /\ (forall seen eLast, movesOf mid = seen ++ [eLast] ->
          b.(width)
          = num_abs (fst (getEventCoordinates s eLast)
                     - fst (getEventCoordinates s e0))
          /\ b.(height)
             = num_abs (snd (getEventCoordinates s eLast)
                        - snd (getEventCoordinates s e0))).
Proof.
  intros Hsel Hed Hd Hr Hmid Hmoves.
  rewrite (drag_commits_rendered now s e0 early unseen Hsel Hed Hd Hr Hmid).
  rewrite (gesture_commits now s e0 (movesOf mid) Hsel Hed).
  eexists. eexists. split; [reflexivity|]. split; [reflexivity|].
  split; [reflexivity|]. split; [reflexivity|].
  destruct (dragThrough_anchor (pointsOf s (movesOf mid)) (startDraft s e0))
    as [Hx Hy].
  { intros p Hp. apply in_map_iff in Hp as (m & <- & Hm).
    now apply Hmoves. }
  split; [exact Hx|]. split; [exact Hy|]. split.
  - intros ->. split; reflexivity.
  - intros seen eLast E. rewrite E in *. unfold pointsOf in *.
    rewrite map_app in *. cbn [map] in *. rewrite dragThrough_snoc.
    destruct (dragThrough_anchor (map (getEventCoordinates s) seen)
                (startDraft s e0)) as [Hx' Hy'].
    { intros p Hp. apply in_map_iff in Hp as (m & <- & Hm).
      apply Hmoves, in_or_app. now left. }
    cbn [withId width height dragDraft draft_width draft_height].
    rewrite Hx', Hy'. split; reflexivity.
Qed.

End Gestures_any_length.

Lemma gesture_appends_one_box_witness :
  truthy_string (selectedBoxId Run.viewer) = false
  /\ truthy_string (editingBoxId Run.viewer) = false
  /\ exists b : Box float,
       allBoxes (gesture 1700000000000 (Run.event 140 170)
                   [Run.event 115 130; Run.event 90 95] Run.viewer)
       = allBoxes Run.viewer ++ [b]
       /\ b.(id) = toString 1700000000000
       /\ b.(category_id) = None
       /\ b.(file_name) = "page.png"
       /\ b.(isBackend) = false /\ b.(fadeOut) = false
       /\ isDrawing (gesture 1700000000000 (Run.event 140 170)
                       [Run.event 115 130; Run.event 90 95] Run.viewer)
          = false
       /\ currentBox (gesture 1700000000000 (Run.event 140 170)
                        [Run.event 115 130; Run.event 90 95] Run.viewer)
          = None
       /\ isResizing (gesture 1700000000000 (Run.event 140 170)
                        [Run.event 115 130; Run.event 90 95] Run.viewer)
          = false
       /\ activeBoxId (gesture 1700000000000 (Run.event 140 170)
                         [Run.event 115 130; Run.event 90 95] Run.viewer)
          = None.
Proof.
  split; [reflexivity|]. split; [reflexivity|].
  exact (gesture_appends_one_box 1700000000000 Run.viewer
           (Run.event 140 170) [Run.event 115 130; Run.event 90 95]
           eq_refl eq_refl).
Defined.

Lemma drag_right_down_witness :
  let s := Run.viewer in
  let e0 := Run.event 140 170 in
  let mid := [Moved (Run.event 150 180); Rendered;
              Moved (Run.event 165 200); Rendered] in
  let unseen := [Run.event 190 245] in
  exists (s' : Viewer float) (b : Box float),
    drag 1700000000000 e0 (Rendered :: mid ++ map Moved unseen) s = Some s'
    /\ s'.(allBoxes) = s.(allBoxes) ++ [b]
    /\ b.(x) = Run.f 400 /\ b.(y) = Run.f 600
    /\ b.(width) = Run.f 100 /\ b.(height) = Run.f 120.
Proof.
  intros s e0 mid unseen.
  assert (Hmoves : forall m, In m (movesOf mid) ->
            num_ltb (fst (getEventCoordinates s m))
              (fst (getEventCoordinates s e0)) = false
            /\ num_ltb (snd (getEventCoordinates s m))
                 (snd (getEventCoordinates s e0)) = false).
  { intros m [<-|[<-|[]]]; split; vm_compute; reflexivity. }
  destruct (drag_right_down 1700000000000 s e0 [] (mid := mid) unseen
              eq_refl eq_refl eq_refl eq_refl
              (or_intror
                 (ex_intro _ [Moved (Run.event 150 180); Rendered;
                              Moved (Run.event 165 200)] eq_refl))
              Hmoves)
    as (s' & b & Hdrag & Hstore & _ & _ & Hx & Hy & _ & Hsize).
  destruct (Hsize [Run.event 150 180] (Run.event 165 200) eq_refl)
    as [Hw Hh].
  exists s', b. split; [exact Hdrag|]. split; [exact Hstore|].
  split; [rewrite Hx; vm_compute; reflexivity|].
  split; [rewrite Hy; vm_compute; reflexivity|].
  split; [rewrite Hw; vm_compute; reflexivity
         |rewrite Hh; vm_compute; reflexivity].
Defined.

(** ** Sizes of drawn boxes in binary64 *)

Lemma float_abs_not_negative (a : float) :
  PrimFloat.ltb (PrimFloat.abs a) 0 = false.
Proof.
  rewrite FloatAxioms.ltb_spec, FloatAxioms.abs_spec.
  change (Prim2SF 0) with (S754_zero false).
  destruct (Prim2SF a) as [sg|sg| |sg m e]; reflexivity.
Qed.

Lemma float_abs_nonneg (a : float) :
  PrimFloat.is_nan (PrimFloat.abs a) = false ->
  PrimFloat.leb 0 (PrimFloat.abs a) = true.
Proof.
  unfold PrimFloat.is_nan.
  rewrite FloatAxioms.eqb_spec, FloatAxioms.leb_spec, FloatAxioms.abs_spec.
  change (Prim2SF 0) with (S754_zero false).
  destruct (Prim2SF a) as [sg|sg| |sg m e]; simpl; intros H;
    try reflexivity; discriminate H.
Qed.

(** X3. In binary64 the box committed by a drawing gesture never has a
    negative width or height: [width < 0] and [height < 0] are false, and
    unless they are [NaN] both are at least 0. *)
Theorem gesture_size_not_negative (now : Z) (s : Viewer float)
    (e : MouseEvent float) (moves : list (MouseEvent float)) :
  truthy_string s.(selectedBoxId) = false ->
  truthy_string s.(editingBoxId) = false ->
  exists b : Box float,
    allBoxes (gesture now e moves s) = s.(allBoxes) ++ [b]
    /\ PrimFloat.ltb b.(width) 0 = false
    /\ PrimFloat.ltb b.(height) 0 = false
    /\ (PrimFloat.is_nan b.(width) = false ->
        PrimFloat.leb 0 b.(width) = true)
    /\ (PrimFloat.is_nan b.(height) = false ->
        PrimFloat.leb 0 b.(height) = true).
Proof.
  intros Hsel Hed. rewrite (gesture_commits now s e moves Hsel Hed).
  eexists. split; [reflexivity|].
  destruct moves as [|m moves] using rev_ind.
  - simpl. repeat split; reflexivity.
  - unfold pointsOf. rewrite map_app. simpl map. rewrite dragThrough_snoc.
    simpl. repeat split;
      first [apply float_abs_not_negative | apply float_abs_nonneg].
Qed.

Lemma gesture_size_not_negative_witness :
  truthy_string (selectedBoxId Run.viewer) = false
  /\ truthy_string (editingBoxId Run.viewer) = false
  /\ exists b : Box float,
       allBoxes (gesture 1700000000000 (Run.event 140 170)
                   [Run.event 115 130; Run.event 90 95] Run.viewer)
       = allBoxes Run.viewer ++ [b]
       /\ PrimFloat.ltb b.(width) 0 = false
       /\ PrimFloat.ltb b.(height) 0 = false
       /\ (PrimFloat.is_nan b.(width) = false ->
           PrimFloat.leb 0 b.(width) = true)
       /\ (PrimFloat.is_nan b.(height) = false ->
           PrimFloat.leb 0 b.(height) = true).
Proof.
  split; [reflexivity|]. split; [reflexivity|].
  exact (gesture_size_not_negative 1700000000000 Run.viewer
           (Run.event 140 170) [Run.event 115 130; Run.event 90 95]
           eq_refl eq_refl).
Defined.

(* ================================================================== *)
(** ** Pointer-down on the canvas while a box is selected *)

Section Deselect.
Context {num : Type} `{NumOps : Number num}.

Lemma handleMouseMove_idle (s : Viewer num) (e : MouseEvent num) :
  s.(isDrawing) = false -> s.(isResizing) = false ->
  handleMouseMove s e = s.
Proof.
  intros Hd Hr. unfold handleMouseMove. now rewrite Hd, Hr.
Qed.

Lemma moves_idle (moves : list (MouseEvent num)) (s : Viewer num) :
  s.(isDrawing) = false -> s.(isResizing) = false ->
  fold_left handleMouseMove moves s = s.
Proof.
  intros Hd Hr. induction moves as [|e moves IH]; simpl; [reflexivity|].
  now rewrite handleMouseMove_idle.
Qed.

Lemma handleMouseMove_selection (s : Viewer num) (e : MouseEvent num) :
  selectedBoxId (handleMouseMove s e) = s.(selectedBoxId)
  /\ editingBoxId (handleMouseMove s e) = s.(editingBoxId)
  /\ isCategoryMenuOpen (handleMouseMove s e) = s.(isCategoryMenuOpen).
Proof.
  unfold handleMouseMove.
  destruct (negb (isDrawing s) && negb (isResizing s))%bool;
    [now repeat split|].
  destruct (getEventCoordinates s e) as [rx ry].
  destruct (isDrawing s), (currentBox s), (isResizing s), (activeBoxId s);
    now repeat split.
Qed.

Lemma moves_selection (moves : list (MouseEvent num)) :
  forall s : Viewer num,
    selectedBoxId (fold_left handleMouseMove moves s) = s.(selectedBoxId)
    /\ editingBoxId (fold_left handleMouseMove moves s) = s.(editingBoxId)
    /\ isCategoryMenuOpen (fold_left handleMouseMove moves s)
       = s.(isCategoryMenuOpen).
Proof.
  induction moves as [|e moves IH]; intros s; simpl; [now repeat split|].
  destruct (IH (handleMouseMove s e)) as (Hs & He & Hm).
  destruct (handleMouseMove_selection s e) as (Hs' & He' & Hm').
  rewrite Hs, He, Hm. now repeat split.
Qed.

Lemma handleMouseUp_selection (now : Z) (s : Viewer num) :
  selectedBoxId (handleMouseUp now s) = s.(selectedBoxId)
  /\ editingBoxId (handleMouseUp now s) = s.(editingBoxId)
  /\ isCategoryMenuOpen (handleMouseUp now s) = s.(isCategoryMenuOpen).
Proof.
  unfold handleMouseUp. destruct (isDrawing s), (currentBox s);
    now repeat split.
Qed.

(** X4. A press on the canvas while a box is selected or edited starts no
    box: it leaves the store, the provisional box and the drawing and
    resizing state as they were, and after the pointer-moves and the
    pointer-up that follow the selection, the edit mode and the category
    menu are closed.  When the viewer was neither drawing nor resizing at
    the press, whatever pointer-moves follow before the pointer-up, no box
    is drawn and the store is unchanged. *)
Theorem canvas_press_deselects (now : Z) (s : Viewer num)
    (e : MouseEvent num) (moves : list (MouseEvent num)) :
  (truthy_string s.(selectedBoxId) || truthy_string s.(editingBoxId))%bool
  = true ->
  (allBoxes (handleMouseDown s e) = s.(allBoxes)
   /\ isDrawing (handleMouseDown s e) = s.(isDrawing)
   /\ currentBox (handleMouseDown s e) = s.(currentBox)
   /\ isResizing (handleMouseDown s e) = s.(isResizing)
   /\ activeBoxId (handleMouseDown s e) = s.(activeBoxId)
   /\ resizingCorner (handleMouseDown s e) = s.(resizingCorner))
  /\ selectedBoxId (gesture now e moves s) = None
  /\ editingBoxId (gesture now e moves s) = None
  /\ isCategoryMenuOpen (gesture now e moves s) = false
  /\ (s.(isDrawing) = false -> s.(isResizing) = false ->
      allBoxes (gesture now e moves s) = s.(allBoxes)
      /\ isDrawing (gesture now e moves s) = false
      /\ currentBox (gesture now e moves s) = s.(currentBox)).
Proof.
  intros Hsel.
  assert (Hdown : handleMouseDown s e
                  = setIsCategoryMenuOpen false
                      (setEditingBoxId None (setSelectedBoxId None s)))
    by (unfold handleMouseDown; now rewrite Hsel).
  split; [rewrite Hdown; now repeat split|].
  unfold gesture. rewrite Hdown.
  set (s0 := setIsCategoryMenuOpen false
               (setEditingBoxId None (setSelectedBoxId None s))).
  destruct (handleMouseUp_selection now (fold_left handleMouseMove moves s0))
    as (Hs & He & Hm).
  destruct (moves_selection moves s0) as (Hs' & He' & Hm').
  split; [rewrite Hs, Hs'; reflexivity|].
  split; [rewrite He, He'; reflexivity|].
  split; [rewrite Hm, Hm'; reflexivity|].
  intros Hd Hr. rewrite moves_idle by (simpl; assumption).
  unfold handleMouseUp, s0. simpl. rewrite Hd. simpl. rewrite Hd.
  repeat split.
Qed.

(** X5. A box drawn while the filter is "all" or a category [k] is shown
    by that filter: the visible list after the gesture is the visible list
    before it followed by the new box, and under the filter [k] the new box
    has category [k]. *)
Theorem drawn_box_is_visible (now : Z) (s : Viewer num)
    (e : MouseEvent num) (moves : list (MouseEvent num)) :
  truthy_string s.(selectedBoxId) = false ->
  truthy_string s.(editingBoxId) = false ->
  (s.(filterCategory) = "all"
   \/ exists k : Z, s.(filterCategory) = toString k) ->
  exists b : Box num,
    allBoxes (gesture now e moves s) = s.(allBoxes) ++ [b]
    /\ deriveVisible (filterCategory (gesture now e moves s))
         (allBoxes (gesture now e moves s))
       = deriveVisible s.(filterCategory) s.(allBoxes) ++ [b]
    /\ (s.(filterCategory) = "all" -> b.(category_id) = None)
    /\ (forall k : Z, s.(filterCategory) = toString k ->
          b.(category_id) = Some (JInt k)).
Proof.
  intros Hsel Hed Hflt.
  destruct (dragThrough_tags (pointsOf s moves) (startDraft s e))
    as (Hc & _ & _).
  rewrite (gesture_commits now s e moves Hsel Hed).
  eexists. split; [reflexivity|].
  cbn [filterCategory allBoxes setResizing setDrawing setAllBoxes].
  destruct Hflt as [Hall | [k Hk]].
  - rewrite Hall. split; [reflexivity|].
    cbn [withId category_id]. rewrite Hc. simpl. rewrite Hall.
    split; [reflexivity|].
    intros k Hk. pose proof (toString_not_all k) as Hn.
    rewrite <- Hk in Hn. discriminate Hn.
  - assert (Hcat : draft_category_id
                     (dragThrough (pointsOf s moves) (startDraft s e))
                   = Some (JInt k)).
    { rewrite Hc. simpl. now rewrite Hk, toString_not_all, parseInt_toString. }
    rewrite Hk. unfold deriveVisible.
    rewrite toString_not_all, parseInt_toString, filter_app.
    cbn [List.filter withId category_id]. rewrite Hcat.
    cbn [category_eq]. rewrite Z.eqb_refl.
    split; [reflexivity|]. split.
    + intros Hall. pose proof (toString_not_all k) as Hn.
      rewrite Hall in Hn. discriminate Hn.
    + intros k' Hk'. f_equal. f_equal.
      apply (f_equal parseInt) in Hk'. rewrite !parseInt_toString in Hk'.
      now injection Hk'.
Qed.

End Deselect.

Lemma canvas_press_deselects_witness :
  let s := setSelectedBoxId (Some "b1") Run.viewer1 in
  let e := Run.event 140 170 in
  let moves := [Run.event 115 130; Run.event 90 95] in
  (truthy_string s.(selectedBoxId) || truthy_string s.(editingBoxId))%bool
  = true
  /\ s.(isDrawing) = false /\ s.(isResizing) = false
  /\ selectedBoxId (gesture 1700000000000 e moves s) = None
  /\ editingBoxId (gesture 1700000000000 e moves s) = None
  /\ isCategoryMenuOpen (gesture 1700000000000 e moves s) = false
  /\ allBoxes (gesture 1700000000000 e moves s) = s.(allBoxes)
  /\ isDrawing (gesture 1700000000000 e moves s) = false
  /\ currentBox (gesture 1700000000000 e moves s) = s.(currentBox).
Proof.
  intros s e moves.
  destruct (canvas_press_deselects 1700000000000 s e moves eq_refl)
    as (_ & Hsel & Hed & Hmenu & Hidle).
  split; [reflexivity|]. split; [reflexivity|]. split; [reflexivity|].
  split; [exact Hsel|]. split; [exact Hed|]. split; [exact Hmenu|].
  exact (Hidle eq_refl eq_refl).
Defined.

Lemma drawn_box_is_visible_witness :
  let s := effect_scale
             (effect_imgRef
                (mount (Some Run.square) "3" [Run.box1; Run.box2]
                   (Some (mkMetadata "page.png")))) in
  let e := Run.event 140 170 in
  let moves := [Run.event 150 180] in
  truthy_string s.(selectedBoxId) = false
  /\ truthy_string s.(editingBoxId) = false
  /\ (s.(filterCategory) = "all"
      \/ exists k : Z, s.(filterCategory) = toString k)
  /\ exists b : Box float,
       allBoxes (gesture 1700000000000 e moves s) = s.(allBoxes) ++ [b]
       /\ deriveVisible (filterCategory (gesture 1700000000000 e moves s))
            (allBoxes (gesture 1700000000000 e moves s))
          = deriveVisible s.(filterCategory) s.(allBoxes) ++ [b]
       /\ (s.(filterCategory) = "all" -> b.(category_id) = None)
       /\ (forall k : Z, s.(filterCategory) = toString k ->
             b.(category_id) = Some (JInt k)).
Proof.
  intros s e moves.
  assert (Hflt : s.(filterCategory) = "all"
                 \/ exists k : Z, s.(filterCategory) = toString k).
  { right. exists 3%Z. reflexivity. }
  split; [reflexivity|]. split; [reflexivity|]. split; [exact Hflt|].
  exact (drawn_box_is_visible 1700000000000 s e moves eq_refl eq_refl Hflt).
Defined.

(* ================================================================== *)
(** ** Invariants of the interaction state *)

Section Invariants.
Context {num : Type} `{NumOps : Number num}.

Lemma mount_consistent (img : option (Image num)) (flt : string)
    (boxes : list (Box num)) (meta : option Metadata) :
  consistent (mount img flt boxes meta).
Proof.
  unfold consistent. simpl. repeat split; intros H;
    try discriminate H; try (now contradiction H).
Qed.

Lemma handleMouseDown_consistent (s : Viewer num) (e : MouseEvent num) :
  consistent s -> consistent (handleMouseDown s e).
Proof.
  unfold consistent, handleMouseDown. intros (H1 & H2 & H3 & H4).
  destruct (truthy_string (selectedBoxId s) || truthy_string (editingBoxId s))%bool
    eqn:E.
  - simpl. tauto.
  - destruct (getEventCoordinates s e) as [rx ry]. simpl.
    repeat split; try tauto; intros; try reflexivity; discriminate.
Qed.

Lemma handleMouseMove_consistent (s : Viewer num) (e : MouseEvent num) :
  consistent s -> consistent (handleMouseMove s e).
Proof.
  unfold consistent, handleMouseMove. intros (H1 & H2 & H3 & H4).
  destruct (negb (isDrawing s) && negb (isResizing s))%bool; [tauto|].
  destruct (getEventCoordinates s e) as [rx ry].
  destruct (isDrawing s) eqn:Hd; [destruct (currentBox s) eqn:Hc|].
  - simpl. repeat split; try tauto; intros; try reflexivity;
      discriminate.
  - destruct (isResizing s) eqn:Hr; [destruct (activeBoxId s) eqn:Ha|];
      simpl; rewrite ?Hd, ?Hc, ?Hr, ?Ha; tauto.
  - destruct (isResizing s) eqn:Hr; [destruct (activeBoxId s) eqn:Ha|];
      simpl; rewrite ?Hd, ?Hr, ?Ha; tauto.
Qed.

Lemma handleMouseUp_consistent (now : Z) (s : Viewer num) :
  consistent s -> consistent (handleMouseUp now s).
Proof.
  unfold consistent, handleMouseUp. intros (H1 & H2 & H3 & H4).
  destruct (isDrawing s) eqn:Hd; [destruct (currentBox s) eqn:Hc|]; simpl;
    rewrite ?Hd, ?Hc; repeat split; try tauto; intros H;
    try discriminate H; try (now contradiction H).
Qed.

Lemma handleBoxClick_consistent (e : MouseEvent num) (boxId : string)
    (u : ViewerUI num) :
  consistent u.(core) -> consistent (handleBoxClick e boxId u).(core).
Proof.
  unfold consistent, handleBoxClick. intros (H1 & H2 & H3 & H4).
  destruct (isSelected (core u) boxId).
  - simpl. tauto.
  - destruct (containerRef u) as [[l t]|]; simpl;
      repeat split; try tauto; apply andb_false_r.
Qed.

Lemma dispatch_consistent (u : ViewerUI num) (ev : Event) :
  consistent u.(core) -> consistent (dispatch u ev).(core).
Proof.
  intros Hu. destruct ev; simpl.
  - now apply handleMouseDown_consistent.
  - now apply handleMouseMove_consistent.
  - now apply handleMouseUp_consistent.
  - now apply handleBoxClick_consistent.
  - destruct Hu as (H1 & H2 & H3 & H4). unfold consistent. simpl.
    repeat split; try tauto; intros; try reflexivity; discriminate.
  - destruct (truthy_string (selectedBoxId (core u))); [|exact Hu].
    destruct Hu as (H1 & H2 & H3 & H4). unfold consistent. simpl. tauto.
  - exact Hu.
  - destruct (truthy_string (selectedBoxId (core u))) eqn:E; [|exact Hu].
    destruct Hu as (H1 & H2 & H3 & H4). unfold consistent. simpl. tauto.
  - destruct (truthy_string (selectedBoxId (core u))); exact Hu.
  - destruct (selectedBoxId (core u)) as [i|] eqn:E; [|exact Hu].
    destruct (truthy_string (Some i) && isCategoryMenuOpen (core u))%bool;
      [|exact Hu].
    destruct Hu as (H1 & H2 & H3 & H4). unfold consistent. simpl. tauto.
  - exact Hu.
  - exact Hu.
  - simpl. unfold effect_imgRef.
    destruct (imgRef (core u)) as [img|]; [|exact Hu].
    destruct (complete img); exact Hu.
  - unfold effect_scale.
    destruct (imgRef (core u)) as [img|]; [|exact Hu].
    destruct (negb (imageLoaded (core u))); exact Hu.
  - exact Hu.
  - exact Hu.
Qed.

(** X6. In every state a mounted viewer can reach - by any sequence of
    pointer events, box clicks, menu actions, delete timers, effects and
    new props - the viewer is drawing exactly when it holds a provisional
    box, it is resizing exactly when it holds an active box id and exactly
    when it holds a resize corner, and no box is selected while another
    (or the same) is being edited. *)
Theorem reachable_consistent (events : list Event)
    (img : option (Image num)) (flt : string) (boxes : list (Box num))
    (meta : option Metadata) (container : option (num * num)) :
  consistent (run events (mountUI img flt boxes meta container)).(core).
Proof.
  unfold run.
  assert (H : forall u, consistent u.(core) ->
                consistent (fold_left dispatch events u).(core)).
  { induction events as [|ev events IH]; intros u Hu; simpl; [exact Hu|].
    apply IH. now apply dispatch_consistent. }
  apply H. apply mount_consistent.
Qed.

End Invariants.

(* ================================================================== *)
(** ** Selecting a box *)

Section BoxClick.
Context {num : Type} `{NumOps : Number num}.

(** X7. A click on a box toggles its selection: it is selected afterwards
    exactly when it was not before, also when another box was selected.
    The click ends the edit mode, leaves the store, the drawing and the
    resizing state as they are, and when it selects the box and the
    container is mounted the menu is placed at the pointer position
    relative to the container's origin. *)
Theorem handleBoxClick_toggles (e : MouseEvent num) (boxId : string)
    (u : ViewerUI num) :
  let u' := handleBoxClick e boxId u in
  isSelected u'.(core) boxId = negb (isSelected u.(core) boxId)
  /\ u'.(core).(selectedBoxId)
     = (if isSelected u.(core) boxId then None else Some boxId)
  /\ u'.(core).(editingBoxId) = None
  /\ u'.(core).(allBoxes) = u.(core).(allBoxes)
  /\ u'.(core).(isDrawing) = u.(core).(isDrawing)
  /\ u'.(core).(currentBox) = u.(core).(currentBox)
  /\ u'.(core).(isResizing) = u.(core).(isResizing)
  /\ u'.(core).(activeBoxId) = u.(core).(activeBoxId)
  /\ u'.(menuPosition)
     = (match u.(containerRef) with
        | Some (boundsLeft, boundsTop) =>
            if isSelected u.(core) boxId then u.(menuPosition)
            else (num_sub e.(clientX) boundsLeft,
                  num_sub e.(clientY) boundsTop)
        | None => u.(menuPosition)
        end).
Proof.
  intros u'. subst u'. unfold handleBoxClick.
  destruct (isSelected (core u) boxId) eqn:E.
  - simpl. repeat split. now destruct (containerRef u) as [[l t]|].
  - destruct (containerRef u) as [[l t]|]; simpl;
      unfold isSelected; simpl; rewrite String.eqb_refl; repeat split.
Qed.

(** X8. Changing the category of a box rewrites [category_id] of the boxes
    with that id and nothing else: every box keeps its id, geometry, file
    name, origin and removal mark, boxes with another id keep their
    category, and the store keeps its length and order; the selection and
    the category menu are closed. *)
Theorem handleChangeCategory_frame (boxId : string) (newCategoryId : Z)
    (s : Viewer num) :
  Forall2
    (fun b b' : Box num =>
       b'.(id) = b.(id) /\ b'.(x) = b.(x) /\ b'.(y) = b.(y)
       /\ b'.(width) = b.(width) /\ b'.(height) = b.(height)
       /\ b'.(file_name) = b.(file_name)
       /\ b'.(isBackend) = b.(isBackend) /\ b'.(fadeOut) = b.(fadeOut)
       /\ b'.(category_id)
          = (if String.eqb b.(id) boxId then Some (JInt newCategoryId)
             else b.(category_id)))
    s.(allBoxes) (allBoxes (handleChangeCategory boxId newCategoryId s))
  /\ selectedBoxId (handleChangeCategory boxId newCategoryId s) = None
  /\ isCategoryMenuOpen (handleChangeCategory boxId newCategoryId s) = false.
Proof.
  split; [|split; reflexivity].
  unfold handleChangeCategory. simpl. apply Forall2_map_r. intros b.
  destruct (String.eqb (id b) boxId); repeat split.
Qed.

(** X9. A pointer-move never adds, removes or reorders boxes and never
    changes the id, category, file name, origin or removal mark of a box,
    in whatever state the viewer is; boxes whose id is not the active id
    are not changed at all.  It also leaves the selection alone. *)
Theorem handleMouseMove_frame (s : Viewer num) (e : MouseEvent num) :
  Forall2
    (fun b b' : Box num =>
       b'.(id) = b.(id) /\ b'.(category_id) = b.(category_id)
       /\ b'.(file_name) = b.(file_name)
       /\ b'.(isBackend) = b.(isBackend) /\ b'.(fadeOut) = b.(fadeOut)
       /\ (s.(activeBoxId) <> Some b.(id) -> b' = b))
    s.(allBoxes) (allBoxes (handleMouseMove s e))
  /\ selectedBoxId (handleMouseMove s e) = s.(selectedBoxId)
  /\ editingBoxId (handleMouseMove s e) = s.(editingBoxId).
Proof.
  assert (Hsame : forall l : list (Box num),
            Forall2
              (fun b b' : Box num =>
                 b'.(id) = b.(id) /\ b'.(category_id) = b.(category_id)
                 /\ b'.(file_name) = b.(file_name)
                 /\ b'.(isBackend) = b.(isBackend)
                 /\ b'.(fadeOut) = b.(fadeOut)
                 /\ (s.(activeBoxId) <> Some b.(id) -> b' = b)) l l).
  { intros l. rewrite <- (map_id l) at 2. apply Forall2_map_r.
    intros b. repeat split. }
  unfold handleMouseMove.
  destruct (negb (isDrawing s) && negb (isResizing s))%bool;
    [split; [apply Hsame | split; reflexivity]|].
  destruct (getEventCoordinates s e) as [rx ry].
  destruct (isDrawing s); [destruct (currentBox s)|];
    try (split; [apply Hsame | split; reflexivity]);
    (destruct (isResizing s); [destruct (activeBoxId s) as [a|] eqn:Ha|];
     try (split; [apply Hsame | split; reflexivity]));
    (split; [|split; reflexivity]); simpl; apply Forall2_map_r; intros b;
    unfold resizeBox; destruct (String.eqb (id b) a) eqn:E;
    repeat split; intros Hne; exfalso; apply Hne;
    apply String.eqb_eq in E; now subst a.
Qed.

End BoxClick.

(* ================================================================== *)
(** ** The two phases of a deletion *)

Section DeletionPhases.
Context {num : Type} `{NumOps : Number num}.

(** X10. Whatever the store holds, the delete action followed by its timer
    keeps exactly the boxes that are neither marked for removal nor carry
    the selected id, unchanged and in their order.  In particular an id
    that no box carries removes nothing from a store without marked
    boxes. *)
Theorem deleteSelected_selects (s : Viewer num) :
  Selects
    (fun b => b.(fadeOut) = false /\ id_is s.(selectedBoxId) b = false)
    s.(allBoxes) (allBoxes (deleteSelected s))
  /\ ((forall b, In b s.(allBoxes) ->
         b.(fadeOut) = false /\ id_is s.(selectedBoxId) b = false) ->
      allBoxes (deleteSelected s) = s.(allBoxes)).
Proof.
  rewrite allBoxes_deleteSelected. split.
  - induction s.(allBoxes) as [|b l IH]; simpl; [constructor|].
    destruct (id_is (selectedBoxId s) b) eqn:Hid; simpl.
    + apply Selects_drop; [|exact IH]. intros [_ H]. congruence.
    + destruct (fadeOut b) eqn:Hf; simpl.
      * apply Selects_drop; [|exact IH]. intros [H _]. congruence.
      * apply Selects_keep; [now split | exact IH].
  - induction s.(allBoxes) as [|b l IH]; intros Hl; simpl; [reflexivity|].
    destruct (Hl b (or_introl eq_refl)) as [Hf Hid].
    rewrite Hid, Hf. simpl. f_equal. apply IH.
    intros c Hc. apply Hl. now right.
Qed.

Lemma filter_idempotent {A : Type} (p : A -> bool) (l : list A) :
  List.filter p (List.filter p l) = List.filter p l.
Proof.
  induction l as [|a l IH]; simpl; [reflexivity|].
  destruct (p a) eqn:E; simpl; rewrite ?E, IH; reflexivity.
Qed.

(** X11. The delete click removes nothing: the store keeps its length and
    order, every box its id, geometry, category and file name, so the
    category filter shows the same boxes while they fade; exactly the
    boxes with the selected id become marked, and the selection is
    cleared.  The timer leaves no marked box, keeps every unmarked box, and
    changes nothing when it runs a second time. *)
Theorem delete_phases (s : Viewer num) :
  Forall2
    (fun b b' : Box num =>
       b'.(id) = b.(id) /\ b'.(x) = b.(x) /\ b'.(y) = b.(y)
       /\ b'.(width) = b.(width) /\ b'.(height) = b.(height)
       /\ b'.(category_id) = b.(category_id)
       /\ b'.(file_name) = b.(file_name)
       /\ b'.(fadeOut) = (id_is s.(selectedBoxId) b || b.(fadeOut))%bool)
    s.(allBoxes) (allBoxes (deleteOnClick s))
  /\ boxIds (deriveVisible s.(filterCategory) (allBoxes (deleteOnClick s)))
     = boxIds (deriveVisible s.(filterCategory) s.(allBoxes))
  /\ selectedBoxId (deleteOnClick s) = None
  /\ Selects (fun b => b.(fadeOut) = false) s.(allBoxes)
       (allBoxes (deleteTimeout s))
  /\ deleteTimeout (deleteTimeout s) = deleteTimeout s.
Proof.
  split; [|split; [|split; [reflexivity|split]]].
  - unfold deleteOnClick. simpl. apply Forall2_map_r. intros b.
    destruct (id_is (selectedBoxId s) b); repeat split.
  - unfold deleteOnClick, deriveVisible. simpl.
    destruct (String.eqb (filterCategory s) "all").
    + unfold boxIds. rewrite map_map. apply map_ext. intros b.
      now destruct (id_is (selectedBoxId s) b).
    + induction s.(allBoxes) as [|b l IH]; simpl; [reflexivity|].
      assert (E : category_id
                    (if id_is (selectedBoxId s) b then markFadeOut b else b)
                  = category_id b)
        by now destruct (id_is (selectedBoxId s) b).
      rewrite E.
      destruct (category_eq (category_id b) (parseInt (filterCategory s)));
        simpl; rewrite IH; [|reflexivity].
      f_equal. now destruct (id_is (selectedBoxId s) b).
  - unfold deleteTimeout. simpl. apply Selects_filter. intros b.
    now destruct (fadeOut b).
  - unfold deleteTimeout, setAllBoxes. simpl.
    now rewrite filter_idempotent.
Qed.

End DeletionPhases.

(* ================================================================== *)
(** ** The minimum size of a resized box in binary64 *)

(** X12. In binary64, after a pointer-move while resizing, every box with
    the active id has a width and a height of at least 1, unless the
    computed width or height is [NaN]. *)
Theorem resize_floor_binary64 (s : Viewer float) (e : MouseEvent float)
    (a : string) :
  s.(isDrawing) = false -> s.(isResizing) = true ->
  s.(activeBoxId) = Some a ->
  Forall
    (fun b' : Box float =>
       b'.(id) = a ->
       (PrimFloat.is_nan b'.(width) = false ->
        PrimFloat.leb 1 b'.(width) = true)
       /\ (PrimFloat.is_nan b'.(height) = false ->
           PrimFloat.leb 1 b'.(height) = true))
    (allBoxes (handleMouseMove s e)).
Proof.
  intros Hd Hr Ha. rewrite (handleMouseMove_resizing s e Hd Hr Ha).
  apply Forall_forall. intros b' Hin Hid.
  apply in_map_iff in Hin as (b & <- & _).
  unfold resizeBox in *.
  destruct (String.eqb (id b) a) eqn:E.
  - simpl. split; apply float_max_floor_result.
  - apply String.eqb_neq in E. contradiction.
Qed.

Lemma resize_floor_binary64_witness :
  let s := handleResizeMouseDown "b1" "top-left" Run.viewer1 in
  let e := Run.event 89 10 in
  s.(isDrawing) = false /\ s.(isResizing) = true
  /\ s.(activeBoxId) = Some "b1"
  /\ Forall
       (fun b' : Box float =>
          b'.(id) = "b1" ->
          (PrimFloat.is_nan b'.(width) = false ->
           PrimFloat.leb 1 b'.(width) = true)
          /\ (PrimFloat.is_nan b'.(height) = false ->
              PrimFloat.leb 1 b'.(height) = true))
       (allBoxes (handleMouseMove s e)).
Proof.
  intros s e.
  split; [reflexivity|]. split; [reflexivity|]. split; [reflexivity|].
  exact (resize_floor_binary64 s e (a := "b1") eq_refl eq_refl eq_refl).
Defined.

Lemma deleteSelected_selects_witness :
  let s := setSelectedBoxId (Some "b9")
             (mount (Some Run.square) "all" [Run.box1; Run.box2] None) in
  Selects
    (fun b => b.(fadeOut) = false /\ id_is s.(selectedBoxId) b = false)
    s.(allBoxes) (allBoxes (deleteSelected s))
  /\ (forall b, In b s.(allBoxes) ->
        b.(fadeOut) = false /\ id_is s.(selectedBoxId) b = false)
  /\ allBoxes (deleteSelected s) = s.(allBoxes).
Proof.
  intros s.
  assert (Hall : forall b, In b s.(allBoxes) ->
            b.(fadeOut) = false /\ id_is s.(selectedBoxId) b = false).
  { intros b [<-|[<-|[]]]; split; reflexivity. }
  split; [exact (proj1 (deleteSelected_selects s))|].
  split; [exact Hall|].
  exact (proj2 (deleteSelected_selects s) Hall).
Defined.

(* ================================================================== *)
(** ** When ids are unique *)

Lemma toString_inj (a b : Z) : toString a = toString b -> a = b.
Proof.
  intros H. apply (f_equal parseInt) in H.
  rewrite !parseInt_toString in H. now injection H.
Qed.

Lemma append_inj_l (p a b : string) :
  (p ++ a = p ++ b)%string -> a = b.
Proof.
  induction p as [|c p IH]; simpl; intros H; [exact H|].
  injection H as H. now apply IH.
Qed.

Lemma occurs_app (c : ascii) (a b : string) :
  occurs c (a ++ b)%string = (occurs c a || occurs c b)%bool.
Proof.
  induction a as [|c' a IH]; simpl; [reflexivity|].
  now rewrite IH, orb_assoc.
Qed.

Lemma occurs_here (c : ascii) (a b : string) :
  occurs c (a ++ String c b)%string = true.
Proof.
  rewrite occurs_app. simpl. rewrite Ascii.eqb_refl.
  now rewrite orb_true_r.
Qed.

(** A string is cut in one way only at the last occurrence of [c]. *)
Lemma cut_at_last (c : ascii) (a : string) :
  forall b d1 d2 : string,
    (a ++ String c d1 = b ++ String c d2)%string ->
    occurs c d1 = false -> occurs c d2 = false ->
    a = b /\ d1 = d2.
Proof.
  induction a as [|x a IH]; intros [|y b] d1 d2 H H1 H2; simpl in H.
  - injection H as H. now split.
  - injection H as _ H. rewrite H, (occurs_here c b d2) in H1.
    discriminate H1.
  - injection H as _ H. rewrite <- H, (occurs_here c a d1) in H2.
    discriminate H2.
  - injection H as Hx H. destruct (IH b d1 d2 H H1 H2) as [-> ->].
    now subst.
Qed.

Lemma string_of_uint_no_minus (d : uint) :
  occurs "-"%char (NilEmpty.string_of_uint d) = false.
Proof.
  induction d; simpl; try exact IHd; reflexivity.
Qed.

(** The decimal numeral of a number that is not negative has no sign. *)
Lemma toString_no_minus (n : Z) :
  (0 <= n)%Z -> occurs "-"%char (toString n) = false.
Proof.
  intros Hn. unfold toString. destruct n as [|p|p]; simpl Z.to_int.
  - reflexivity.
  - cbn [NilZero.string_of_int].
    rewrite NilZero_string_of_uint_nonnil by apply Unsigned.to_uint_nonnil.
    apply string_of_uint_no_minus.
  - exfalso. now apply Hn.
Qed.

(** A numeral starts with a digit or with the sign. *)
Lemma toString_head (n : Z) :
  exists c r, toString n = String c r /\ c <> "p"%char.
Proof.
  unfold toString. destruct n as [|p|p]; simpl Z.to_int.
  - exists "0"%char, EmptyString. split; [reflexivity | discriminate].
  - cbn [NilZero.string_of_int].
    rewrite NilZero_string_of_uint_nonnil by apply Unsigned.to_uint_nonnil.
    pose proof (Unsigned.to_uint_nonnil p) as Hd.
    destruct (Pos.to_uint p); try contradiction; simpl;
      eexists; eexists; (split; [reflexivity | discriminate]).
  - cbn [NilZero.string_of_int].
    eexists; eexists; (split; [reflexivity | discriminate]).
Qed.

Section PredictionIds.
Context {num : Type} `{NumOps : Number num}.

Lemma pred_id_inj (z z' : Z) :
  ("pred-" ++ toString z = "pred-" ++ toString z')%string -> z = z'.
Proof.
  intros H. apply append_inj_l in H. now apply toString_inj.
Qed.

Lemma pred_id_not_fallback (z n : Z) (i : nat) :
  ("pred-" ++ toString z)%string
  <> (toString n ++ "-" ++ toString (Z.of_nat i))%string.
Proof.
  destruct (toString_head n) as (c & r & E & Hc).
  rewrite E. simpl. intros H. injection H as H _. now apply Hc.
Qed.

Lemma fallback_inj (n n' : Z) (i i' : nat) :
  (toString n ++ "-" ++ toString (Z.of_nat i)
   = toString n' ++ "-" ++ toString (Z.of_nat i'))%string ->
  i = i'.
Proof.
  intros H. simpl in H.
  apply cut_at_last in H as [_ H];
    try (apply toString_no_minus, Nat2Z.is_nonneg).
  apply toString_inj in H. now apply Nat2Z.inj.
Qed.

Lemma processPrediction_id (now : Z) (idx : nat) (pred : Prediction num) :
  (processPrediction now idx pred).(id)
  = match pred.(image_id) with
    | Some z => if Z.eqb z 0
                then (toString now ++ "-" ++ toString (Z.of_nat idx))%string
                else ("pred-" ++ toString z)%string
    | None => (toString now ++ "-" ++ toString (Z.of_nat idx))%string
    end.
Proof.
  unfold processPrediction. simpl.
  destruct (image_id pred) as [z|]; simpl; [|reflexivity].
  now destruct (Z.eqb z 0).
Qed.

Lemma mapWithIndex_ids_shape (clock : nat -> Z)
    (preds : list (Prediction num)) :
  forall (idx : nat) (i : string),
    In i (boxIds (mapWithIndex clock idx preds)) ->
    (exists z, In z (truthyImageIds preds)
               /\ i = ("pred-" ++ toString z)%string)
    \/ (exists j, (idx <= j)%nat
                  /\ i = (toString (clock j) ++ "-"
                          ++ toString (Z.of_nat j))%string).
Proof.
  unfold boxIds.
  induction preds as [|pred preds IH]; intros idx i Hin; [contradiction|].
  cbn [mapWithIndex map In] in Hin. destruct Hin as [Hi | Hin].
  - rewrite processPrediction_id in Hi. unfold truthyImageIds. simpl.
    destruct (image_id pred) as [z|]; [destruct (Z.eqb z 0)|].
    + right. exists idx. split; [lia | now symmetry].
    + left. exists z. split; [now left | now symmetry].
    + right. exists idx. split; [lia | now symmetry].
  - destruct (IH (S idx) i Hin) as [(z & Hz & E) | (j & Hj & E)].
    + left. exists z. split; [|exact E].
      unfold truthyImageIds. simpl. apply in_or_app. now right.
    + right. exists j. split; [lia | exact E].
Qed.

Lemma mapWithIndex_pred_id_in (clock : nat -> Z)
    (preds : list (Prediction num)) :
  forall (idx : nat) (z : Z),
    In z (truthyImageIds preds) ->
    In ("pred-" ++ toString z)%string
      (boxIds (mapWithIndex clock idx preds)).
Proof.
  unfold boxIds.
  induction preds as [|pred preds IH]; intros idx z Hin; [contradiction|].
  unfold truthyImageIds in Hin. simpl in Hin.
  apply in_app_or in Hin as [Hin | Hin].
  - cbn [mapWithIndex map In]. left. rewrite processPrediction_id.
    destruct (image_id pred) as [z'|]; [|contradiction].
    destruct (Z.eqb z' 0); [contradiction|].
    destruct Hin as [->|[]]. reflexivity.
  - cbn [mapWithIndex map In]. right. now apply IH.
Qed.

Lemma mapWithIndex_ids_NoDup (clock : nat -> Z)
    (preds : list (Prediction num)) :
  forall idx : nat,
    NoDup (boxIds (mapWithIndex clock idx preds))
    <-> NoDup (truthyImageIds preds).
Proof.
  induction preds as [|pred preds IH]; intros idx.
  - simpl. split; intros _; constructor.
  - unfold boxIds in *. cbn [mapWithIndex map].
    rewrite processPrediction_id.
    unfold truthyImageIds. cbn [flat_map]. fold (truthyImageIds preds).
    assert (Hfallback :
      ~ In (toString (clock idx) ++ "-" ++ toString (Z.of_nat idx))%string
          (boxIds (mapWithIndex clock (S idx) preds))).
    { intros Hin.
      destruct (mapWithIndex_ids_shape clock preds (S idx) _ Hin)
        as [(z & _ & E) | (j & Hj & E)].
      - symmetry in E. now apply pred_id_not_fallback in E.
      - apply fallback_inj in E. lia. }
    destruct (image_id pred) as [z|]; [destruct (Z.eqb z 0)|]; simpl.
    + rewrite <- (IH (S idx)). split.
      * intros H. now inversion H.
      * intros H. now constructor.
    + split; intros H; inversion H as [|? ? Hnotin Hrest]; subst;
        constructor.
      * intros Hz. apply Hnotin.
        now apply mapWithIndex_pred_id_in.
      * now apply (IH (S idx)).
      * intros Hin.
        destruct (mapWithIndex_ids_shape clock preds (S idx) _ Hin)
          as [(z' & Hz' & E) | (j & _ & E)].
        -- apply pred_id_inj in E. now subst z'.
        -- now apply pred_id_not_fallback in E.
      * now apply (IH (S idx)).
    + rewrite <- (IH (S idx)). split.
      * intros H. now inversion H.
      * intros H. now constructor.
Qed.

Lemma mapWithIndex_length (clock : nat -> Z)
    (preds : list (Prediction num)) :
  forall idx : nat,
    List.length (mapWithIndex clock idx preds) = List.length preds.
Proof.
  induction preds as [|pred preds IH]; intros idx; simpl;
    [reflexivity | now rewrite IH].
Qed.

(** X13. The boxes made from one response are as many as its
    predictions, and their ids are pairwise distinct exactly when the
    truthy [image_id]s of the response are: predictions without a truthy
    [image_id] always get ids of their own, whatever the clock reads. *)
Theorem processedPredictions_ids (clock : nat -> Z)
    (preds : list (Prediction num)) :
  List.length (processedPredictions clock preds) = List.length preds
  /\ (NoDup (boxIds (processedPredictions clock preds))
      <-> NoDup (truthyImageIds preds)).
Proof.
  split; [apply mapWithIndex_length | apply mapWithIndex_ids_NoDup].
Qed.

End PredictionIds.

Section DrawnIds.
Context {num : Type} `{NumOps : Number num}.

Lemma gesture_keeps_selection (now : Z) (s : Viewer num)
    (e : MouseEvent num) (moves : list (MouseEvent num)) :
  truthy_string s.(selectedBoxId) = false ->
  truthy_string s.(editingBoxId) = false ->
  selectedBoxId (gesture now e moves s) = s.(selectedBoxId)
  /\ editingBoxId (gesture now e moves s) = s.(editingBoxId).
Proof.
  intros Hsel Hed. rewrite (gesture_commits now s e moves Hsel Hed).
  split; reflexivity.
Qed.

Lemma NoDup_map_injective {A B : Type} (g : A -> B) (l : list A) :
  (forall a b, g a = g b -> a = b) -> NoDup l -> NoDup (map g l).
Proof.
  intros Hg Hl. induction Hl as [|a l Hnotin Hl IH]; simpl; constructor.
  - intros Hin. apply in_map_iff in Hin as (b & E & Hb).
    apply Hg in E. now subst b.
  - exact IH.
Qed.

Lemma drawAll_ids (drags : list (Drag num)) :
  forall s : Viewer num,
    truthy_string s.(selectedBoxId) = false ->
    truthy_string s.(editingBoxId) = false ->
    boxIds (allBoxes (drawAll drags s))
    = boxIds s.(allBoxes) ++ map (fun g => toString g.(drag_now)) drags.
Proof.
  induction drags as [|g drags IH]; intros s Hsel Hed; simpl.
  - now rewrite app_nil_r.
  - destruct (gesture_keeps_selection g.(drag_now) s g.(drag_down)
                g.(drag_moves) Hsel Hed) as [Es Ee].
    unfold drawAll in *. simpl. rewrite IH by (rewrite ?Es, ?Ee; assumption).
    rewrite (gesture_commits _ s _ _ Hsel Hed). simpl.
    unfold boxIds. rewrite map_app, <- app_assoc. reflexivity.
Qed.

Lemma prediction_ids_have_minus (clock : nat -> Z)
    (preds : list (Prediction num)) (i : string) :
  In i (boxIds (processedPredictions clock preds)) ->
  occurs "-"%char i = true.
Proof.
  intros Hin.
  destruct (mapWithIndex_ids_shape clock preds 0 i Hin)
    as [(z & _ & ->) | (j & _ & ->)].
  - reflexivity.
  - apply occurs_here.
Qed.

(** X14. When the truthy [image_id]s of a response are pairwise
    distinct, the ids stay pairwise distinct however many boxes are drawn
    on top of its boxes, provided each drawing gesture ends at a clock
    reading of its own that is not negative: a drawn box never takes the id
    of a backend box. *)
Theorem drawn_ids_unique (clock : nat -> Z) (preds : list (Prediction num))
    (drags : list (Drag num)) (img : option (Image num)) (flt : string)
    (meta : option Metadata) :
  NoDup (truthyImageIds preds) ->
  NoDup (map (@drag_now num) drags) ->
  (forall g, In g drags -> (0 <= g.(drag_now))%Z) ->
  NoDup
    (boxIds
       (allBoxes
          (drawAll drags
             (mount img flt (processedPredictions clock preds) meta)))).
Proof.
  intros Hpreds Hnows Hpos.
  rewrite drawAll_ids by reflexivity. simpl.
  apply NoDup_app.
  - now apply mapWithIndex_ids_NoDup.
  - rewrite <- (map_map (@drag_now num) toString).
    apply NoDup_map_injective; [|exact Hnows].
    intros a b. apply toString_inj.
  - intros i Hi Hin.
    apply prediction_ids_have_minus in Hi.
    apply in_map_iff in Hin as (g & <- & Hg).
    rewrite toString_no_minus in Hi by now apply Hpos.
    discriminate Hi.
Qed.

End DrawnIds.

Lemma drawn_ids_unique_witness :
  let preds :=
    [mkPrediction (Some 7%Z) (Some (JInt 6)) (Run.f 10) (Run.f 10)
       (Run.f 110) (Run.f 60) "page.png";
     mkPrediction None (Some (JInt 0)) (Run.f 200) (Run.f 300)
       (Run.f 400) (Run.f 500) "page.png";
     mkPrediction (Some 0%Z) (Some (JInt 0)) (Run.f 20) (Run.f 30)
       (Run.f 40) (Run.f 50) "page.png"] in
  let drags :=
    [mkDrag 1700000000000 (Run.event 140 170) [Run.event 150 180];
     mkDrag 1700000000900 (Run.event 10 10) []] in
  NoDup (truthyImageIds preds)
  /\ NoDup (map (@drag_now float) drags)
  /\ (forall g, In g drags -> (0 <= g.(drag_now))%Z)
  /\ NoDup
       (boxIds
          (allBoxes
             (drawAll drags
                (mount (Some Run.page) "all"
                   (processedPredictions (fun _ => 1699999999000%Z) preds)
                   None)))).
Proof.
  intros preds drags.
  assert (H1 : NoDup (truthyImageIds preds)).
  { simpl. constructor; [intros [] | constructor]. }
  assert (H2 : NoDup (map (@drag_now float) drags)).
  { simpl. constructor; [intros [H|[]]; discriminate H|].
    constructor; [intros [] | constructor]. }
  assert (H3 : forall g, In g drags -> (0 <= g.(drag_now))%Z).
  { intros g [<-|[<-|[]]]; simpl; lia. }
  split; [exact H1|]. split; [exact H2|]. split; [exact H3|].
  exact (drawn_ids_unique (fun _ => 1699999999000%Z) preds drags
           (Some Run.page) "all" None H1 H2 H3).
Defined.

(* ================================================================== *)
(** * Properties of the application *)

(** ** Pages *)

Section Pages.
Context {num : Type} `{NumOps : Number num}.

Lemma truthy_string_Some (i : string) :
  i <> "" -> truthy_string (Some i) = true.
Proof.
  destruct i; [contradiction | reflexivity].
Qed.

Lemma effect_history_pages (a : App num) (i : string) :
  a.(currentImageId) = Some i -> i <> "" ->
  imageHistory (effect_history a)
  = map (fun img => if String.eqb img.(page_id) i
                    then withPredictions a.(app_allBoxes) img else img)
      a.(imageHistory).
Proof.
  intros Hcur Hi. unfold effect_history.
  rewrite Hcur, (truthy_string_Some Hi). reflexivity.
Qed.

(** After the effect, every history entry of the current page holds the
    store, and the entries of other pages are as they were. *)
Lemma effect_history_entry (a : App num) (i : string) (p : Page num) :
  a.(currentImageId) = Some i -> i <> "" ->
  In p (imageHistory (effect_history a)) ->
  (p.(page_id) = i -> p.(predictions) = a.(app_allBoxes))
  /\ (p.(page_id) <> i -> In p a.(imageHistory)).
Proof.
  intros Hcur Hi Hin. rewrite (effect_history_pages a Hcur Hi) in Hin.
  apply in_map_iff in Hin as (q & <- & Hq).
  destruct (String.eqb (page_id q) i) eqn:E.
  - split; [reflexivity|]. simpl. intros Hne.
    apply String.eqb_eq in E. contradiction.
  - split; [|now intros _]. intros Hid.
    apply String.eqb_neq in E. contradiction.
Qed.

Lemma switchPage_other (p : Page num) (a : App num) (i : string) :
  a.(currentImageId) = Some i -> p.(page_id) <> i ->
  switchPage p a
  = thumbnailTimeout p a.(imageHistory) (setTransitioning true a).
Proof.
  intros Hcur Hne. unfold switchPage, handleThumbnailClick.
  rewrite Hcur. simpl. apply String.eqb_neq in Hne. now rewrite Hne.
Qed.

(** X15. Nothing drawn on a page is lost by leaving it: once the history
    effect has run, switching to another page, letting the effect run
    there, and switching back by a click on the first page's thumbnail
    restores the store the first page had, and makes it the current page
    again. *)
Theorem switch_away_and_back (a : App num) (i : string)
    (pB pA : Page num) :
  a.(currentImageId) = Some i -> i <> "" ->
  pB.(page_id) <> i -> pB.(page_id) <> "" ->
  In pA (imageHistory
           (effect_history (switchPage pB (effect_history a)))) ->
  pA.(page_id) = i ->
  app_allBoxes
    (switchPage pA (effect_history (switchPage pB (effect_history a))))
  = a.(app_allBoxes)
  /\ currentImageId
       (switchPage pA (effect_history (switchPage pB (effect_history a))))
     = Some i.
Proof.
  intros Hcur Hi HB HBne HinA HA.
  set (a1 := effect_history a) in *.
  assert (Hcur1 : a1.(currentImageId) = Some i).
  { unfold a1, effect_history. rewrite Hcur, (truthy_string_Some Hi).
    exact Hcur. }
  set (a2 := switchPage pB a1) in *.
  assert (E2 : a2 = thumbnailTimeout pB a1.(imageHistory)
                      (setTransitioning true a1))
    by (apply (switchPage_other pB a1 Hcur1 HB)).
  assert (Hcur2 : a2.(currentImageId) = Some pB.(page_id))
    by (rewrite E2; reflexivity).
  assert (Hhist2 : a2.(imageHistory) = a1.(imageHistory))
    by (rewrite E2; reflexivity).
  set (a3 := effect_history a2) in *.
  assert (Hcur3 : a3.(currentImageId) = Some pB.(page_id)).
  { unfold a3, effect_history.
    rewrite Hcur2, (truthy_string_Some HBne). exact Hcur2. }
  assert (Hsynced : forall t, In t a3.(imageHistory) -> t.(page_id) = i ->
                      t.(predictions) = a.(app_allBoxes)).
  { intros t Ht Hid.
    destruct (effect_history_entry a2 t Hcur2 HBne Ht) as [_ Hold].
    assert (Hne : t.(page_id) <> pB.(page_id)) by (rewrite Hid; auto).
    specialize (Hold Hne). rewrite Hhist2 in Hold.
    now apply (effect_history_entry a t Hcur Hi Hold). }
  assert (HAB : pA.(page_id) <> pB.(page_id)) by (rewrite HA; auto).
  rewrite (switchPage_other pA a3 Hcur3 HAB).
  unfold thumbnailTimeout. simpl. rewrite HA. split; [|reflexivity].
  destruct (find (fun img => String.eqb (page_id img) i) (imageHistory a3))
    as [t|] eqn:Ef.
  - apply find_some in Ef as [Ht Hid]. apply String.eqb_eq in Hid.
    now apply Hsynced.
  - exfalso. apply (find_none _ _ Ef) in HinA.
    rewrite HA, String.eqb_refl in HinA. discriminate HinA.
Qed.

End Pages.

(* ================================================================== *)
(** ** Export *)

Section ExportProperties.
Context {num : Type} `{NumOps : Number num}.

Lemma Forall2_map_both {A B C : Type} (R : B -> C -> Prop)
    (g : A -> B) (h : A -> C) (l : list A) :
  (forall a, R (g a) (h a)) -> Forall2 R (map g l) (map h l).
Proof.
  intros HR. induction l; simpl; constructor; auto.
Qed.

Lemma Forall2_map_right {A B : Type} (R : A -> B -> Prop) (h : A -> B)
    (l : list A) :
  (forall a, R a (h a)) -> Forall2 R l (map h l).
Proof.
  intros HR. induction l; simpl; constructor; auto.
Qed.

(** X16. [saveAnnotations] downloads a file exactly when the store is not
    empty and the page has metadata.  Otherwise it only reports an error
    ("No bounding boxes to save." when the store is empty, else "No
    metadata for page.") and changes nothing else.  The file holds one
    annotation per box, in the order of the store, with the box's id,
    category, file name, size and corners; the history entries of the
    current page become saved, the entries of other pages, and in every
    case the store, stay as they are. *)
Theorem saveAnnotations_cases (a : App num) :
  (snd (saveAnnotations a) <> None
   <-> a.(app_allBoxes) <> [] /\ a.(app_metadata) <> None)
  /\ (a.(app_allBoxes) = [] ->
      saveAnnotations a
      = (setFeedbackMessage
           (Some (mkFeedback FeedbackError "No bounding boxes to save."))
           a, None))
  /\ (a.(app_allBoxes) <> [] -> a.(app_metadata) = None ->
      saveAnnotations a
      = (setFeedbackMessage
           (Some (mkFeedback FeedbackError "No metadata for page.")) a,
         None))
  /\ (forall anns, snd (saveAnnotations a) = Some anns ->
        Forall2
          (fun (b : Box num) (ann : Annotation num) =>
             ann.(ann_image_id) = ImageIdOfBox b.(id)
             /\ ann.(ann_category_id) = b.(category_id)
             /\ ann.(ann_file_name) = b.(file_name)
             /\ ann.(ann_size) = (b.(width), b.(height))
             /\ ann.(ann_bbox)
                = (b.(x), b.(y), num_add b.(x) b.(width),
                   num_add b.(y) b.(height)))
          a.(app_allBoxes) anns
        /\ Forall2
             (fun p p' : Page num =>
                p' = (if isCurrent a.(currentImageId) p then markSaved p
                      else p))
             a.(imageHistory) (imageHistory (fst (saveAnnotations a))))
  /\ app_allBoxes (fst (saveAnnotations a)) = a.(app_allBoxes).
Proof.
  unfold saveAnnotations.
  destruct (app_allBoxes a) as [|b l] eqn:Eb.
  - simpl. repeat split; try tauto; try discriminate.
  - destruct (app_metadata a) as [m|] eqn:Em; simpl.
    + split; [split; [intros _; split; discriminate | discriminate]|].
      split; [discriminate|]. split; [discriminate|].
      split; [|exact Eb].
      intros anns Hanns. injection Hanns as <-. split.
      * apply (Forall2_map_right _ (jsonAnnotation (pageArea m)) (b :: l)).
        intros c. repeat split.
      * apply Forall2_map_right. intros p. reflexivity.
    + split; [split; [intros H; now contradiction H | intros [_ H];
                     now contradiction H]|].
      split; [discriminate|]. split; [reflexivity|].
      split; [discriminate | exact Eb].
Qed.

Lemma map_hd_error {A B : Type} (g : A -> B) (l : list A) :
  hd_error (map g l) = option_map g (hd_error l).
Proof. now destruct l. Qed.

(** X17. The three exports agree.  Outside Database Mode both database
    handlers report "Not in Database Mode!" whatever the store holds.  In
    Database Mode they send a request exactly when [saveAnnotations]
    downloads a file, and then the three lists describe the same boxes in
    the same order with the same corners, size, category, file name and
    share of the page; the [file_name] of the [/save] request is present
    and is the file name of the first box. *)
Theorem exports_agree (a : App num) :
  (a.(isDatabaseMode) = false ->
   handleSaveToDB a = inl (mkFeedback FeedbackError "Not in Database Mode!")
   /\ handleSaveAllPages a
      = inl (mkFeedback FeedbackError "Not in Database Mode!"))
  /\ (a.(isDatabaseMode) = true ->
      (snd (saveAnnotations a) = None ->
       (exists f, handleSaveToDB a = inl f)
       /\ (exists f, handleSaveAllPages a = inl f))
      /\ (forall anns, snd (saveAnnotations a) = Some anns ->
            exists (first : Box num) (req : SaveRequest num)
                   (page : string * num * num)
                   (anns' : list (Annotation num)),
              hd_error a.(app_allBoxes) = Some first
              /\ handleSaveToDB a = inr req
              /\ req.(req_file_name) = Some first.(file_name)
              /\ handleSaveAllPages a = inr (page, anns')
              /\ Forall2
                   (fun x y : Annotation num =>
                      y.(ann_bbox) = x.(ann_bbox)
                      /\ y.(ann_size) = x.(ann_size)
                      /\ y.(ann_category_id) = x.(ann_category_id)
                      /\ y.(ann_file_name) = x.(ann_file_name)
                      /\ y.(ann_percent_page) = x.(ann_percent_page))
                   anns req.(req_annotations)
              /\ Forall2
                   (fun x y : Annotation num =>
                      y.(ann_bbox) = x.(ann_bbox)
                      /\ y.(ann_size) = x.(ann_size)
                      /\ y.(ann_category_id) = x.(ann_category_id)
                      /\ y.(ann_file_name) = x.(ann_file_name)
                      /\ y.(ann_percent_page) = x.(ann_percent_page))
                   anns anns')).
Proof.
  unfold handleSaveToDB, handleSaveAllPages, saveAnnotations. split.
  - intros ->. split; reflexivity.
  - intros ->. simpl.
    destruct (app_allBoxes a) as [|b l] eqn:Eb.
    + split; [intros _; split; eexists; reflexivity | discriminate].
    + destruct (app_metadata a) as [m|] eqn:Em.
      * split; [discriminate|]. intros anns Hanns.
        simpl in Hanns. injection Hanns as <-.
        exists b. eexists. eexists. eexists.
        split; [reflexivity|]. split; [reflexivity|].
        split; [reflexivity|]. split; [reflexivity|].
        split;
          [apply (Forall2_map_both _ (jsonAnnotation (pageArea m))
                    (dbAnnotation (pageArea m)) (b :: l))
          |apply (Forall2_map_both _ (jsonAnnotation (pageArea m))
                    (allPagesAnnotation (pageArea m)) (b :: l))];
          intros c; repeat split.
      * split; [intros _; split; eexists; reflexivity | discriminate].
Qed.

(** The part of the round trip that needs no arithmetic: a box exported
    and read back as a prediction keeps its origin, category and file
    name, and its width and height are [(x + width) - x] and
    [(y + height) - y]. *)
Lemma reimport_fields (now : Z) (idx : nat) (b : Box num) :
  let b' := processPrediction now idx (reimport b) in
  b'.(x) = b.(x) /\ b'.(y) = b.(y)
  /\ b'.(category_id) = b.(category_id)
  /\ b'.(file_name) = b.(file_name)
  /\ b'.(width) = num_sub (num_add b.(x) b.(width)) b.(x)
  /\ b'.(height) = num_sub (num_add b.(y) b.(height)) b.(y).
Proof. repeat split. Qed.

End ExportProperties.

(** X18. In exact arithmetic export and import are inverse on the
    geometry: a box exported and read back as a prediction has its [x],
    [y], width and height again, and a prediction turned into a box is
    exported with the corners of its [bbox]. *)
Theorem export_import_exact (now : Z) (idx : nat) (b : Box Q)
    (pred : Prediction Q) :
  (let b' := processPrediction now idx (reimport b) in
   b'.(x) = b.(x) /\ b'.(y) = b.(y)
   /\ b'.(width) == b.(width) /\ b'.(height) == b.(height)
   /\ b'.(category_id) = b.(category_id)
   /\ b'.(file_name) = b.(file_name))
  /\ (let '(x1, y1, x2, y2) := bboxOf (processPrediction now idx pred) in
      x1 = pred.(bbox0) /\ y1 = pred.(bbox1)
      /\ x2 == pred.(bbox2) /\ y2 == pred.(bbox3)).
Proof.
  split.
  - simpl. repeat split; ring.
  - simpl. repeat split; ring.
Qed.

(** In binary64 the far corner can come back moved: the prediction with
    [bbox] [0.2, 0.2, 0.9, 0.9] (as tenths) is exported with another
    [x2]. *)
Lemma export_import_binary64 :
  let tenth (n : N) : float := PrimFloat.div (Run.f n) (Run.f 10) in
  let pred := mkPrediction None None (tenth 2%N) (tenth 2%N) (tenth 9%N)
                (tenth 9%N) "page.png" in
  let '(x1, y1, x2, y2) := bboxOf (processPrediction 0 0 pred) in
  x1 = pred.(bbox0) /\ x2 <> pred.(bbox2).
Proof.
  simpl. split; [reflexivity|]. intros H.
  apply (f_equal (fun v => PrimFloat.eqb v
                             (PrimFloat.div (Run.f 9) (Run.f 10)))) in H.
  vm_compute in H. discriminate H.
Qed.

(* ================================================================== *)
(** ** Legend and colours *)

(** X19. A click on the legend item of a category [k] makes that item,
    and no other item and not the item "All", the active one; with the
    filter "all" the item "All" and no category item is active. *)
Theorem legend_active_item (k j : Z) :
  legendItemActive (legendClick k) j = Z.eqb k j
  /\ legendAllActive (legendClick k) = false
  /\ legendItemActive "all" j = false
  /\ legendAllActive "all" = true.
Proof.
  unfold legendItemActive, legendAllActive, legendClick.
  rewrite parseInt_toString, toString_not_all. repeat split.
Qed.

(** X20. The legend of the application and the viewer agree: they list
    the same seven categories with the same names, each legend colour is
    the fill the viewer gives boxes of that category, the seven colours
    are pairwise distinct, and every other category value - [null], [NaN],
    any other number - gets one further colour, which is also the fill of
    the box being drawn. *)
Theorem legend_matches_viewer :
  map (fun e => (fst (fst e), snd (fst e))) legend = categories
  /\ Forall (fun e => getColorForCategory (Some (JInt (fst (fst e))))
                      = snd e) legend
  /\ NoDup (map (fun e => snd e) legend)
  /\ ~ In drawingFill (map (fun e => snd e) legend)
  /\ (forall c : option JsInt,
        (forall e, In e legend -> c <> Some (JInt (fst (fst e)))) ->
        getColorForCategory c = drawingFill).
Proof.
  split; [reflexivity|]. split.
  { repeat constructor. }
  split.
  { repeat (constructor;
            [simpl; intros H;
             repeat (destruct H as [H|H]; [discriminate H|]); exact H|]).
    constructor. }
  split.
  { simpl. intros H.
    repeat (destruct H as [H|H]; [discriminate H|]). exact H. }
  intros c Hc.
  destruct c as [[|z]|]; try reflexivity.
  destruct z as [|p|p]; try reflexivity.
  - exfalso. apply (Hc (0%Z, "Photograph", "rgba(58,68,102,0.4)"));
      [simpl; tauto | reflexivity].
  - destruct p as [[[q|q|]|[q|q|]|]|[[q|q|]|[q|q|]|]|]; try reflexivity;
      exfalso;
      match goal with
      | |- False =>
          first
            [ apply (Hc (1%Z, "Illustration", "rgba(178,57,48,0.4)"));
              [simpl; tauto | reflexivity]
            | apply (Hc (2%Z, "Map", "rgba(47,115,84,0.4)"));
              [simpl; tauto | reflexivity]
            | apply (Hc (3%Z, "Comic/Cartoon", "rgba(216,172,82,0.4)"));
              [simpl; tauto | reflexivity]
            | apply (Hc (4%Z, "Editorial Cartoon", "rgba(112,72,145,0.4)"));
              [simpl; tauto | reflexivity]
            | apply (Hc (5%Z, "Headline", "rgba(66,113,161,0.4)"));
              [simpl; tauto | reflexivity]
            | apply (Hc (6%Z, "Advertisement", "rgba(189,87,38,0.4)"));
              [simpl; tauto | reflexivity] ]
      end.
Qed.

(* ================================================================== *)
(** ** A finished upload *)

Section UploadProperties.
Context {num : Type} `{NumOps : Number num}.

Lemma toString_nonempty (k : Z) : toString k <> "".
Proof.
  destruct (toString_head k) as (c & r & E & _). rewrite E. discriminate.
Qed.

(** X21. The load handler of an upload installs nothing when the
    response holds an empty list of predictions (it throws before any
    state is set).  Otherwise the store is the list of boxes made from the
    predictions, one per prediction; a new unsaved page with these boxes
    and the new current id is appended to the history, whose earlier
    pages are unchanged; the metadata of the page carries the file name of
    the first prediction and the size of the loaded image; and once the
    history effect has run, every history entry with the current id holds
    the store. *)
Theorem onloadUpload_installs (clock : nat -> Z) (now : Z)
    (date url : string) (width height : N) (res : Response num)
    (a : App num) :
  (onloadUpload clock now date url width height res a = None
   <-> res.(res_predictions) = [])
  /\ (forall a', onloadUpload clock now date url width height res a
                 = Some a' ->
        a'.(app_allBoxes)
        = processedPredictions clock
            (map (@row_prediction num) res.(res_predictions))
        /\ List.length a'.(app_allBoxes)
           = List.length res.(res_predictions)
        /\ a'.(currentImageId) = Some (toString now)
        /\ (exists p first,
              a'.(imageHistory) = a.(imageHistory) ++ [p]
              /\ p.(page_id) = toString now
              /\ p.(unsaved) = true
              /\ p.(predictions) = a'.(app_allBoxes)
              /\ a'.(app_metadata) = Some p.(page_metadata)
              /\ hd_error res.(res_predictions) = Some first
              /\ p.(page_metadata).(page_fileName)
                 = first.(row_prediction).(pred_file_name)
              /\ p.(page_metadata).(page_width) = width
              /\ p.(page_metadata).(page_height) = height)
        /\ (forall p, In p (imageHistory (effect_history a')) ->
              p.(page_id) = toString now ->
              p.(predictions) = a'.(app_allBoxes))).
Proof.
  unfold onloadUpload.
  destruct (res_predictions res) as [|first rows] eqn:E.
  - split; [tauto | discriminate].
  - split; [split; discriminate|].
    intros a' Ha'. injection Ha' as <-. simpl.
    split; [reflexivity|].
    split.
    { unfold processedPredictions. rewrite mapWithIndex_length.
      simpl. now rewrite length_map. }
    split; [reflexivity|].
    split.
    { eexists. exists first. repeat split. }
    intros p Hin Hid.
    eapply effect_history_entry in Hin as [Hin _];
      [| reflexivity | apply toString_nonempty].
    now apply Hin.
Qed.

End UploadProperties.

(* ================================================================== *)
(** ** The metadata form *)

Lemma typeAll_keeps (edits : list (string * string)) :
  forall (e : bool) (m : PageMetadata),
  exists m',
    typeAll edits (mkMetadataForm e (Some m)) = mkMetadataForm e (Some m')
    /\ m'.(uploadDate) = m.(uploadDate)
    /\ m'.(page_width) = m.(page_width)
    /\ m'.(page_height) = m.(page_height).
Proof.
  induction edits as [|[name value] edits IH]; intros e m.
  - exists m. repeat split.
  - destruct (IH e (withField name value m)) as (m' & E & Hd & Hw & Hh).
    exists m'. split; [exact E|].
    rewrite Hd, Hw, Hh. unfold withField.
    destruct (String.eqb name "fileName"); [repeat split|].
    destruct (String.eqb name "annotator"); repeat split.
Qed.

(** X22. "Edit" loads the metadata of the page shown at that moment into
    the form, so edits abandoned with "Cancel" are gone at the next
    "Edit".  Whatever is typed, the upload date and the dimensions of the
    copy stay as they were.  "Save" closes the form and stores the copy
    with the typed values as the metadata of the page that is current in
    the application when "Save" is pressed, in its state and in every
    history entry of that page, without touching the store. *)
Theorem metadata_form (num : Type) (m : PageMetadata)
    (edits : list (string * string)) (f : MetadataForm) (a : App num) :
  f.(editable) = false ->
  exists m' : PageMetadata,
    typeAll edits (handleEditToggle (Some m) f)
    = mkMetadataForm true (Some m')
    /\ m'.(uploadDate) = m.(uploadDate)
    /\ m'.(page_width) = m.(page_width)
    /\ m'.(page_height) = m.(page_height)
    /\ (forall current : option PageMetadata,
          handleEditToggle current
            (handleEditToggle current
               (typeAll edits (handleEditToggle (Some m) f)))
          = mkMetadataForm true current)
    /\ fst (saveForm (typeAll edits (handleEditToggle (Some m) f)) a)
       = mkMetadataForm false (Some m')
    /\ app_metadata
         (snd (saveForm (typeAll edits (handleEditToggle (Some m) f)) a))
       = Some m'
    /\ app_allBoxes
         (snd (saveForm (typeAll edits (handleEditToggle (Some m) f)) a))
       = a.(app_allBoxes)
    /\ Forall2
         (fun p p' : Page num =>
            p'.(page_id) = p.(page_id)
            /\ p'.(predictions) = p.(predictions)
            /\ p'.(page_metadata)
               = (if isCurrent a.(currentImageId) p then m'
                  else p.(page_metadata)))
         a.(imageHistory)
         (imageHistory
            (snd (saveForm (typeAll edits (handleEditToggle (Some m) f))
                    a))).
Proof.
  intros Hf.
  assert (Et : handleEditToggle (Some m) f = mkMetadataForm true (Some m))
    by (unfold handleEditToggle; now rewrite Hf).
  destruct (typeAll_keeps edits true m) as (m' & E & Hd & Hw & Hh).
  exists m'. rewrite !Et, !E.
  split; [reflexivity|]. split; [exact Hd|]. split; [exact Hw|].
  split; [exact Hh|]. split; [reflexivity|]. split; [reflexivity|].
  split; [reflexivity|]. split; [reflexivity|].
  unfold saveForm. simpl. apply Forall2_map_right. intros p.
  destruct (isCurrent (currentImageId a) p); repeat split.
Qed.

(* ================================================================== *)
(** ** Names of the segment files *)

Lemma append_assoc (a b c : string) :
  (a ++ (b ++ c) = (a ++ b) ++ c)%string.
Proof.
  induction a as [|x a IH]; simpl; [reflexivity | now rewrite IH].
Qed.

Lemma toLowerCase_app (a b : string) :
  toLowerCase (a ++ b) = (toLowerCase a ++ toLowerCase b)%string.
Proof.
  induction a as [|c a IH]; simpl; [reflexivity | now rewrite IH].
Qed.

Lemma endsWith_app (a suffix : string) :
  endsWith (a ++ suffix) suffix = true.
Proof.
  induction a as [|c a IH].
  - change (("" ++ suffix)%string) with suffix.
    destruct suffix; cbn [endsWith]; now rewrite String.eqb_refl.
  - change ((String c a ++ suffix)%string) with (String c (a ++ suffix)).
    cbn [endsWith]. rewrite IH.
    now destruct (String.eqb (String c (a ++ suffix)) suffix).
Qed.

Lemma splitSlash_nonempty (s : string) : splitSlash s <> [].
Proof.
  destruct s as [|c r]; simpl; [discriminate|].
  destruct (Ascii.eqb c "/"); [discriminate|].
  destruct (splitSlash r); discriminate.
Qed.

(** [s.split('/').join('/')] is [s]. *)
Lemma concat_splitSlash (s : string) : String.concat "/" (splitSlash s) = s.
Proof.
  induction s as [|c r IH]; [reflexivity|].
  simpl splitSlash. destruct (Ascii.eqb c "/") eqn:E.
  - apply Ascii.eqb_eq in E. subst c.
    pose proof (splitSlash_nonempty r) as Hne.
    destruct (splitSlash r) as [|h t]; [contradiction|].
    change (String.concat "/" (EmptyString :: h :: t))
      with (String "/" (String.concat "/" (h :: t))).
    rewrite IH. reflexivity.
  - pose proof (splitSlash_nonempty r) as Hne.
    destruct (splitSlash r) as [|h t]; [contradiction|].
    rewrite <- IH. destruct t; reflexivity.
Qed.

Lemma concat_snoc (l : list string) (piece : string) :
  l <> [] ->
  String.concat "/" (l ++ [piece])
  = (String.concat "/" l ++ "/" ++ piece)%string.
Proof.
  induction l as [|a l IH]; intros Hne; [contradiction|].
  destruct l as [|b l].
  - reflexivity.
  - change ((a :: b :: l) ++ [piece]) with (a :: ((b :: l) ++ [piece])).
    change (String.concat "/" (a :: (b :: l) ++ [piece]))
      with (a ++ "/" ++ String.concat "/" ((b :: l) ++ [piece]))%string.
    rewrite IH by discriminate.
    change (String.concat "/" (a :: b :: l))
      with (a ++ "/" ++ String.concat "/" (b :: l))%string.
    rewrite <- !append_assoc. reflexivity.
Qed.

Lemma cut_at_first (c : ascii) (a : string) :
  forall b d1 d2 : string,
    (a ++ String c d1 = b ++ String c d2)%string ->
    occurs c a = false -> occurs c b = false -> a = b.
Proof.
  induction a as [|x a IH]; intros [|y b] d1 d2 H Ha Hb; simpl in *.
  - reflexivity.
  - injection H as Hy _. subst y. rewrite Ascii.eqb_refl in Hb.
    discriminate Hb.
  - injection H as Hx _. subst x. rewrite Ascii.eqb_refl in Ha.
    discriminate Ha.
  - injection H as -> H. apply orb_false_iff in Ha as [_ Ha].
    apply orb_false_iff in Hb as [_ Hb].
    f_equal. exact (IH b d1 d2 H Ha Hb).
Qed.

Lemma string_of_uint_no_underscore (d : uint) :
  occurs "_"%char (NilEmpty.string_of_uint d) = false.
Proof.
  induction d; simpl; try exact IHd; reflexivity.
Qed.

Lemma toString_nat_no_underscore (n : nat) :
  occurs "_"%char (toString (Z.of_nat n)) = false.
Proof.
  unfold toString. destruct (Z.of_nat n) as [|p|p] eqn:E; simpl Z.to_int.
  - reflexivity.
  - cbn [NilZero.string_of_int].
    rewrite NilZero_string_of_uint_nonnil by apply Unsigned.to_uint_nonnil.
    apply string_of_uint_no_underscore.
  - pose proof (Nat2Z.is_nonneg n) as Hn. rewrite E in Hn.
    exfalso. now apply Hn.
Qed.

Lemma segmentEntry_name_shape (idx : nat) (file_name : string) :
  exists rest : string,
    snd (segmentEntry idx file_name)
    = (toString (Z.of_nat idx) ++ String "_"%char rest)%string.
Proof.
  unfold segmentEntry. cbv zeta. simpl snd.
  match goal with
  | |- context [if negb ?t then _ else _] => destruct t
  end; simpl negb; cbv iota.
  - eexists. reflexivity.
  - eexists. rewrite <- append_assoc. simpl. reflexivity.
Qed.

Lemma splitSlash_no_slash (s : string) :
  Forall (fun piece => occurs "/"%char piece = false) (splitSlash s).
Proof.
  induction s as [|c r IH]; simpl splitSlash.
  - repeat constructor.
  - destruct (Ascii.eqb c "/") eqn:E.
    + constructor; [reflexivity | exact IH].
    + assert (E' : Ascii.eqb "/" c = false)
        by (rewrite Ascii.eqb_sym; exact E).
      destruct (splitSlash r) as [|h t].
      * repeat constructor. cbn [occurs]. now rewrite E'.
      * inversion IH as [|? ? Hh Ht]; subst. constructor; [|exact Ht].
        cbn [occurs]. now rewrite E', Hh.
Qed.

(** X23. The segment of the box at index [idx] is stored under a file
    name that starts with [idx] and an underscore and, whatever the case
    of its letters, ends in ".png"; two boxes at different indices never
    get the same file name.  The folder and the last piece of the box's
    [file_name] are its parts around the last slash (a [file_name] without
    slash gives the empty folder), and an empty last piece is replaced by
    "box.png". *)
Theorem segmentEntry_names (idx : nat) (file_name : string) :
  endsWith (toLowerCase (snd (segmentEntry idx file_name))) ".png" = true
  /\ (exists rest : string,
        snd (segmentEntry idx file_name)
        = (toString (Z.of_nat idx) ++ String "_"%char rest)%string)
  /\ (forall (idx' : nat) (file_name' : string),
        snd (segmentEntry idx file_name)
        = snd (segmentEntry idx' file_name') ->
        idx = idx')
  /\ (exists folderParts piece,
        splitSlash file_name = folderParts ++ [piece]
        /\ occurs "/"%char piece = false
        /\ fst (segmentEntry idx file_name) = String.concat "/" folderParts
        /\ (folderParts <> [] ->
            file_name
            = (fst (segmentEntry idx file_name) ++ "/" ++ piece)%string)
        /\ (folderParts = [] -> file_name = piece)
        /\ (piece = "" ->
            snd (segmentEntry idx file_name)
            = (toString (Z.of_nat idx) ++ "_box.png")%string)).
Proof.
  split; [|split; [apply segmentEntry_name_shape|split]].
  - unfold segmentEntry. cbv zeta. simpl snd.
    match goal with
    | |- context [if negb ?t then _ else _] => destruct t eqn:E
    end; simpl negb; cbv iota.
    + exact E.
    + rewrite toLowerCase_app. apply endsWith_app.
  - intros idx' file_name' H.
    destruct (segmentEntry_name_shape idx file_name) as (r & E).
    destruct (segmentEntry_name_shape idx' file_name') as (r' & E').
    rewrite E, E' in H.
    apply cut_at_first in H; try apply toString_nat_no_underscore.
    apply toString_inj in H. now apply Nat2Z.inj.
  - pose proof (splitSlash_nonempty file_name) as Hne.
    pose proof (app_removelast_last EmptyString Hne) as Hsplit.
    exists (List.removelast (splitSlash file_name)),
           (List.last (splitSlash file_name) EmptyString).
    split; [exact Hsplit|].
    split.
    { pose proof (splitSlash_no_slash file_name) as Hall.
      rewrite Hsplit in Hall. apply Forall_app in Hall as [_ Hall].
      now inversion Hall. }
    split; [reflexivity|].
    split; [|split].
    + intros Hfolder. rewrite <- (concat_splitSlash file_name) at 1.
      rewrite Hsplit at 1. now apply concat_snoc.
    + intros Hfolder. rewrite <- (concat_splitSlash file_name) at 1.
      rewrite Hsplit at 1. rewrite Hfolder. reflexivity.
    + intros Hpiece. unfold segmentEntry. cbv zeta. rewrite Hpiece.
      simpl truthy_string. cbv iota. simpl snd.
      assert (Hlow : endsWith
                       (toLowerCase
                          (toString (Z.of_nat idx) ++ "_" ++ "box.png")%string)
                       ".png" = true).
      { rewrite toLowerCase_app.
        change (toLowerCase ("_" ++ "box.png")) with ("_box" ++ ".png")%string.
        rewrite append_assoc. apply endsWith_app. }
      change ("_" ++ "box.png")%string with "_box.png" in Hlow.
      rewrite Hlow. reflexivity.
Qed.

(* ================================================================== *)
(** ** Clearing a page *)

Section ClearAll.
Context {num : Type}.

Lemma effect_history_current (a : App num) (i : string) :
  a.(currentImageId) = Some i -> i <> "" ->
  currentImageId (effect_history a) = Some i.
Proof.
  intros Hcur Hi. unfold effect_history.
  rewrite Hcur, (truthy_string_Some Hi). exact Hcur.
Qed.

(** X24. "Clear all" opens the confirmation; "Cancel" closes it and
    leaves the store as it is.  "Confirm" closes it and only marks every
    box of the store as fading; its timer then empties the store, and the
    history effect empties the history entries of the page shown at that
    moment.  That page need not be the page that was cleared: when the
    user has switched to another page while the boxes fade, the timer
    empties the store of that page and the effect its history entry. *)
Theorem clear_all_phases (a : App num) :
  showClearConfirmation (handleClearAllBoxes a) = true
  /\ showClearConfirmation (cancelClearAllBoxes (handleClearAllBoxes a))
     = false
  /\ app_allBoxes (cancelClearAllBoxes (handleClearAllBoxes a))
     = a.(app_allBoxes)
  /\ showClearConfirmation (confirmClearAllBoxes (handleClearAllBoxes a))
     = false
  /\ Forall2 (fun b b' : Box num => b' = markFadeOut b)
       a.(app_allBoxes)
       (app_allBoxes (confirmClearAllBoxes (handleClearAllBoxes a)))
  /\ (forall (i : string) (p : Page num),
        a.(currentImageId) = Some i -> i <> "" ->
        In p (imageHistory
                (effect_history
                   (clearAllTimeout
                      (confirmClearAllBoxes (handleClearAllBoxes a))))) ->
        p.(page_id) = i -> p.(predictions) = [])
  /\ (forall (i : string) (pB p : Page num),
        a.(currentImageId) = Some i -> i <> "" ->
        pB.(page_id) <> i -> pB.(page_id) <> "" ->
        In p (imageHistory
                (effect_history
                   (clearAllTimeout
                      (switchPage pB
                         (effect_history
                            (confirmClearAllBoxes
                               (handleClearAllBoxes a))))))) ->
        p.(page_id) = pB.(page_id) -> p.(predictions) = []).
Proof.
  split; [reflexivity|]. split; [reflexivity|]. split; [reflexivity|].
  split; [reflexivity|]. split.
  { simpl. apply Forall2_map_right. reflexivity. }
  split.
  - intros i p Hcur Hi Hin Hid.
    eapply effect_history_entry in Hin as [Hin _]; [| exact Hcur | exact Hi].
    exact (Hin Hid).
  - intros i pB p Hcur Hi HB HBne Hin Hid.
    set (a1 := confirmClearAllBoxes (handleClearAllBoxes a)) in *.
    assert (Hcur1 : currentImageId (effect_history a1) = Some i)
      by (apply effect_history_current; [exact Hcur | exact Hi]).
    rewrite (switchPage_other pB (effect_history a1) Hcur1 HB) in Hin.
    eapply effect_history_entry in Hin as [Hin _];
      [| reflexivity | exact HBne].
    exact (Hin Hid).
Qed.

End ClearAll.

(* ================================================================== *)
(** ** The properties of the application on the pages of [RunApp] *)

Lemma switch_away_and_back_witness :
  let back := withPredictions [Run.box1; Run.box7] RunApp.page1 in
  app_allBoxes
    (switchPage back
       (effect_history (switchPage RunApp.page2 (effect_history RunApp.app))))
  = [Run.box1; Run.box7].
Proof.
  intros back.
  refine (proj1 (switch_away_and_back RunApp.app (i := "1735812000000")
                   RunApp.page2 back _ _ _ _ _ _)).
  - reflexivity.
  - discriminate.
  - discriminate.
  - discriminate.
  - left. reflexivity.
  - reflexivity.
Defined.

Lemma saveAnnotations_cases_witness :
  saveAnnotations RunApp.app_empty
  = (setFeedbackMessage
       (Some (mkFeedback FeedbackError "No bounding boxes to save."))
       RunApp.app_empty, None)
  /\ snd (saveAnnotations RunApp.app_no_metadata) = None
  /\ snd (saveAnnotations RunApp.app) <> None.
Proof.
  split; [|split].
  - apply (proj1 (proj2 (saveAnnotations_cases RunApp.app_empty))).
    reflexivity.
  - rewrite (proj1 (proj2 (proj2 (saveAnnotations_cases
                                    RunApp.app_no_metadata))));
      [reflexivity | discriminate | reflexivity].
  - apply (proj1 (saveAnnotations_cases RunApp.app)).
    split; discriminate.
Defined.

Lemma exports_agree_witness :
  (exists f, handleSaveToDB RunApp.app_empty = inl f)
  /\ exists req, handleSaveToDB RunApp.app = inr req
                 /\ req.(req_file_name) = Some Run.box1.(file_name).
Proof.
  split.
  - apply (proj1 (proj2 (exports_agree RunApp.app_empty) eq_refl)).
    reflexivity.
  - destruct (proj2 (proj2 (exports_agree RunApp.app) eq_refl)
                _ eq_refl)
      as (first & req & page & anns' & Hfirst & Hreq & Hname & _).
    exists req. split; [exact Hreq|].
    rewrite Hname. injection Hfirst as <-. reflexivity.
Defined.

Lemma legend_matches_viewer_witness :
  getColorForCategory (Some (JInt 7)) = drawingFill
  /\ getColorForCategory (Some JNaN) = drawingFill.
Proof.
  split; apply (proj2 (proj2 (proj2 (proj2 legend_matches_viewer))));
    intros e He; simpl in He;
    repeat (destruct He as [He|He]; [subst e; discriminate|]);
    contradiction.
Defined.

Lemma onloadUpload_installs_witness :
  let clock (n : nat) := (1735812600000 + Z.of_nat n)%Z in
  exists a',
    onloadUpload clock 1735812600500 "1/2/2025, 10:10:00" "blob:3"
      2000 3000 RunApp.response RunApp.app = Some a'
    /\ List.length a'.(app_allBoxes) = 2%nat
    /\ a'.(currentImageId) = Some "1735812600500".
Proof.
  intros clock. eexists. split; [reflexivity|].
  destruct (proj2 (onloadUpload_installs clock 1735812600500
                     "1/2/2025, 10:10:00" "blob:3" 2000 3000
                     RunApp.response RunApp.app) _ eq_refl)
    as (_ & Hlen & Hcur & _).
  split; [exact Hlen | exact Hcur].
Defined.

Lemma metadata_form_witness :
  let edits := [("annotator", "T. K."); ("fileName", "jugend_001.png")] in
  exists m',
    typeAll edits (handleEditToggle (Some RunApp.meta1) (mountForm None))
    = mkMetadataForm true (Some m')
    /\ m'.(uploadDate) = "1/2/2025, 10:00:00".
Proof.
  intros edits.
  destruct (metadata_form RunApp.meta1 edits (mountForm None)
              RunApp.app eq_refl)
    as (m' & Hform & Hdate & _).
  exists m'. split; [exact Hform | exact Hdate].
Defined.

Lemma segmentEntry_names_witness :
  segmentEntry 3 "scans/1899/" = ("scans/1899", "3_box.png").
Proof.
  destruct (proj2 (proj2 (proj2 (segmentEntry_names 3 "scans/1899/"))))
    as (folderParts & piece & Hsplit & _ & Hfolder & _ & _ & Hname).
  assert (Hparts : folderParts = ["scans"; "1899"] /\ piece = "").
  { change (splitSlash "scans/1899/") with (["scans"; "1899"] ++ [""])
      in Hsplit.
    apply app_inj_tail in Hsplit as [<- <-]. now split. }
  destruct Hparts as [-> ->].
  rewrite (surjective_pairing (segmentEntry 3 "scans/1899/")).
  rewrite Hfolder, (Hname eq_refl). reflexivity.
Defined.

Lemma clear_all_phases_witness :
  Forall (fun p : Page float =>
            p.(page_id) = "1735812300000" -> p.(predictions) = [])
    (imageHistory
       (effect_history
          (clearAllTimeout
             (switchPage RunApp.page2
                (effect_history
                   (confirmClearAllBoxes
                      (handleClearAllBoxes RunApp.app))))))).
Proof.
  apply Forall_forall. intros p Hin Hid.
  apply (proj2 (proj2 (proj2 (proj2 (proj2 (proj2
           (clear_all_phases RunApp.app))))))
           "1735812000000" RunApp.page2 p);
    [reflexivity | discriminate | discriminate | discriminate
    | exact Hin | exact Hid].
Defined.
